(** * LEGO catalog scrapers: a shallow embedding of the extraction core

    Two variants of the scraper live in the repository.

    - The API-capture variant (its [routes.ts] registers one CATALOG handler):
      a response interceptor fills the module-level map [capturedProducts],
      [parseApiProduct] normalizes the captured records, and the DOM is only
      a fallback.  It is embedded in [Module ApiScraper].
    - The detail-page variant ([lego-scraper/src/routes.ts]): the CATALOG
      handler enqueues product pages and the PRODUCT handler reads every
      field from the rendered page.  It is embedded in [Module LegoScraper].

    JavaScript values are modelled along the TypeScript interfaces of the
    source: an optional property is an [option], a string is a [string]
    holding the UTF-8 bytes of the text, [null] and [undefined] are
    [None].  The entries of [capturedProducts] come out of [JSON.parse]
    unchecked; [Module Untyped] embeds the API path on entries whose
    identifier and link are any JSON values. *)

From Stdlib Require Import ZArith List String Ascii Bool Lia Floats.
Import ListNotations.

Local Open Scope list_scope.
Local Open Scope string_scope.

(** ** JavaScript helpers shared by both variants *)
Module Js.

(** Truthiness of a string: only the empty string is falsy. *)
Definition truthy (s : string) : bool := negb (s =? "").

(** [a || d] where [a] is an optional string and [d] a string. *)
Definition str_or (a : option string) (d : string) : string :=
  match a with
  | Some s => if truthy s then s else d
  | None => d
  end.

(** [a || b] where both sides may be [null]/[undefined]; every falsy left
    operand (absent or empty) yields the right operand. *)
Definition opt_or (a b : option string) : option string :=
  match a with
  | Some s => if truthy s then Some s else b
  | None => b
  end.

(** [String.prototype.startsWith]. *)
Definition startsWith (s p : string) : bool := prefix p s.

(** [String.prototype.includes]. *)
Fixpoint includes (s sub : string) : bool :=
  match s with
  | EmptyString => prefix sub s
  | String _ t => prefix sub s || includes t sub
  end.

Definition is_digit (c : ascii) : bool :=
  let n := nat_of_ascii c in (48 <=? n)%nat && (n <=? 57)%nat.

Definition digit_char (d : Z) : ascii := ascii_of_nat (48 + Z.to_nat d).

Definition digit_val (c : ascii) : Z := Z.of_nat (nat_of_ascii c - 48).

(** Decimal digits of a non-negative integer, most significant first
    (what [Number::toString] prints for an integer).  [fuel] bounds the
    number of digits produced. *)
Fixpoint dec_digits (fuel : nat) (n : Z) : string :=
  match fuel with
  | O => ""
  | S f =>
      if (n <? 10)%Z then String (digit_char n) ""
      else dec_digits f (n / 10) ++ String (digit_char (n mod 10)) ""
  end.

Definition dec_string (n : Z) : string :=
  dec_digits (S (Z.to_nat (Z.log2 n))) n.

(** Left padding with ["0"] up to [len] characters. *)
Fixpoint zeros (k : nat) : string :=
  match k with
  | O => ""
  | S k' => String "0" (zeros k')
  end.

Definition pad_zeros (len : nat) (m : string) : string :=
  zeros (len - String.length m) ++ m.

(** [(c / 100).toFixed(2)] for an integer [c].

    [Number.prototype.toFixed(f)] picks the integer [n] for which
    [n / 10^f - x] is closest to zero, prints the digits of [n], pads them
    with zeros to [f + 1] characters and puts the point before the last [f]
    digits; a negative [x] is printed as ["-"] followed by the text for
    [-x].  Here [x] is the double nearest to [c / 100]; for an integer
    [|c| < 100 * 2^46] that double is within 0.005 of [c / 100], so [n] is
    [|c|] itself, and the function below is exact on that range (the bound
    is [cents_exact] further down). *)
Definition toFixed2_hundredths (c : Z) : string :=
  let n := Z.abs c in
  let m := pad_zeros 3 (dec_string n) in
  let k := String.length m in
  let body := substring 0 (k - 2) m ++ "." ++ substring (k - 2) 2 m in
  if (c <? 0)%Z then "-" ++ body else body.

(** [[...new Set(xs)]]: duplicates removed, first occurrences kept in
    order. *)
Fixpoint mem_str (x : string) (l : list string) : bool :=
  match l with
  | [] => false
  | y :: t => (x =? y) || mem_str x t
  end.

Fixpoint dedup_acc (seen : list string) (l : list string) : list string :=
  match l with
  | [] => []
  | x :: t =>
      if mem_str x seen then dedup_acc seen t
      else x :: dedup_acc (x :: seen) t
  end.

Definition dedup (l : list string) : list string := dedup_acc [] l.

(** The longest prefix whose characters satisfy [f], and the rest. *)
Fixpoint span (f : ascii -> bool) (s : string) : string * string :=
  match s with
  | EmptyString => ("", "")
  | String c t =>
      if f c then let (a, b) := span f t in (String c a, b) else ("", s)
  end.

(** The class [[\d,.]] of the price pattern. *)
Definition is_amount_char (c : ascii) : bool :=
  is_digit c || (c =? ",")%char || (c =? ".")%char.

(** [s.match(/\$[\d,.]+/)?.[0]]: the leftmost dollar sign that is followed
    by at least one character of the class, with the longest such run. *)
Fixpoint match_amount (s : string) : option string :=
  match s with
  | EmptyString => None
  | String c t =>
      if (c =? "$")%char then
        match fst (span is_amount_char t) with
        | EmptyString => match_amount t
        | run => Some (String "$" run)
        end
      else match_amount t
  end.

(** [s.match(/\$[\d,.]+/g) || []]: all the matches from left to right,
    the search resuming after the end of each match; [skip] counts the
    characters of the current match still to be passed over. *)
Fixpoint match_all_amounts_from (skip : nat) (s : string) : list string :=
  match s with
  | EmptyString => []
  | String c t =>
      match skip with
      | S k => match_all_amounts_from k t
      | O =>
          if (c =? "$")%char then
            match fst (span is_amount_char t) with
            | EmptyString => match_all_amounts_from 0 t
            | run =>
                String "$" run :: match_all_amounts_from (String.length run) t
            end
          else match_all_amounts_from 0 t
      end
  end.

Definition match_all_amounts (s : string) : list string :=
  match_all_amounts_from 0 s.

(** [s.match(/(\d+)/)?.[1]]: the leftmost maximal run of digits. *)
Fixpoint first_digits (s : string) : option string :=
  match s with
  | EmptyString => None
  | String c t =>
      if is_digit c then Some (fst (span is_digit s)) else first_digits t
  end.

(** The end of the input, or a character accepted by [term]. *)
Definition at_end_or (term : ascii -> bool) (rest : string) : bool :=
  match rest with
  | EmptyString => true
  | String c _ => term c
  end.

(** Group 1 of a pattern [sep(\d{lo,hi})(?:term|$)]: at the leftmost [sep]
    whose digit run has between [lo] and [hi] digits and is followed by a
    terminator.  A shorter or a longer run cannot match at that [sep]: the
    character after any admissible number of digits is then another digit. *)
Fixpoint match_number_after (sep : ascii) (lo hi : nat) (term : ascii -> bool)
  (s : string) : option string :=
  match s with
  | EmptyString => None
  | String c t =>
      if (c =? sep)%char then
        let (ds, rest) := span is_digit t in
        if (lo <=? String.length ds)%nat && (String.length ds <=? hi)%nat
           && at_end_or term rest
        then Some ds
        else match_number_after sep lo hi term t
      else match_number_after sep lo hi term t
  end.

(** [parseInt(ds, 10)] on a run of digits, as the integer it denotes (the
    double [parseInt] returns is that integer up to 2^53). *)
Fixpoint digits_value_acc (acc : Z) (ds : string) : Z :=
  match ds with
  | EmptyString => acc
  | String c t => digits_value_acc (10 * acc + digit_val c) t
  end.

Definition parseInt10 (ds : string) : Z := digits_value_acc 0 ds.

(** Texts are held as their UTF-8 bytes.  [is_space] is the white space of
    one byte: tab, line feed, vertical tab, form feed, carriage return,
    space. *)
Definition is_space (c : ascii) : bool :=
  let n := nat_of_ascii c in
  ((9 <=? n)%nat && (n <=? 13)%nat) || (n =? 32)%nat.

(** The white space of two bytes: U+00A0 (C2 A0). *)
Definition is_space2 (c1 c2 : ascii) : bool :=
  (nat_of_ascii c1 =? 194)%nat && (nat_of_ascii c2 =? 160)%nat.

(** The white space of three bytes: U+1680 (E1 9A 80), U+2000 to U+200A
    (E2 80 80 to 8A), U+2028, U+2029 and U+202F (E2 80 A8, A9, AF), U+205F
    (E2 81 9F), U+3000 (E3 80 80) and U+FEFF (EF BB BF). *)
Definition is_space3 (c1 c2 c3 : ascii) : bool :=
  let a := nat_of_ascii c1 in
  let b := nat_of_ascii c2 in
  let c := nat_of_ascii c3 in
  ((a =? 225) && (b =? 154) && (c =? 128))%nat
  || ((a =? 226) && (b =? 128)
      && (((128 <=? c) && (c <=? 138)) || (c =? 168) || (c =? 169)
          || (c =? 175)))%nat
  || ((a =? 226) && (b =? 129) && (c =? 159))%nat
  || ((a =? 227) && (b =? 128) && (c =? 128))%nat
  || ((a =? 239) && (b =? 187) && (c =? 191))%nat.

(** [s] without the code point at its head, when that code point is white
    space in the sense of [String.prototype.trim] and of the class [\s]
    (WhiteSpace and LineTerminator of ECMAScript). *)
Definition drop_space (s : string) : option string :=
  match s with
  | String c1 t1 =>
      if is_space c1 then Some t1
      else
        match t1 with
        | String c2 t2 =>
            if is_space2 c1 c2 then Some t2
            else
              match t2 with
              | String c3 t3 => if is_space3 c1 c2 c3 then Some t3 else None
              | EmptyString => None
              end
        | EmptyString => None
        end
  | EmptyString => None
  end.

(** [s.trimStart()], also the text left by [\s*] at the head of [s]. *)
Fixpoint ltrim (s : string) : string :=
  match s with
  | String c1 t1 =>
      if is_space c1 then ltrim t1
      else
        match t1 with
        | String c2 t2 =>
            if is_space2 c1 c2 then ltrim t2
            else
              match t2 with
              | String c3 t3 => if is_space3 c1 c2 c3 then ltrim t3 else s
              | EmptyString => s
              end
        | EmptyString => s
        end
  | EmptyString => ""
  end.

(** [s] is made of white space only. *)
Fixpoint white_only (s : string) : bool :=
  match s with
  | String c1 t1 =>
      if is_space c1 then white_only t1
      else
        match t1 with
        | String c2 t2 =>
            if is_space2 c1 c2 then white_only t2
            else
              match t2 with
              | String c3 t3 =>
                  if is_space3 c1 c2 c3 then white_only t3 else false
              | EmptyString => false
              end
        | EmptyString => false
        end
  | EmptyString => true
  end.

(** [s.trimEnd()]: the longest end of [s] made of white space is cut. *)
Fixpoint rtrim (s : string) : string :=
  match s with
  | EmptyString => ""
  | String c t => if white_only s then "" else String c (rtrim t)
  end.

Definition trim (s : string) : string := rtrim (ltrim s).

(** U+00A0, the no-break space. *)
Definition nbsp : string :=
  String (ascii_of_nat 194) (String (ascii_of_nat 160) EmptyString).

(** The double-quote character of the attribute selectors. *)
Definition dq : string := String (ascii_of_nat 34) EmptyString.

End Js.

(** ** The API-capture variant *)
Module ApiScraper.
Import Js.

(** [price] and [listPrice] of an [ApiProduct]. *)
Module PriceData.
Record t := mk {
  formattedAmount : option string;
  formattedValue : option string;
  centAmount : option Z;
  currencyCode : option string
}.
End PriceData.

Module Rating.
Record t := mk {
  averageRating : option float;
  totalReviewCount : option Z
}.
End Rating.

(** [attributes], on the product or under [variant]. *)
Module Attributes.
Record t := mk {
  pieceCount : option Z;
  minifigureCount : option Z;
  rating : option Rating.t;
  featuredFlags : option (list string);
  deliveryChannel : option string;
  canAddToBag : option bool
}.
Definition empty : t := mk None None None None None None.
End Attributes.

Module Variant.
Record t := mk {
  id : option string;
  attributes : option Attributes.t
}.
End Variant.

Module Availability.
Record t := mk {
  canAddToBag : option bool;
  deliveryChannel : option string;
  launchDate : option string
}.
End Availability.

(** [primaryImage?: string | { url?: string }]. *)
Inductive PrimaryImage :=
| ImageString (s : string)
| ImageObject (url : option string).

(** An entry of [badges] or [flags]. *)
Module Badge.
Record t := mk {
  text : option string;
  type : option string
}.
End Badge.

Module ApiProduct.
Record t := mk {
  id : option string;
  productCode : option string;
  name : option string;
  slug : option string;
  baseImgUrl : option string;
  primaryImage : option PrimaryImage;
  image : option (option string);
  overrideUrl : option string;
  price : option PriceData.t;
  listPrice : option PriceData.t;
  variant : option Variant.t;
  attributes : option Attributes.t;
  availability : option Availability.t;
  themes : option (list (option string));
  badges : option (list Badge.t);
  flags : option (list Badge.t)
}.
Definition empty : t :=
  mk None None None None None None None None None None None None None None
     None None.
End ApiProduct.

Module LegoProduct.
Record t := mk {
  setNumber : string;
  name : string;
  theme : string;
  pieces : option Z;
  minifigures : option Z;
  rating : option float;
  reviewCount : option Z;
  price : option string;
  originalPrice : option string;
  availability : string;
  tags : list string;
  imageUrl : string;
  productUrl : string;
  scrapedAt : string
}.
End LegoProduct.

(** [x?.f] on an optional object. *)
Definition chain {A B} (o : option A) (f : A -> option B) : option B :=
  match o with
  | Some a => f a
  | None => None
  end.

(** The image chain of [parseApiProduct]. *)
Definition imageUrl_of (p : ApiProduct.t) : string :=
  match ApiProduct.primaryImage p with
  | Some (ImageString s) => s
  | other =>
      let nested :=
        match other with
        | Some (ImageObject u) => str_or u ""
        | _ => ""
        end in
      if truthy nested then nested
      else if truthy (str_or (ApiProduct.baseImgUrl p) "")
      then str_or (ApiProduct.baseImgUrl p) ""
      else match ApiProduct.image p with
           | Some u => str_or u ""
           | None => ""
           end
  end.

(** [priceData?.centAmount ? `$${(priceData.centAmount / 100).toFixed(2)}` : null]:
    a cent amount of 0 is falsy, like a missing one. *)
Definition cent_price (c : option Z) : option string :=
  match c with
  | Some n => if (n =? 0)%Z then None else Some ("$" ++ toFixed2_hundredths n)
  | None => None
  end.

Definition price_of (priceData : option PriceData.t) : option string :=
  opt_or (chain priceData PriceData.formattedAmount)
    (opt_or (chain priceData PriceData.formattedValue)
       (cent_price (chain priceData PriceData.centAmount))).

Definition originalPrice_of (listPriceData : option PriceData.t)
  : option string :=
  opt_or (chain listPriceData PriceData.formattedAmount)
    (opt_or (chain listPriceData PriceData.formattedValue) None).

(** [apiProduct.variant?.attributes || apiProduct.attributes || {}]. *)
Definition attrs_of (p : ApiProduct.t) : Attributes.t :=
  match chain (ApiProduct.variant p) Variant.attributes with
  | Some a => a
  | None =>
      match ApiProduct.attributes p with
      | Some a => a
      | None => Attributes.empty
      end
  end.

Definition is_false (b : option bool) : bool :=
  match b with
  | Some false => true
  | _ => false
  end.

Definition is_coming_soon (s : option string) : bool :=
  match s with
  | Some v => v =? "coming_soon"
  | None => false
  end.

Definition availability_of (p : ApiProduct.t) : string :=
  match ApiProduct.availability p with
  | Some avail =>
      let a1 :=
        if is_false (Availability.canAddToBag avail)
        then "Out of Stock" else "Available" in
      if is_coming_soon (Availability.deliveryChannel avail)
         || truthy (str_or (Availability.launchDate avail) "")
      then "Coming Soon" else a1
  | None =>
      match chain (ApiProduct.variant p) Variant.attributes with
      | Some variantAttrs =>
          let a1 :=
            if is_false (Attributes.canAddToBag variantAttrs)
            then "Out of Stock" else "Available" in
          if is_coming_soon (Attributes.deliveryChannel variantAttrs)
          then "Coming Soon" else a1
      | None => "Available"
      end
  end.

(** The texts of a badge or flag list, the falsy ones skipped. *)
Fixpoint badge_texts (l : list Badge.t) : list string :=
  match l with
  | [] => []
  | b :: t =>
      let s := str_or (Badge.text b) "" in
      if truthy s then s :: badge_texts t else badge_texts t
  end.

Definition tags_of (p : ApiProduct.t) : list string :=
  let featuredFlags :=
    match Attributes.featuredFlags (attrs_of p) with
    | Some l => l
    | None => []
    end in
  let badges :=
    match ApiProduct.badges p with Some l => badge_texts l | None => [] end in
  let flags :=
    match ApiProduct.flags p with Some l => badge_texts l | None => [] end in
  (featuredFlags ++ badges ++ flags)%list.

Definition theme_of (p : ApiProduct.t) : string :=
  match ApiProduct.themes p with
  | Some (first :: _) => str_or first ""
  | _ => ""
  end.

Definition setNumber_of (p : ApiProduct.t) : string :=
  str_or (ApiProduct.productCode p) (str_or (ApiProduct.id p) "").

(** [parseApiProduct]; [now] is the reading of the clock that ends up in
    [scrapedAt].  On the typed input no step of the body throws, so the
    [catch] branch is never taken; [Untyped.parseApiProduct] has it. *)
Definition parseApiProduct (apiProduct : ApiProduct.t) (baseUrl now : string)
  : option LegoProduct.t :=
  let setNumber := setNumber_of apiProduct in
  if negb (truthy setNumber) then None
  else
    let name := str_or (ApiProduct.name apiProduct) "" in
    let attrs := attrs_of apiProduct in
    let slug :=
      str_or (ApiProduct.slug apiProduct)
        (str_or (ApiProduct.overrideUrl apiProduct) setNumber) in
    let productUrl :=
      if startsWith slug "http" then slug
      else baseUrl ++ "/product/" ++ slug in
    Some (LegoProduct.mk
            setNumber
            name
            (theme_of apiProduct)
            (Attributes.pieceCount attrs)
            (Attributes.minifigureCount attrs)
            (chain (Attributes.rating attrs) Rating.averageRating)
            (chain (Attributes.rating attrs) Rating.totalReviewCount)
            (price_of (ApiProduct.price apiProduct))
            (originalPrice_of (ApiProduct.listPrice apiProduct))
            (availability_of apiProduct)
            (dedup (tags_of apiProduct))
            (imageUrl_of apiProduct)
            productUrl
            now).

(** The object literal [parseApiProduct] returns, as the key/value pairs it
    is made of, in source order. *)
Inductive JsValue :=
| JNull
| JInt (z : Z)
| JFloat (f : float)
| JBool (b : bool)
| JString (s : string)
| JStrings (l : list string).

Definition of_opt {A} (inj : A -> JsValue) (o : option A) : JsValue :=
  match o with
  | Some a => inj a
  | None => JNull
  end.

Definition toObject (r : LegoProduct.t) : list (string * JsValue) :=
  [ ("setNumber", JString (LegoProduct.setNumber r));
    ("name", JString (LegoProduct.name r));
    ("theme", JString (LegoProduct.theme r));
    ("pieces", of_opt JInt (LegoProduct.pieces r));
    ("minifigures", of_opt JInt (LegoProduct.minifigures r));
    ("rating", of_opt JFloat (LegoProduct.rating r));
    ("reviewCount", of_opt JInt (LegoProduct.reviewCount r));
    ("price", of_opt JString (LegoProduct.price r));
    ("originalPrice", of_opt JString (LegoProduct.originalPrice r));
    ("availability", JString (LegoProduct.availability r));
    ("tags", JStrings (LegoProduct.tags r));
    ("imageUrl", JString (LegoProduct.imageUrl r));
    ("productUrl", JString (LegoProduct.productUrl r));
    ("scrapedAt", JString (LegoProduct.scrapedAt r)) ].

(** Property access [obj[key]]; [None] is [undefined]. *)
Fixpoint get (obj : list (string * JsValue)) (key : string) : option JsValue :=
  match obj with
  | [] => None
  | (k, v) :: rest => if k =? key then Some v else get rest key
  end.

(** *** The Capture Store

    [capturedProducts] is a [Map<string, ApiProduct>] declared once at module
    level.  A JavaScript [Map] iterates in insertion order, and the catalog
    handler depends on that order when it stops at [maxProducts], so the map
    is an association list in insertion order. *)
Definition Store := list (string * ApiProduct.t).

Definition new_Map : Store := [].

Fixpoint has (m : Store) (key : string) : bool :=
  match m with
  | [] => false
  | (k, _) :: rest => (k =? key) || has rest key
  end.

Fixpoint lookup (m : Store) (key : string) : option ApiProduct.t :=
  match m with
  | [] => None
  | (k, v) :: rest => if k =? key then Some v else lookup rest key
  end.

(** [Map.prototype.set]: the value of a present key is replaced in place,
    a new key goes last. *)
Fixpoint set (m : Store) (key : string) (v : ApiProduct.t) : Store :=
  match m with
  | [] => [(key, v)]
  | (k, v') :: rest =>
      if k =? key then (k, v) :: rest else (k, v') :: set rest key v
  end.

Definition size (m : Store) : nat := List.length m.

Definition keys (m : Store) : list string := map fst m.

Definition values (m : Store) : list ApiProduct.t := map snd m.

(** *** The response interceptor *)

(** One network response, as the listener of [setupApiInterception] sees
    it.  [products] is [processApiResponse(JSON.parse(await response.text()))],
    or [None] when reading or parsing the body throws; the search of
    [processApiResponse] through the untyped JSON is not part of the
    embedding. *)
Module Response.
Record t := mk {
  url : string;
  contentType : option string;
  products : option (list ApiProduct.t)
}.
End Response.

(** The body of the loop over [products]. *)
Definition capture (capturedProducts : Store) (product : ApiProduct.t)
  : Store :=
  let key := setNumber_of product in
  if truthy key && negb (has capturedProducts key)
  then set capturedProducts key product
  else capturedProducts.

Definition looks_product_related (url : string) : bool :=
  includes url "/api/" || includes url "/graphql" || includes url "product"
  || includes url "catalog" || includes url "search".

(** The listener registered by [setupApiInterception]. *)
Definition on_response (capturedProducts : Store) (response : Response.t)
  : Store :=
  if looks_product_related (Response.url response) then
    if includes (str_or (Response.contentType response) "") "application/json"
    then
      match Response.products response with
      | Some products => fold_left capture products capturedProducts
      | None => capturedProducts
      end
    else capturedProducts
  else capturedProducts.

Definition on_responses (capturedProducts : Store) (rs : list Response.t)
  : Store :=
  fold_left on_response rs capturedProducts.

(** *** The page *)

(** What [extractProductsFromDom] reads from one product card; [None] is a
    read that fails or finds nothing. *)
Module DomCard.
Record t := mk {
  href : option string;
  title : option string;
  src : option string;
  priceText : option string;
  piecesText : option string
}.
End DomCard.

(** One catalog page visit, as the handler observes it: the responses that
    arrive while the page loads, the number of product cards in the DOM at
    the [i]-th reading of the scroll loop, the responses that arrive during
    the waits of the [i]-th iteration, and the cards a selector matches
    once scrolling is over. *)
Module Page.
Record t := mk {
  loadResponses : list Response.t;
  domProductCount : nat -> nat;
  scrollResponses : nat -> list Response.t;
  locator : string -> list DomCard.t
}.
End Page.

(** *** The scroll controller

    [scrollToLoadAllProducts].  Scrolling and clicking a "load more" button
    act on the page only; the controller state is [previousProductCount]
    and [sameCountIterations].  The loop has no static bound, so the
    embedding takes [fuel] and answers [None] when [fuel] iterations were
    not enough; [i] counts the iterations done.  The result is the store at
    the exit of the loop (the function itself returns its size). *)
Definition maxSameCountIterations : nat := 5.

Fixpoint scroll_loop (fuel : nat) (page : Page.t) (maxProducts : nat)
  (i : nat) (capturedProducts : Store)
  (previousProductCount sameCountIterations : nat) : option (nat * Store) :=
  match fuel with
  | O => None
  | S fuel' =>
      if (sameCountIterations <? maxSameCountIterations)%nat then
        let domCount := Page.domProductCount page i in
        let apiProductCount := size capturedProducts in
        let currentProductCount := Nat.max domCount apiProductCount in
        if (0 <? maxProducts)%nat && (maxProducts <=? currentProductCount)%nat
        then Some (i, capturedProducts)
        else
          let capturedProducts' :=
            on_responses capturedProducts (Page.scrollResponses page i) in
          let sameCountIterations' :=
            if (currentProductCount =? previousProductCount)%nat
            then S sameCountIterations else 0%nat in
          scroll_loop fuel' page maxProducts (S i) capturedProducts'
            currentProductCount sameCountIterations'
      else Some (i, capturedProducts)
  end.

Definition scrollToLoadAllProducts (fuel : nat) (page : Page.t)
  (maxProducts : nat) (capturedProducts : Store) : option (nat * Store) :=
  scroll_loop fuel page maxProducts 0 capturedProducts 0 0.

(** *** The DOM fallback *)

Definition data_test (tag op value : string) : string :=
  tag ++ "[data-test" ++ op ++ dq ++ value ++ dq ++ "]".

Definition class_has (value : string) : string :=
  "[class*=" ++ dq ++ value ++ dq ++ "]".

(** The selectors [extractProductsFromDom] tries, in order. *)
Definition selectors : list string :=
  [ data_test "" "=" "product-item";
    data_test "" "=" "product-leaf";
    data_test "article" "*=" "product";
    data_test "li" "*=" "product";
    class_has "ProductLeaf";
    class_has "product-card" ].

(** The first selector that matches at least one element. *)
Fixpoint find_productElements (locator : string -> list DomCard.t)
  (sels : list string) : option (list DomCard.t) :=
  match sels with
  | [] => None
  | selector :: rest =>
      let elements := locator selector in
      if (0 <? List.length elements)%nat then Some elements
      else find_productElements locator rest
  end.

Definition is_question (c : ascii) : bool := (c =? "?")%char.

Definition is_question_or_slash (c : ascii) : bool :=
  (c =? "?")%char || (c =? "/")%char.

(** [link.match(/-(\d{4,6})(?:\?|$)/)] *)
Definition slugMatch (link : string) : option string :=
  match_number_after "-" 4 6 is_question link.

(** [link.match(/\/(\d{5,6})(?:\?|$|\/)/)] *)
Definition pathMatch (link : string) : option string :=
  match_number_after "/" 5 6 is_question_or_slash link.

(** The body of the loop over the cards: [None] when the card is skipped
    ([continue], or neither a name nor a set number). *)
Definition extract_card (element : DomCard.t) (now : string)
  : option LegoProduct.t :=
  let link := str_or (DomCard.href element) "" in
  if negb (includes link "/product/") then None
  else
    let setNumber :=
      match slugMatch link with
      | Some n => n
      | None => match pathMatch link with Some n => n | None => "" end
      end in
    let name := str_or (DomCard.title element) "" in
    let imageUrl := str_or (DomCard.src element) "" in
    let priceText := str_or (DomCard.priceText element) "" in
    let price := opt_or (match_amount priceText) None in
    let piecesText := str_or (DomCard.piecesText element) "" in
    let pieces := option_map parseInt10 (first_digits piecesText) in
    let productUrl :=
      if startsWith link "http" then link
      else "https://www.lego.com" ++ link in
    if truthy name || truthy setNumber then
      Some (LegoProduct.mk setNumber (trim name) "" pieces None None None
              price None "Available" [] imageUrl productUrl now)
    else None.

(** [limit] of [extractProductsFromDom]. *)
Definition dom_limit (maxProducts count : nat) : nat :=
  if (0 <? maxProducts)%nat then Nat.min maxProducts count else count.

(** The cards the loop [for (let i = 0; i < limit; i++)] visits. *)
Definition visited_cards (maxProducts : nat) (elements : list DomCard.t)
  : list DomCard.t :=
  firstn (dom_limit maxProducts (List.length elements)) elements.

Fixpoint extract_cards (cards : list DomCard.t) (now : string)
  : list LegoProduct.t :=
  match cards with
  | [] => []
  | element :: rest =>
      match extract_card element now with
      | Some product => product :: extract_cards rest now
      | None => extract_cards rest now
      end
  end.

Definition extractProductsFromDom (page : Page.t) (maxProducts : nat)
  (now : string) : list LegoProduct.t :=
  match find_productElements (Page.locator page) selectors with
  | None => []
  | Some productElements =>
      extract_cards (visited_cards maxProducts productElements) now
  end.

(** *** The CATALOG handler *)

(** What the handler hands to its collaborators, in order. *)
Inductive Effect :=
| DomExtraction
| SetValue (key contentType : string)
| PushData (products : list LegoProduct.t).

(** The loop over [capturedProducts.values()], with its [break]. *)
Fixpoint api_loop (maxProducts : nat) (baseUrl now : string)
  (entries : list ApiProduct.t) (products : list LegoProduct.t)
  : list LegoProduct.t :=
  match entries with
  | [] => products
  | apiProduct :: rest =>
      let products' :=
        match parseApiProduct apiProduct baseUrl now with
        | Some product => (products ++ [product])%list
        | None => products
        end in
      if (0 <? maxProducts)%nat && (maxProducts <=? List.length products')%nat
      then products'
      else api_loop maxProducts baseUrl now rest products'
  end.

(** [products] after the block "First, try to use API-captured data". *)
Definition api_products (capturedProducts : Store) (maxProducts : nat)
  (baseUrl now : string) : list LegoProduct.t :=
  if (0 <? size capturedProducts)%nat
  then api_loop maxProducts baseUrl now (values capturedProducts) []
  else [].

(** The handler from the end of scrolling on.  [baseUrl] is the origin of
    the request URL. *)
Definition emit_catalog (capturedProducts : Store) (page : Page.t)
  (maxProducts : nat) (baseUrl now : string) : list Effect :=
  let products := api_products capturedProducts maxProducts baseUrl now in
  let fallback := (List.length products =? 0)%nat in
  let products' :=
    if fallback then extractProductsFromDom page maxProducts now
    else products in
  ((if fallback then [DomExtraction] else []) ++
   (if (List.length products' =? 0)%nat
    then [SetValue "debug-screenshot" "image/png";
          SetValue "debug-html" "text/html"]
    else [PushData products']))%list.

(** One CATALOG request: the interceptor is attached, the page loads, the
    controller scrolls, the products are emitted.  The first component of
    the result is [capturedProducts] as the visit leaves it. *)
Definition catalogHandler (fuel : nat) (capturedProducts : Store)
  (page : Page.t) (maxProducts : nat) (baseUrl now : string)
  : option (Store * list Effect) :=
  let loaded := on_responses capturedProducts (Page.loadResponses page) in
  match scrollToLoadAllProducts fuel page maxProducts loaded with
  | None => None
  | Some (_, scrolled) =>
      Some (scrolled, emit_catalog scrolled page maxProducts baseUrl now)
  end.

(** *** Stores the interceptor can build

    [capturedProducts] starts as an empty map and is only ever written by
    the loop body [capture]. *)
Inductive Reachable : Store -> Prop :=
| Reachable_new : Reachable new_Map
| Reachable_capture (m : Store) (product : ApiProduct.t) :
    Reachable m -> Reachable (capture m product).

(** The invariant of those stores: every entry sits under the identifier
    of its value, and that identifier is not empty. *)
Definition keyed (m : Store) : Prop :=
  Forall (fun kv => fst kv = setNumber_of (snd kv) /\ truthy (fst kv) = true)
    m.

(** How many [Actor.setValue] calls of a content type a handler made, and
    the records it pushed. *)
Fixpoint count_saved (contentType : string) (effects : list Effect) : nat :=
  match effects with
  | [] => 0
  | SetValue _ ct :: rest =>
      (if ct =? contentType then 1 else 0) + count_saved contentType rest
  | _ :: rest => count_saved contentType rest
  end.

Fixpoint pushed (effects : list Effect) : list LegoProduct.t :=
  match effects with
  | [] => []
  | PushData products :: rest => (products ++ pushed rest)%list
  | _ :: rest => pushed rest
  end.

(** The cent amounts on which the double arithmetic of
    [(centAmount / 100).toFixed(2)] is exact to the cent. *)
Definition cents_exact (c : Z) : Prop := (0 < c < 100 * 2 ^ 46)%Z.

(** The spec's "fixed two-decimal currency format of cents/100": a dollar
    sign, the whole dollars, a point, and the remaining cents on two
    digits. *)
Definition currency_format (cents : Z) : string :=
  "$" ++ dec_string (cents / 100) ++ "." ++
  String (digit_char (cents mod 100 / 10))
    (String (digit_char (cents mod 100 mod 10)) "").

(** The canonical record the spec's scenario describes, read off the
    emitted object: list price, current price, sale flag, discount. *)
Definition sale_record (obj : list (string * JsValue))
  (listed current : string) (discount : Z) : Prop :=
  get obj "originalPrice" = Some (JString listed)
  /\ get obj "price" = Some (JString current)
  /\ get obj "isOnSale" = Some (JBool true)
  /\ get obj "discountPercentage" = Some (JInt discount).

End ApiScraper.

(** ** The detail-page variant ([lego-scraper/src/routes.ts]) *)
Module LegoScraper.
Import Js.

(** *** The scroll controller *)

(** What the handler observes of the catalog page: whether a
    [product-item] appears before [waitForSelector] times out, the number
    of [product-item] elements at the [i]-th reading of the controller,
    whether a selector of the "load more" family shows a visible button in
    the [i]-th iteration, and the [href] of the first link of each item once
    scrolling is over. *)
Module CatalogPage.
Record t := mk {
  productItemAppears : bool;
  domProductCount : nat -> nat;
  buttonVisible : nat -> string -> bool;
  itemLinks : list (option string)
}.
End CatalogPage.

Definition has_text (label : string) : string :=
  "button:has-text(" ++ dq ++ label ++ dq ++ ")".

Definition loadMoreSelectors : list string :=
  [ "button[data-test=" ++ dq ++ "load-more" ++ dq ++ "]";
    has_text "Load more";
    has_text "Show more";
    has_text "View more" ].

Definition maxSameCountIterations : nat := 10.
Definition maxTotalScrolls : nat := 500.

Module ScrollState.
Record t := mk {
  previousProductCount : nat;
  sameCountIterations : nat;
  totalScrolls : nat
}.
End ScrollState.

(** Why the loop was left. *)
Inductive ExitReason := TargetReached | Stalled | CeilingHit.

(** The [while] loop of [scrollToLoadAllProducts]; [None] when [fuel]
    iterations were not enough.  The reading of an iteration is indexed by
    the scrolls done before it. *)
Fixpoint scroll_loop (fuel : nat) (page : CatalogPage.t) (maxProducts : nat)
  (st : ScrollState.t) : option (ExitReason * ScrollState.t) :=
  let previousProductCount := ScrollState.previousProductCount st in
  let sameCountIterations := ScrollState.sameCountIterations st in
  let totalScrolls := ScrollState.totalScrolls st in
  if negb (sameCountIterations <? maxSameCountIterations)%nat
  then Some (Stalled, st)
  else if negb (totalScrolls <? maxTotalScrolls)%nat
  then Some (CeilingHit, st)
  else
    match fuel with
    | O => None
    | S fuel' =>
        let i := totalScrolls in
        let totalScrolls := S totalScrolls in
        let currentProductCount := CatalogPage.domProductCount page i in
        if (0 <? maxProducts)%nat && (maxProducts <=? currentProductCount)%nat
        then
          Some (TargetReached,
                ScrollState.mk previousProductCount sameCountIterations
                  totalScrolls)
        else
          let clickedButton :=
            existsb (CatalogPage.buttonVisible page i) loadMoreSelectors in
          let sameCountIterations :=
            if clickedButton then 0%nat
            else if (currentProductCount =? previousProductCount)%nat
                 then S sameCountIterations
                 else 0%nat in
          scroll_loop fuel' page maxProducts
            (ScrollState.mk currentProductCount sameCountIterations
               totalScrolls)
    end.

Definition scrollToLoadAllProducts (fuel : nat) (page : CatalogPage.t)
  (maxProducts : nat) : option (ExitReason * ScrollState.t) :=
  scroll_loop fuel page maxProducts (ScrollState.mk 0 0 0).

(** *** The CATALOG handler *)

Inductive Effect :=
| SetValue (key contentType : string)
| AddRequests (urls : list string).

Fixpoint collect_urls (links : list (option string)) : list string :=
  match links with
  | [] => []
  | link :: rest =>
      let l := str_or link "" in
      if truthy l && includes l "/product/" then
        (if startsWith l "http" then l else "https://www.lego.com" ++ l)
        :: collect_urls rest
      else collect_urls rest
  end.

(** [waitForSelector] either sees a [product-item] or times out; on the
    time-out the handler saves a screenshot and returns. *)
Definition catalogHandler (fuel : nat) (page : CatalogPage.t)
  (maxProducts : nat) : option (list Effect) :=
  if negb (CatalogPage.productItemAppears page) then
    Some [SetValue "debug-catalog-screenshot" "image/png"]
  else
    match scrollToLoadAllProducts fuel page maxProducts with
    | None => None
    | Some _ =>
        let count := List.length (CatalogPage.itemLinks page) in
        let limit :=
          if (0 <? maxProducts)%nat then Nat.min maxProducts count
          else count in
        Some [AddRequests
                (collect_urls (firstn limit (CatalogPage.itemLinks page)))]
    end.

(** *** Numbers of the PRODUCT handler

    Prices are compared and subtracted as IEEE 754 doubles, so they are
    primitive floats here.  A decimal numeral [m / 10^k] becomes the double
    nearest to it: one correctly rounded division of two exact integers. *)
Definition number_of_decimal (m : Z) (k : nat) : float :=
  match m with
  | Zpos p =>
      SF2Prim (SFdiv prec emax (S754_finite false p 0)
                 (S754_finite false (Z.to_pos (10 ^ Z.of_nat k)) 0))
  | _ => zero
  end.

(** [s.replace(/[$,]/g, '')] *)
Fixpoint strip_dollar_comma (s : string) : string :=
  match s with
  | EmptyString => ""
  | String c t =>
      if (c =? "$")%char || (c =? ",")%char then strip_dollar_comma t
      else String c (strip_dollar_comma t)
  end.

(** [parseFloat] on the strings that reach it here, which hold digits and
    points only: the longest prefix of the shape digits, point, digits
    (either run of digits may be empty, not both) is read; without such a
    prefix the result is [NaN]. *)
Definition parseFloat (s : string) : float :=
  let (int_part, rest) := span is_digit s in
  let frac_part :=
    match rest with
    | String c t => if (c =? ".")%char then fst (span is_digit t) else ""
    | EmptyString => ""
    end in
  if negb (truthy int_part) && negb (truthy frac_part) then nan
  else number_of_decimal (parseInt10 (int_part ++ frac_part))
         (String.length frac_part).

(** [parseInt(ds, 10)] on a run of digits, as a double. *)
Definition parseInt (ds : string) : float :=
  number_of_decimal (parseInt10 ds) 0.

(** [Math.round]: the integer closest to [x], the larger one on a tie;
    [NaN], the zeros and the infinities are returned unchanged. *)
Definition Math_round (x : float) : float :=
  match Prim2SF x with
  | S754_finite s m e =>
      if (0 <=? e)%Z then x
      else
        let d := (2 ^ (- e))%Z in
        let q := (Zpos m / d)%Z in
        let r := (Zpos m mod d)%Z in
        let n :=
          if s then (if (2 * r <=? d)%Z then q else q + 1)%Z
          else (if (d <=? 2 * r)%Z then q + 1 else q)%Z in
        if (n =? 0)%Z then (if s then neg_zero else zero)
        else
          SF2Prim
            (binary_normalize prec emax (if s then - n else n)%Z 0 false)
  | _ => x
  end.

(** *** The price block of the PRODUCT handler *)

(** The texts the price block reads; every read ends in [|| ''], so a
    missing element is the empty text. *)
Module ProductPage.
Record t := mk {
  salePriceText : string;
  originalPriceText : string;
  mainPriceText : string;
  discountText : string
}.
End ProductPage.

(** The four price fields of the emitted [LegoProduct]. *)
Module Pricing.
Record t := mk {
  retailPrice : option string;
  salePrice : option string;
  isOnSale : bool;
  discountPercentage : option float
}.
End Pricing.

(** Group 1 of [s.match(/-(\d+)%/)]. *)
Fixpoint match_minus_percent (s : string) : option string :=
  match s with
  | EmptyString => None
  | String c t =>
      if (c =? "-")%char then
        let (ds, rest) := span is_digit t in
        if truthy ds && prefix "%" rest then Some ds
        else match_minus_percent t
      else match_minus_percent t
  end.

(** Group 1 of [discountText.match(/(\d+)%?/) || mainPriceText.match(/-(\d+)%/)]. *)
Definition discountMatch_of (page : ProductPage.t) : option string :=
  match first_digits (ProductPage.discountText page) with
  | Some ds => Some ds
  | None => match_minus_percent (ProductPage.mainPriceText page)
  end.

Definition is_some {A} (o : option A) : bool :=
  match o with
  | Some _ => true
  | None => false
  end.

Definition price_value (p : string) : float :=
  parseFloat (strip_dollar_comma p).

(** The first [if] chain: [(retailPrice, salePrice, isOnSale)]. *)
Definition identify_prices (originalPriceMatch salePriceMatch : option string)
  (allPrices : list string) : option string * option string * bool :=
  if is_some originalPriceMatch && is_some salePriceMatch then
    (originalPriceMatch, salePriceMatch, true)
  else if (2 <=? List.length allPrices)%nat
          && truthy (nth 0 allPrices "") && truthy (nth 1 allPrices "")
  then
    let price1 := price_value (nth 0 allPrices "") in
    let price2 := price_value (nth 1 allPrices "") in
    if PrimFloat.ltb price1 price2 then
      (nth_error allPrices 1, nth_error allPrices 0, true)
    else if PrimFloat.ltb price2 price1 then
      (nth_error allPrices 0, nth_error allPrices 1, true)
    else (nth_error allPrices 0, None, false)
  else if is_some salePriceMatch then
    (originalPriceMatch, salePriceMatch, is_some originalPriceMatch)
  else if (List.length allPrices =? 1)%nat && truthy (nth 0 allPrices "")
  then (nth_error allPrices 0, None, false)
  else (None, None, false).

(** [retail > 0 && sale < retail] *)
Definition strictly_lower (retailPrice salePrice : string) : bool :=
  PrimFloat.ltb zero (price_value retailPrice)
  && PrimFloat.ltb (price_value salePrice) (price_value retailPrice).

(** [Math.round(((retail - sale) / retail) * 100)] *)
Definition discount_of (retailPrice salePrice : string) : float :=
  let retail := price_value retailPrice in
  let sale := price_value salePrice in
  Math_round (PrimFloat.mul (PrimFloat.div (PrimFloat.sub retail sale) retail)
                100%float).

(** Lines 165 to 228 of the PRODUCT handler. *)
Definition extract_pricing (page : ProductPage.t) : Pricing.t :=
  let salePriceMatch := match_amount (ProductPage.salePriceText page) in
  let originalPriceMatch := match_amount (ProductPage.originalPriceText page) in
  let allPrices := match_all_amounts (ProductPage.mainPriceText page) in
  let discountMatch := discountMatch_of page in
  let '(retailPrice, salePrice, isOnSale) :=
    identify_prices originalPriceMatch salePriceMatch allPrices in
  if isOnSale && truthy (str_or retailPrice "") && truthy (str_or salePrice "")
  then
    let discountPercentage :=
      if strictly_lower (str_or retailPrice "") (str_or salePrice "")
      then Some (discount_of (str_or retailPrice "") (str_or salePrice ""))
      else None in
    Pricing.mk retailPrice salePrice isOnSale discountPercentage
  else
    match discountMatch with
    | Some ds =>
        let discountPercentage := parseInt ds in
        Pricing.mk retailPrice salePrice
          (PrimFloat.ltb zero discountPercentage) (Some discountPercentage)
    | None => Pricing.mk retailPrice salePrice isOnSale None
    end.

(** *** The sale flag, as the spec words it and as the handler sets it *)

(** The spec's invariant: on sale exactly when a discount is recorded or
    the current price is strictly lower than the reference price. *)
Definition sale_iff_discount_or_lower (r : Pricing.t) : Prop :=
  Pricing.isOnSale r = true <->
  (Pricing.discountPercentage r <> None
   \/ exists current reference,
        Pricing.salePrice r = Some current
        /\ Pricing.retailPrice r = Some reference
        /\ PrimFloat.ltb (price_value current) (price_value reference) = true).

(** A dedicated sale price and a dedicated original price were both read. *)
Definition both_dedicated (page : ProductPage.t) : bool :=
  is_some (match_amount (ProductPage.originalPriceText page))
  && is_some (match_amount (ProductPage.salePriceText page)).

(** The main price display shows at least two prices and the first two
    differ in value. *)
Definition main_prices_differ (page : ProductPage.t) : bool :=
  match match_all_amounts (ProductPage.mainPriceText page) with
  | p1 :: p2 :: _ =>
      PrimFloat.ltb (price_value p1) (price_value p2)
      || PrimFloat.ltb (price_value p2) (price_value p1)
  | _ => false
  end.

(** A discount marker with a percentage above zero was read. *)
Definition positive_discount_marker (page : ProductPage.t) : bool :=
  match discountMatch_of page with
  | Some ds => PrimFloat.ltb zero (parseInt ds)
  | None => false
  end.

Fixpoint count_saved (contentType : string) (effects : list Effect) : nat :=
  match effects with
  | [] => 0
  | SetValue _ ct :: rest =>
      (if ct =? contentType then 1 else 0) + count_saved contentType rest
  | _ :: rest => count_saved contentType rest
  end.

End LegoScraper.


(** ** Scenarios used below *)
Module Scenario.
Import Js ApiScraper.

Definition baseUrl : string := "https://www.lego.com/en-us".
Definition now : string := "2024-05-01T12:00:00.000Z".

Definition cents_only (c : Z) : PriceData.t :=
  PriceData.mk None None (Some c) None.

Definition with_code (code : string) (price listPrice : option PriceData.t)
  : ApiProduct.t :=
  ApiProduct.mk None (Some code) None None None None None None price
    listPrice None None None None None None.

(** [{productCode:"10300", price:{centAmount:24999},
     listPrice:{formattedAmount:"$329.99"}}] *)
Definition vintage_car : ApiProduct.t :=
  with_code "10300" (Some (cents_only 24999))
    (Some (PriceData.mk (Some "$329.99") None None None)).

(** [{productCode:"10300", price:{centAmount:0}}] *)
Definition free_item : ApiProduct.t :=
  with_code "10300" (Some (cents_only 0)) None.

(** The same product code seen a second time, under another name. *)
Definition vintage_car_again : ApiProduct.t :=
  ApiProduct.mk None (Some "10300") (Some "Vintage Car") None None None None
    None None None None None None None None None.


Definition json_response (products : list ApiProduct.t) : Response.t :=
  Response.mk "https://www.lego.com/api/graphql/ContentPageQuery"
    (Some "application/json; charset=utf-8") (Some products).

Definition no_cards : string -> list DomCard.t := fun _ => [].

(** A page whose load delivers one response with the vintage car and whose
    DOM count stays at 1. *)
Definition first_page : Page.t :=
  Page.mk [json_response [vintage_car]] (fun _ => 1%nat) (fun _ => [])
    no_cards.

(** A page on which nothing is captured and nothing is rendered. *)
Definition silent_page : Page.t :=
  Page.mk [] (fun _ => 0%nat) (fun _ => []) no_cards.

(** An endless feed: every reading shows one more card than the last. *)
Definition growing_page : Page.t :=
  Page.mk [] (fun i => S i) (fun _ => []) no_cards.

(** A list that re-renders: the readings alternate between one card and
    two cards. *)
Definition flickering_page : Page.t :=
  Page.mk [] (fun i => if Nat.even i then 1%nat else 2%nat) (fun _ => [])
    no_cards.

(** A page that keeps showing ten cards and delivers no response. *)
Definition ten_cards_page : Page.t :=
  Page.mk [] (fun _ => 10%nat) (fun _ => []) no_cards.

(** The record [parseApiProduct] builds for the vintage car. *)
Definition vintage_car_record : LegoProduct.t :=
  LegoProduct.mk "10300" "" "" None None None None (Some "$249.99")
    (Some "$329.99") "Available" [] ""
    "https://www.lego.com/en-us/product/10300" now.

End Scenario.

(** Scenarios of the detail-page variant. *)
Module DetailScenario.
Import LegoScraper.

(** A catalog page on which no [product-item] ever appears. *)
Definition timed_out_page : CatalogPage.t :=
  CatalogPage.mk false (fun _ => 0%nat) (fun _ _ => false) [].

(** A catalog page whose only product item links to a theme page. *)
Definition theme_links_page : CatalogPage.t :=
  CatalogPage.mk true (fun _ => 1%nat) (fun _ _ => false)
    [Some "/en-us/themes/icons"].

(** A product page with one price and a marker of 0 percent. *)
Definition zero_discount_page : ProductPage.t :=
  ProductPage.mk "" "" "$249.99" "0%".

(** A product page whose sale price and struck-through original price both
    read "$10.00". *)
Definition equal_prices_page : ProductPage.t :=
  ProductPage.mk "$10.00" "$10.00" "" "".

(** A product page that shows "$329.99" struck through and "$249.99" as the
    sale price. *)
Definition vintage_car_page : ProductPage.t :=
  ProductPage.mk "$249.99" "$329.99" "" "".

End DetailScenario.

(** ** Predicates on texts *)
Module Text.

(** Every character of [s] satisfies [f]. *)
Fixpoint all_chars (f : ascii -> bool) (s : string) : bool :=
  match s with
  | EmptyString => true
  | String c t => f c && all_chars f t
  end.

Definition not_question (c : ascii) : bool := negb (c =? "?")%char.

(** An optional string that is present and not empty (a truthy one). *)
Definition filled (o : option string) : Prop :=
  exists s, o = Some s /\ s <> "".

(** No character of [s] is a digit. *)
Definition no_digit (s : string) : bool :=
  all_chars (fun c => negb (Js.is_digit c)) s.

(** A count read from [text]: absent when the text holds no digit;
    otherwise [parseInt], a double, of the first run of digits of the
    text, taken as long as it goes. *)
Definition count_read (text : string) (count : option float) : Prop :=
  match count with
  | Some x =>
      exists pre ds rest : string,
        text = pre ++ ds ++ rest
        /\ no_digit pre = true
        /\ ds <> ""
        /\ all_chars Js.is_digit ds = true
        /\ Js.at_end_or (fun c => negb (Js.is_digit c)) rest = true
        /\ x = LegoScraper.parseInt ds
  | None => no_digit text = true
  end.

(** [s] neither starts nor ends with white space. *)
Definition no_outer_space (s : string) : Prop :=
  Js.drop_space s = None
  /\ forall p w : string, s = p ++ w -> Js.white_only w = true -> w = "".

(** An optional list, [[]] when it is missing ([list || []]). *)
Definition or_nil {A} (o : option (list A)) : list A :=
  match o with
  | Some l => l
  | None => []
  end.

End Text.

(** ** The product search of the response interceptor

    [processApiResponse] walks the value [JSON.parse] returned.  That value
    is untyped, so it is a tree of JSON values here; an object is the list
    of its own properties in the order [Object.values] enumerates them,
    each key once. *)
Module JsonSearch.
Import Js.

#[warnings="-register-all"]
Inductive Json :=
| Null
| Bool (b : bool)
| Number (x : float)
| Str (s : string)
| Array (items : list Json)
| Object (fields : list (string * Json)).

(** Truthiness of a JSON value: [null], [false], [0], [NaN] and the empty
    string are falsy, arrays and objects are truthy. *)
Definition truthy_value (v : Json) : bool :=
  match v with
  | Null => false
  | Bool b => b
  | Number x => negb (PrimFloat.is_zero x || PrimFloat.is_nan x)
  | Str s => truthy s
  | Array _ => true
  | Object _ => true
  end.

(** Truthiness of [record.key]; a missing property is [undefined]. *)
Fixpoint has_truthy (fields : list (string * Json)) (key : string) : bool :=
  match fields with
  | [] => false
  | (k, v) :: rest => if k =? key then truthy_value v else has_truthy rest key
  end.

(** [record.productCode || (record.id && record.name &&
     (record.price || record.primaryImage))] *)
Definition looks_like_product (record : list (string * Json)) : bool :=
  has_truthy record "productCode"
  || (has_truthy record "id" && has_truthy record "name"
      && (has_truthy record "price" || has_truthy record "primaryImage")).

(** [findProducts]; the products are listed in the order they are pushed. *)
Fixpoint findProducts (obj : Json) (depth : nat) {struct obj} : list Json :=
  if (10 <? depth)%nat || negb (truthy_value obj) then []
  else
    match obj with
    | Array items => flat_map (fun item => findProducts item (S depth)) items
    | Object record =>
        if looks_like_product record then [obj]
        else flat_map (fun kv => findProducts (snd kv) (S depth)) record
    | _ => []
    end.

Definition processApiResponse (data : Json) : list Json :=
  findProducts data 0.

(** [v] inside [k] nested arrays. *)
Fixpoint nest (k : nat) (v : Json) : Json :=
  match k with
  | O => v
  | S k' => Array [nest k' v]
  end.

End JsonSearch.

(** ** The API path on entries as they arrive

    [JSON.parse] returns untyped values, and the interceptor stores every
    value [processApiResponse] finds without checking it against the
    [ApiProduct] interface.  In this module the four properties that
    decide whether [parseApiProduct] returns a record ([productCode], [id],
    [slug], [overrideUrl]) are any JSON values; the other properties are
    typed as the interface declares them, so that the steps of the [try]
    block that read them do not throw. *)
Module Untyped.
Import Js ApiScraper JsonSearch.

Module Entry.
Record t := mk {
  productCode : option Json;
  id : option Json;
  slug : option Json;
  overrideUrl : option Json;
  (** the other properties; its own [productCode], [id], [slug] and
      [overrideUrl] are not read *)
  typed : ApiProduct.t
}.

(** An entry that follows the interface. *)
Definition of_typed (p : ApiProduct.t) : t :=
  mk (option_map Str (ApiProduct.productCode p))
     (option_map Str (ApiProduct.id p))
     (option_map Str (ApiProduct.slug p))
     (option_map Str (ApiProduct.overrideUrl p))
     p.
End Entry.

(** The record [parseApiProduct] returns: [setNumber] is whatever value
    the identifier is at run time. *)
Module Product.
Record t := mk {
  setNumber : Json;
  name : string;
  theme : string;
  pieces : option Z;
  minifigures : option Z;
  rating : option float;
  reviewCount : option Z;
  price : option string;
  originalPrice : option string;
  availability : string;
  tags : list string;
  imageUrl : string;
  productUrl : string;
  scrapedAt : string
}.

(** A record whose [setNumber] is a string, as the DOM fallback builds
    them. *)
Definition of_record (r : LegoProduct.t) : t :=
  mk (Str (LegoProduct.setNumber r)) (LegoProduct.name r)
     (LegoProduct.theme r) (LegoProduct.pieces r)
     (LegoProduct.minifigures r) (LegoProduct.rating r)
     (LegoProduct.reviewCount r) (LegoProduct.price r)
     (LegoProduct.originalPrice r) (LegoProduct.availability r)
     (LegoProduct.tags r) (LegoProduct.imageUrl r)
     (LegoProduct.productUrl r) (LegoProduct.scrapedAt r).
End Product.

(** [a || b]; [None] is [undefined]. *)
Definition or_else (a b : option Json) : option Json :=
  match a with
  | Some v => if truthy_value v then a else b
  | None => b
  end.

Definition is_truthy (a : option Json) : bool :=
  match a with
  | Some v => truthy_value v
  | None => false
  end.

(** [product.productCode || product.id || ''] *)
Definition identifier_of (e : Entry.t) : option Json :=
  or_else (Entry.productCode e) (or_else (Entry.id e) (Some (Str ""))).

(** [apiProduct.slug || apiProduct.overrideUrl || setNumber] *)
Definition slug_of (e : Entry.t) : option Json :=
  or_else (Entry.slug e) (or_else (Entry.overrideUrl e) (identifier_of e)).

(** [parseApiProduct] with its [try] and [catch].  [slug.startsWith] is a
    function on a string only: on any other value the call throws a
    [TypeError], which the [catch] turns into [null]. *)
Definition parseApiProduct (apiProduct : Entry.t) (baseUrl now : string)
  : option Product.t :=
  let setNumber := identifier_of apiProduct in
  if negb (is_truthy setNumber) then None
  else
    let p := Entry.typed apiProduct in
    let name := str_or (ApiProduct.name p) "" in
    let attrs := attrs_of p in
    match setNumber, slug_of apiProduct with
    | Some setNumber, Some (Str slug) =>
        let productUrl :=
          if startsWith slug "http" then slug
          else baseUrl ++ "/product/" ++ slug in
        Some (Product.mk
                setNumber
                name
                (theme_of p)
                (Attributes.pieceCount attrs)
                (Attributes.minifigureCount attrs)
                (chain (Attributes.rating attrs) Rating.averageRating)
                (chain (Attributes.rating attrs) Rating.totalReviewCount)
                (price_of (ApiProduct.price p))
                (originalPrice_of (ApiProduct.listPrice p))
                (availability_of p)
                (dedup (tags_of p))
                (imageUrl_of p)
                productUrl
                now)
    | _, _ => None
    end.

(** *** The Capture Store

    The keys of the map are the identifiers as they are, compared by
    [SameValueZero]: a number is not the string of its digits, and an
    array or an object is equal to itself only, which no value parsed
    later is. *)
Definition same_value_zero (a b : Json) : bool :=
  match a, b with
  | Null, Null => true
  | Bool x, Bool y => Bool.eqb x y
  | Number x, Number y =>
      PrimFloat.eqb x y || (PrimFloat.is_nan x && PrimFloat.is_nan y)
  | Str s, Str t => s =? t
  | _, _ => false
  end.

Definition Store := list (Json * Entry.t).

Definition new_Map : Store := [].

Fixpoint has (m : Store) (key : Json) : bool :=
  match m with
  | [] => false
  | (k, _) :: rest => same_value_zero k key || has rest key
  end.

Fixpoint set (m : Store) (key : Json) (v : Entry.t) : Store :=
  match m with
  | [] => [(key, v)]
  | (k, v') :: rest =>
      if same_value_zero k key then (k, v) :: rest
      else (k, v') :: set rest key v
  end.

Definition size (m : Store) : nat := List.length m.

Definition values (m : Store) : list Entry.t := map snd m.

(** The body of the loop over [products] in the listener. *)
Definition capture (capturedProducts : Store) (product : Entry.t) : Store :=
  match identifier_of product with
  | Some key =>
      if truthy_value key && negb (has capturedProducts key)
      then set capturedProducts key product
      else capturedProducts
  | None => capturedProducts
  end.

(** One response; [products] is what [processApiResponse] found in the
    parsed body, or [None] when reading or parsing the body throws. *)
Module Response.
Record t := mk {
  url : string;
  contentType : option string;
  products : option (list Entry.t)
}.
End Response.

(** The listener registered by [setupApiInterception]. *)
Definition on_response (capturedProducts : Store) (response : Response.t)
  : Store :=
  if looks_product_related (Response.url response) then
    if includes (str_or (Response.contentType response) "") "application/json"
    then
      match Response.products response with
      | Some products => fold_left capture products capturedProducts
      | None => capturedProducts
      end
    else capturedProducts
  else capturedProducts.

(** *** The end of the CATALOG handler *)

Inductive Effect :=
| DomExtraction
| SetValue (key contentType : string)
| PushData (products : list Product.t).

(** The loop over [capturedProducts.values()], with its [break]. *)
Fixpoint api_loop (maxProducts : nat) (baseUrl now : string)
  (entries : list Entry.t) (products : list Product.t) : list Product.t :=
  match entries with
  | [] => products
  | apiProduct :: rest =>
      let products' :=
        match parseApiProduct apiProduct baseUrl now with
        | Some product => (products ++ [product])%list
        | None => products
        end in
      if (0 <? maxProducts)%nat && (maxProducts <=? List.length products')%nat
      then products'
      else api_loop maxProducts baseUrl now rest products'
  end.

(** [products] after the block "First, try to use API-captured data". *)
Definition api_products (capturedProducts : Store) (maxProducts : nat)
  (baseUrl now : string) : list Product.t :=
  if (0 <? size capturedProducts)%nat
  then api_loop maxProducts baseUrl now (values capturedProducts) []
  else [].

(** The handler from the return of [scrollToLoadAllProducts] on;
    [capturedProducts] is the store at that moment. *)
Definition emit_catalog (capturedProducts : Store) (page : Page.t)
  (maxProducts : nat) (baseUrl now : string) : list Effect :=
  let products := api_products capturedProducts maxProducts baseUrl now in
  let fallback := (List.length products =? 0)%nat in
  let products' :=
    if fallback
    then map Product.of_record (extractProductsFromDom page maxProducts now)
    else products in
  ((if fallback then [DomExtraction] else []) ++
   (if (List.length products' =? 0)%nat
    then [SetValue "debug-screenshot" "image/png";
          SetValue "debug-html" "text/html"]
    else [PushData products']))%list.

(** The stores the listener can build. *)
Inductive Reachable : Store -> Prop :=
| Reachable_new : Reachable new_Map
| Reachable_capture (m : Store) (product : Entry.t) :
    Reachable m -> Reachable (capture m product).

(** Every entry sits under its identifier, which is truthy. *)
Definition keyed (m : Store) : Prop :=
  Forall (fun kv => identifier_of (snd kv) = Some (fst kv)
                    /\ truthy_value (fst kv) = true) m.

(** The link of the entry is a string, so that [slug.startsWith] can be
    called. *)
Definition has_text_link (e : Entry.t) : bool :=
  match slug_of e with
  | Some (Str _) => true
  | _ => false
  end.

(** The records of the entries that yield one, in order. *)
Fixpoint parsed (baseUrl now : string) (entries : list Entry.t)
  : list Product.t :=
  match entries with
  | [] => []
  | e :: rest =>
      match parseApiProduct e baseUrl now with
      | Some r => r :: parsed baseUrl now rest
      | None => parsed baseUrl now rest
      end
  end.

Definition yields_record (baseUrl now : string) (e : Entry.t) : bool :=
  match parseApiProduct e baseUrl now with
  | Some _ => true
  | None => false
  end.

(** The first [maxProducts] of a list, all of it without a limit. *)
Definition up_to {A} (maxProducts : nat) (l : list A) : list A :=
  if (0 <? maxProducts)%nat then firstn maxProducts l else l.

End Untyped.

(** ** The PRODUCT handler of the detail-page variant *)
Module ProductHandler.
Import Js LegoScraper.

(** [String.prototype.toLowerCase] on the letters A to Z; every other
    character is kept (exact on ASCII text). *)
Definition lower_char (c : ascii) : ascii :=
  let n := nat_of_ascii c in
  if (65 <=? n)%nat && (n <=? 90)%nat then ascii_of_nat (n + 32) else c.

Fixpoint toLowerCase (s : string) : string :=
  match s with
  | EmptyString => ""
  | String c t => String (lower_char c) (toLowerCase t)
  end.

(** [s.length]: the UTF-16 code units of a text held as UTF-8 bytes.  A
    continuation byte adds nothing, the lead byte of a four-byte sequence
    stands for a surrogate pair. *)
Definition utf16_units (c : ascii) : nat :=
  let n := nat_of_ascii c in
  if (128 <=? n)%nat && (n <? 192)%nat then 0%nat
  else if (240 <=? n)%nat then 2%nat else 1%nat.

Fixpoint utf16_length (s : string) : nat :=
  match s with
  | EmptyString => 0%nat
  | String c t => (utf16_units c + utf16_length t)%nat
  end.

(** The string without its first [n] characters. *)
Fixpoint skip (n : nat) (s : string) : string :=
  match n, s with
  | S n', String _ t => skip n' t
  | _, _ => s
  end.

(** The class [[\d.]] of the rating patterns. *)
Definition is_rating_char (c : ascii) : bool :=
  is_digit c || (c =? ".")%char.

(** [\s*(?:out of|\/)\s*5] at the start of [rest] (white space within
    ASCII). *)
Definition out_of_five (rest : string) : bool :=
  let r := ltrim rest in
  if prefix "out of" r then prefix "5" (ltrim (skip 6 r))
  else if prefix "/" r then prefix "5" (ltrim (skip 1 r))
  else false.

(** Group 1 of [s.match(/([\d.]+)\s*(?:out of|\/)\s*5/)]: the leftmost run
    of the class that is followed by the rest of the pattern.  Only a
    maximal run can be: after a shorter one the next character is again of
    the class, which is neither white space nor the start of "out of" or
    "/". *)
Fixpoint match_rating_label (s : string) : option string :=
  match s with
  | EmptyString => None
  | String c t =>
      if is_rating_char c then
        let (run, rest) := span is_rating_char s in
        if out_of_five rest then Some run else match_rating_label t
      else match_rating_label t
  end.

(** Group 1 of [s.match(/([\d.]+)/)]. *)
Fixpoint first_rating_run (s : string) : option string :=
  match s with
  | EmptyString => None
  | String c t =>
      if is_rating_char c then Some (fst (span is_rating_char s))
      else first_rating_run t
  end.

(** What the handler reads from the product page, each text after its
    [.catch(() => '') || '']. *)
Module DetailPage.
Record t := mk {
  nameAppears : bool;
  url : string;
  nameText : string;
  breadcrumbs : list string;
  prices : ProductPage.t;
  piecesText : string;
  minifigsText : string;
  ageText : string;
  ratingLabel : string;
  ratingText : string;
  reviewText : string;
  pageContent : string;
  isAddToBagVisible : bool;
  isAddToBagDisabled : bool;
  availabilityText : string;
  badgeTexts : list string;
  flagTexts : list string;
  imageSrc : string;
  imageDataSrc : string
}.
End DetailPage.

(** The [LegoProduct] of [lego-scraper/src/routes.ts]. *)
Module DetailProduct.
Record t := mk {
  setNumber : string;
  name : string;
  theme : string;
  pieces : option float;
  minifigures : option float;
  ageRange : option string;
  rating : option float;
  reviewCount : option float;
  retailPrice : option string;
  salePrice : option string;
  isOnSale : bool;
  discountPercentage : option float;
  availability : string;
  tags : list string;
  imageUrl : string;
  productUrl : string;
  scrapedAt : string
}.
End DetailProduct.

(** [request.url.match(/-(\d{4,6})(?:\?|$)/)], group 1 or [''] *)
Definition setNumber_of_url (url : string) : string :=
  match match_number_after "-" 4 6 (fun c => (c =? "?")%char) url with
  | Some n => n
  | None => ""
  end.

(** The theme: the text of the second-to-last breadcrumb when there are at
    least two. *)
Definition theme_of (breadcrumbs : list string) : string :=
  let breadcrumbCount := List.length breadcrumbs in
  if (1 <? breadcrumbCount)%nat
  then nth (breadcrumbCount - 2) breadcrumbs ""
  else "".

(** [text.match(/(\d+)/)] and [parseInt(match[1], 10)], or [null]; the
    number is a double, rounded when the run of digits is above 2^53. *)
Definition count_of (text : string) : option float :=
  option_map parseInt (first_digits text).

Definition rating_of (ratingLabel ratingText : string) : option float :=
  let ratingMatch :=
    match match_rating_label ratingLabel with
    | Some run => Some run
    | None => first_rating_run ratingText
    end in
  option_map parseFloat ratingMatch.

(** The scan of the page text, done when the add-to-bag button is missing
    or disabled. *)
Definition scan_page (pageContentLower : string) (availability : string)
  : string :=
  if includes pageContentLower "sold out"
     || includes pageContentLower "out of stock"
  then "Out of Stock"
  else if includes pageContentLower "coming soon" then "Coming Soon"
  else if includes pageContentLower "temporarily out of stock"
  then "Temporarily Out of Stock"
  else if includes pageContentLower "backorder" then "Backorder"
  else availability.

(** The availability label, when there is one. *)
Definition read_label (availabilityText : string) (availability : string)
  : string :=
  if truthy availabilityText then
    let availLower := toLowerCase availabilityText in
    if includes availLower "sold out" || includes availLower "out of stock"
    then "Out of Stock"
    else if includes availLower "coming soon" then "Coming Soon"
    else if includes availLower "back order" || includes availLower "backorder"
    then "Backorder"
    else if includes availLower "available" then "Available"
    else availability
  else availability.

Definition availability_of (page : DetailPage.t) : string :=
  let pageContentLower := toLowerCase (DetailPage.pageContent page) in
  let scanned :=
    if negb (DetailPage.isAddToBagVisible page)
       || DetailPage.isAddToBagDisabled page
    then scan_page pageContentLower "Available"
    else "Available" in
  read_label (DetailPage.availabilityText page) scanned.

(** The patterns of [validTagPatterns], each tested without regard to
    case. *)
Definition validTagPatterns : list string :=
  [ "retiring soon"; "exclusive"; "new"; "hard to find"; "sale";
    "limited edition"; "insider"; "vip"; "coming soon"; "back in stock";
    "bestseller"; "best seller" ].

Definition is_valid_tag (trimmed : string) : bool :=
  existsb (fun p => includes (toLowerCase trimmed) p) validTagPatterns.

(** The loop over the badges of one selector, at most ten of them. *)
Fixpoint add_badges (badges : list string) (tags : list string)
  : list string :=
  match badges with
  | [] => tags
  | badgeText :: rest =>
      let trimmed := trim badgeText in
      let tags' :=
        if truthy trimmed && (utf16_length trimmed <? 30)%nat
           && is_valid_tag trimmed && negb (mem_str trimmed tags)
        then (tags ++ [trimmed])%list else tags in
      add_badges rest tags'
  end.

Definition some_includes (tags : list string) (needle : string) : bool :=
  existsb (fun t => includes (toLowerCase t) needle) tags.

(** [tags.push(tag)] under a condition. *)
Definition push_if (cond : bool) (tag : string) (tags : list string)
  : list string :=
  if cond then (tags ++ [tag])%list else tags.

(** The registered-sign letter of "lego(R) exclusive", in UTF-8. *)
Definition registered : string :=
  String (ascii_of_nat 194) (String (ascii_of_nat 174) EmptyString).

(** The tags before [[...new Set(tags)]]. *)
Definition collect_tags (page : DetailPage.t) (isOnSale : bool)
  : list string :=
  let lower := toLowerCase (DetailPage.pageContent page) in
  let t0 := add_badges (firstn 10 (DetailPage.badgeTexts page)) [] in
  let t1 := add_badges (firstn 10 (DetailPage.flagTexts page)) t0 in
  let t2 :=
    push_if (includes lower "retiring soon"
             && negb (some_includes t1 "retiring"))
      "Retiring Soon" t1 in
  let t3 :=
    push_if ((includes lower "lego exclusive"
              || includes lower ("lego" ++ registered ++ " exclusive"))
             && negb (some_includes t2 "exclusive"))
      "Exclusive" t2 in
  let t4 :=
    push_if (includes lower "hard to find"
             && negb (some_includes t3 "hard to find"))
      "Hard to Find" t3 in
  let t5 :=
    push_if ((includes lower "insider exclusive"
              || includes lower "vip exclusive")
             && negb (some_includes t4 "insider" || some_includes t4 "vip"))
      "Insider Exclusive" t4 in
  let t6 :=
    push_if ((includes lower ">new<"
              || includes lower (dq ++ "new" ++ dq))
             && negb (mem_str "New" t5))
      "New" t5 in
  push_if (isOnSale
           && negb (existsb (fun t => toLowerCase t =? "sale") t6))
    "Sale" t6.

Definition tags_of (page : DetailPage.t) (isOnSale : bool) : list string :=
  dedup (collect_tags page isOnSale).

(** The tags the handler adds on its own. *)
Definition fixed_tags : list string :=
  [ "Retiring Soon"; "Exclusive"; "Hard to Find"; "Insider Exclusive";
    "New"; "Sale" ].

Definition imageUrl_of (page : DetailPage.t) : string :=
  if truthy (DetailPage.imageSrc page) then DetailPage.imageSrc page
  else DetailPage.imageDataSrc page.

(** The record the handler pushes; [None] when the product name never
    appears and the handler returns without pushing. *)
Definition productHandler (page : DetailPage.t) (now : string)
  : option DetailProduct.t :=
  if negb (DetailPage.nameAppears page) then None
  else
    let pricing := extract_pricing (DetailPage.prices page) in
    let ageRange :=
      let a := trim (DetailPage.ageText page) in
      if truthy a then Some a else None in
    Some (DetailProduct.mk
            (setNumber_of_url (DetailPage.url page))
            (trim (DetailPage.nameText page))
            (trim (theme_of (DetailPage.breadcrumbs page)))
            (count_of (DetailPage.piecesText page))
            (count_of (DetailPage.minifigsText page))
            ageRange
            (rating_of (DetailPage.ratingLabel page)
               (DetailPage.ratingText page))
            (count_of (DetailPage.reviewText page))
            (Pricing.retailPrice pricing)
            (Pricing.salePrice pricing)
            (Pricing.isOnSale pricing)
            (Pricing.discountPercentage pricing)
            (availability_of page)
            (tags_of page (Pricing.isOnSale pricing))
            (imageUrl_of page)
            (DetailPage.url page)
            now).

End ProductHandler.

(** ** Inputs of the further examples *)
Module ExtraScenario.
Import Js ApiScraper Scenario.

(** A product with a repeated badge, an empty badge text and a flag. *)
Definition badged : ApiProduct.t :=
  ApiProduct.mk None (Some "10300") None None None None None None None None
    None
    (Some (Attributes.mk None None None (Some ["New"; "Exclusive"]) None None))
    None None
    (Some [Badge.mk (Some "New") None; Badge.mk (Some "") None;
           Badge.mk (Some "Hard to find") None])
    (Some [Badge.mk (Some "Exclusive") None]).

(** A product that cannot be added to the bag and has a launch date, with
    a variant that says otherwise. *)
Definition launching : ApiProduct.t :=
  ApiProduct.mk None (Some "10300") None None None None None None None None
    (Some (Variant.mk None
             (Some (Attributes.mk None None None None None (Some true)))))
    None
    (Some (Availability.mk (Some false) None (Some "2024-08-01")))
    None None None.

Definition second_product : ApiProduct.t :=
  with_code "21345" None None.

(** A catalog page with one product card and one banner. *)
Definition card_page : Page.t :=
  Page.mk [] (fun _ => 2%nat) (fun _ => [])
    (fun selector =>
       if selector =? data_test "" "=" "product-item" then
         [ DomCard.mk (Some "/en-us/product/vintage-car-10300")
             (Some " Vintage Car ") (Some "https://img/10300.jpg")
             (Some "Price $249.99") (Some "1458 pieces");
           DomCard.mk (Some "/en-us/themes/icons") (Some "Icons") None None
             None ]
       else []).

(** A page whose count settles at 12 after three readings. *)
Definition settling_page : Page.t :=
  Page.mk [] (fun i => Nat.min (4 * S i) 12) (fun _ => []) no_cards.

End ExtraScenario.

Module DetailExtraScenario.
Import Js LegoScraper ProductHandler JsonSearch.

Definition product_record : Json :=
  Object [("productCode", Str "10300"); ("name", Str "Vintage Car");
          ("variant", Object [("id", Str "v1"); ("name", Str "inner");
                              ("price", Number one)])].

(** A catalog page with a button that stays visible. *)
Definition button_page : CatalogPage.t :=
  CatalogPage.mk true (fun i => i) (fun _ _ => true)
    [Some "/en-us/product/vintage-car-10300"].

(** A catalog page that shows twelve items and no button. *)
Definition twelve_items_page : CatalogPage.t :=
  CatalogPage.mk true (fun _ => 12%nat) (fun _ _ => false)
    [Some "/en-us/product/vintage-car-10300";
     Some "https://www.lego.com/en-us/product/titanic-10294";
     Some "/en-us/themes/icons"; None].

(** A product page with two prices in the main display, the original
    first. *)
Definition main_display_page : ProductPage.t :=
  ProductPage.mk "" "" "$329.99 $249.99" "".

Definition detail_page : DetailPage.t :=
  DetailPage.mk true "https://www.lego.com/en-us/product/vintage-car-10300"
    " Vintage Car " ["Home"; "Icons"; "Vintage Car"]
    main_display_page "1458 Pieces" "" "Ages 18+" "4.5 out of 5 stars" ""
    "212 reviews" "<main>Temporarily out of stock</main>" false true ""
    ["Exclusive"; "exclusive"; "Exclusive"] ["Free shipping"] "" "img.jpg".

(** The same page with a no-break space on either side of the name and
    an age text made of one no-break space. *)
Definition nbsp_page : DetailPage.t :=
  DetailPage.mk true "https://www.lego.com/en-us/product/vintage-car-10300"
    (Js.nbsp ++ "Vintage Car" ++ Js.nbsp) ["Home"; "Icons"; "Vintage Car"]
    main_display_page "1458 Pieces" "" Js.nbsp "4.5 out of 5 stars" ""
    "212 reviews" "<main>Temporarily out of stock</main>" false true ""
    ["Exclusive"; "exclusive"; "Exclusive"] ["Free shipping"] "" "img.jpg".

End DetailExtraScenario.

Module UntypedScenario.
Import Js ApiScraper JsonSearch Untyped Scenario ExtraScenario.

(** [{productCode: 10300, name: 'Vintage Car'}]: the product code is a
    number. *)
Definition numeric_code : Entry.t :=
  Entry.mk (Some (Number 10300%float)) None None None
    (ApiProduct.mk None None (Some "Vintage Car") None None None None None
       None None None None None None None None).

(** The same with [slug: 'vintage-car-10300']. *)
Definition numeric_code_with_slug : Entry.t :=
  Entry.mk (Some (Number 10300%float)) None (Some (Str "vintage-car-10300"))
    None (Entry.typed numeric_code).

Definition json_response (products : list Entry.t) : Response.t :=
  Response.mk "https://www.lego.com/api/graphql/ContentPageQuery"
    (Some "application/json; charset=utf-8") (Some products).

End UntypedScenario.

(** ** Decimal text of an integer *)
Section Decimal.
Import Js.
Local Open Scope Z_scope.

Lemma string_length_app (a b : string) :
  String.length (a ++ b) = (String.length a + String.length b)%nat.
Proof. induction a as [|c a IH]; simpl; [reflexivity | now rewrite IH]. Qed.

Lemma string_app_assoc (a b c : string) : (a ++ b) ++ c = a ++ (b ++ c).
Proof. induction a as [|x a IH]; simpl; [reflexivity | now rewrite IH]. Qed.

Lemma substring_all (s : string) : substring 0 (String.length s) s = s.
Proof. induction s as [|c s IH]; simpl; [reflexivity | now rewrite IH]. Qed.

Lemma substring_head (a b : string) :
  substring 0 (String.length a) (a ++ b) = a.
Proof. induction a as [|c a IH]; simpl; [now destruct b | now rewrite IH]. Qed.

Lemma substring_tail (a b : string) :
  substring (String.length a) (String.length b) (a ++ b) = b.
Proof. induction a as [|c a IH]; simpl; [apply substring_all | exact IH]. Qed.

Lemma dec_digits_S (f : nat) (n : Z) :
  dec_digits (S f) n =
  if n <? 10 then String (digit_char n) ""
  else dec_digits f (n / 10) ++ String (digit_char (n mod 10)) "".
Proof. reflexivity. Qed.

Lemma dec_digits_fuel (f1 : nat) :
  forall (f2 : nat) (n : Z),
    0 <= n -> n < 10 ^ Z.of_nat (S f1) -> n < 10 ^ Z.of_nat (S f2) ->
    dec_digits (S f1) n = dec_digits (S f2) n.
Proof.
  induction f1 as [|f1 IH]; intros f2 n Hn H1 H2.
  - change (10 ^ Z.of_nat 1) with 10 in H1.
    simpl. destruct (Z.ltb_spec n 10); [reflexivity | lia].
  - rewrite (dec_digits_S (S f1) n), (dec_digits_S f2 n).
    destruct (Z.ltb_spec n 10) as [Hlt | Hge]; [reflexivity|].
    destruct f2 as [|f2].
    + change (10 ^ Z.of_nat 1) with 10 in H2. lia.
    + rewrite (IH f2 (n / 10)); [reflexivity | | |].
      * apply Z.div_pos; lia.
      * apply Z.div_lt_upper_bound; [lia|].
        rewrite Nat2Z.inj_succ, Z.pow_succ_r in H1 by lia. exact H1.
      * apply Z.div_lt_upper_bound; [lia|].
        rewrite Nat2Z.inj_succ, Z.pow_succ_r in H2 by lia. exact H2.
Qed.

Lemma log2_fuel (n : Z) :
  0 <= n -> n < 10 ^ Z.of_nat (S (Z.to_nat (Z.log2 n))).
Proof.
  intros Hn.
  rewrite Nat2Z.inj_succ, Z2Nat.id by apply Z.log2_nonneg.
  destruct (Z.eq_dec n 0) as [-> | Hne].
  - simpl. lia.
  - assert (Hs : n < 2 ^ Z.succ (Z.log2 n)) by (apply Z.log2_spec; lia).
    assert (Hle : 2 ^ Z.succ (Z.log2 n) <= 10 ^ Z.succ (Z.log2 n)).
    { apply Z.pow_le_mono_l. lia. }
    lia.
Qed.

Lemma dec_string_small (n : Z) :
  0 <= n < 10 -> dec_string n = String (digit_char n) "".
Proof.
  intros Hn. unfold dec_string. rewrite dec_digits_S.
  destruct (Z.ltb_spec n 10); [reflexivity | lia].
Qed.

Lemma dec_string_step (n : Z) :
  10 <= n ->
  dec_string n = dec_string (n / 10) ++ String (digit_char (n mod 10)) "".
Proof.
  intros Hn. unfold dec_string.
  assert (Hl : 3 <= Z.log2 n).
  { apply Z.log2_le_pow2; lia. }
  assert (Hs : n < 2 ^ Z.succ (Z.log2 n)) by (apply Z.log2_spec; lia).
  destruct (Z.to_nat (Z.log2 n)) as [|f] eqn:Hf; [lia|].
  rewrite (dec_digits_S (S f) n).
  destruct (Z.ltb_spec n 10) as [Hlt | _]; [lia|].
  f_equal. apply dec_digits_fuel.
  - apply Z.div_pos; lia.
  - rewrite <- Hf, Z2Nat.id by lia.
    apply Z.div_lt_upper_bound; [lia|].
    rewrite Z.pow_succ_r in Hs by lia.
    assert (2 ^ Z.log2 n <= 10 ^ Z.log2 n) by (apply Z.pow_le_mono_l; lia).
    lia.
  - apply log2_fuel. apply Z.div_pos; lia.
Qed.

Lemma dec_string_nonempty (n : Z) :
  0 <= n -> (1 <= String.length (dec_string n))%nat.
Proof.
  intros Hn. destruct (Z.lt_ge_cases n 10) as [Hlt | Hge].
  - rewrite dec_string_small by lia. simpl. lia.
  - rewrite dec_string_step by lia. rewrite string_length_app. simpl. lia.
Qed.

(** The text [toFixed(2)] prints for [c / 100] is the integer part,
    a point, and the two digits of the hundredths. *)
Lemma toFixed2_digits (c : Z) :
  0 <= c ->
  toFixed2_hundredths c =
  dec_string (c / 100) ++ "." ++
  String (digit_char (c / 10 mod 10)) (String (digit_char (c mod 10)) "").
Proof.
  intros Hc. unfold toFixed2_hundredths.
  destruct (Z.ltb_spec c 0) as [Hneg | _]; [lia|].
  rewrite Z.abs_eq by lia.
  destruct (Z.lt_ge_cases c 10) as [H10 | H10].
  - rewrite (dec_string_small c) by lia.
    rewrite (Z.div_small c 100), (Z.div_small c 10), (Z.mod_small c 10) by lia.
    reflexivity.
  - rewrite (dec_string_step c) by lia.
    destruct (Z.lt_ge_cases c 100) as [H100 | H100].
    + assert (Hq : 0 <= c / 10 < 10).
      { split; [apply Z.div_pos; lia | apply Z.div_lt_upper_bound; lia]. }
      rewrite (dec_string_small (c / 10)) by exact Hq.
      rewrite (Z.div_small c 100), (Z.mod_small (c / 10) 10) by lia.
      reflexivity.
    + assert (Hq : 10 <= c / 10) by (apply Z.div_le_lower_bound; lia).
      rewrite (dec_string_step (c / 10)) by exact Hq.
      rewrite Z.div_div by lia. change (10 * 10) with 100.
      set (a := dec_string (c / 100)).
      assert (Ha : (1 <= String.length a)%nat).
      { apply dec_string_nonempty. apply Z.div_pos; lia. }
      rewrite string_app_assoc. cbn [append].
      set (b := String (digit_char (c / 10 mod 10))
                  (String (digit_char (c mod 10)) "")).
      assert (Hpad : pad_zeros 3 (a ++ b) = a ++ b).
      { unfold pad_zeros. rewrite string_length_app.
        change (String.length b) with 2%nat.
        replace (3 - (String.length a + 2))%nat with 0%nat by lia.
        reflexivity. }
      rewrite Hpad, string_length_app.
      change (String.length b) with 2%nat at 1 2.
      replace (String.length a + 2 - 2)%nat with (String.length a) by lia.
      rewrite substring_head.
      change 2%nat with (String.length b).
      rewrite substring_tail. reflexivity.
Qed.

End Decimal.

(** ** The Capture Store *)
Section StoreFacts.
Import Js ApiScraper.

Lemma has_In (m : Store) (key : string) :
  has m key = true <-> In key (keys m).
Proof.
  induction m as [|[k v] m IH]; simpl.
  - split; [discriminate | tauto].
  - rewrite orb_true_iff, IH, String.eqb_eq. tauto.
Qed.

Lemma has_lookup (m : Store) (key : string) :
  has m key = true <-> exists v, lookup m key = Some v.
Proof.
  induction m as [|[k v] m IH]; simpl.
  - split; [discriminate | intros [v Hv]; discriminate].
  - destruct (k =? key); simpl; [|exact IH].
    split; [eauto | reflexivity].
Qed.

(** [set] on an absent key appends the entry. *)
Lemma set_absent (m : Store) (key : string) (v : ApiProduct.t) :
  has m key = false -> set m key v = (m ++ [(key, v)])%list.
Proof.
  induction m as [|[k v'] m IH]; simpl; intros H; [reflexivity|].
  apply orb_false_iff in H as [Hk Hm]. rewrite Hk, IH by exact Hm.
  reflexivity.
Qed.

Lemma lookup_app_present (m m' : Store) (key : string) (v : ApiProduct.t) :
  lookup m key = Some v -> lookup (m ++ m')%list key = Some v.
Proof.
  induction m as [|[k v'] m IH]; simpl; [discriminate|].
  destruct (k =? key); auto.
Qed.

(** The loop body either leaves the map alone or appends one entry whose
    key is new, non-empty, and the identifier of its value. *)
Lemma capture_cases (m : Store) (product : ApiProduct.t) :
  capture m product = m
  \/ (capture m product = (m ++ [(setNumber_of product, product)])%list
      /\ has m (setNumber_of product) = false
      /\ truthy (setNumber_of product) = true).
Proof.
  unfold capture.
  destruct (truthy (setNumber_of product)) eqn:Ht; simpl; [|now left].
  destruct (has m (setNumber_of product)) eqn:Hh; simpl; [now left|].
  right. rewrite set_absent by exact Hh. auto.
Qed.

Lemma capture_keeps (m : Store) (product : ApiProduct.t) (key : string)
  (v : ApiProduct.t) :
  lookup m key = Some v -> lookup (capture m product) key = Some v.
Proof.
  intros H. destruct (capture_cases m product) as [-> | [-> _]];
    [exact H | now apply lookup_app_present].
Qed.

Lemma Reachable_keyed (m : Store) : Reachable m -> keyed m.
Proof.
  induction 1 as [|m product _ IH]; [constructor|].
  destruct (capture_cases m product) as [-> | [-> [_ Ht]]]; [exact IH|].
  apply Forall_app. split; [exact IH | repeat constructor; exact Ht].
Qed.

Lemma Reachable_NoDup (m : Store) : Reachable m -> NoDup (keys m).
Proof.
  induction 1 as [|m product _ IH]; [constructor|].
  destruct (capture_cases m product) as [-> | [-> [Hh _]]]; [exact IH|].
  unfold keys in *. rewrite map_app. simpl.
  apply NoDup_app.
  - exact IH.
  - repeat constructor. simpl. tauto.
  - intros k Hin [<- | []].
    apply has_In in Hin. congruence.
Qed.

(** *** What a whole visit preserves *)
Section Preserved.
Variable P : Store -> Prop.
Hypothesis P_capture : forall m product, P m -> P (capture m product).

Lemma preserved_captures (products : list ApiProduct.t) :
  forall m, P m -> P (fold_left capture products m).
Proof. induction products as [|p ps IH]; simpl; auto. Qed.

Lemma preserved_on_response (m : Store) (response : Response.t) :
  P m -> P (on_response m response).
Proof.
  intros H. unfold on_response.
  destruct (looks_product_related _); [|exact H].
  destruct (includes _ _); [|exact H].
  destruct (Response.products response); [|exact H].
  now apply preserved_captures.
Qed.

Lemma preserved_on_responses (rs : list Response.t) :
  forall m, P m -> P (on_responses m rs).
Proof.
  unfold on_responses. induction rs as [|r rs IH]; simpl; [auto|].
  intros m H. apply IH. now apply preserved_on_response.
Qed.

Lemma preserved_scroll_loop (fuel : nat) (page : Page.t) (maxProducts : nat) :
  forall i m prev same n m',
    P m ->
    scroll_loop fuel page maxProducts i m prev same = Some (n, m') ->
    P m'.
Proof.
  induction fuel as [|fuel IH]; simpl; intros i m prev same n m' H E;
    [discriminate|].
  destruct (same <? maxSameCountIterations)%nat; [|now inversion E; subst].
  destruct ((0 <? maxProducts)%nat && _); [now inversion E; subst|].
  eapply IH; [|exact E]. now apply preserved_on_responses.
Qed.

Lemma preserved_catalogHandler (fuel : nat) (m : Store) (page : Page.t)
  (maxProducts : nat) (baseUrl now : string) (m' : Store)
  (effects : list Effect) :
  P m ->
  catalogHandler fuel m page maxProducts baseUrl now = Some (m', effects) ->
  P m'.
Proof.
  unfold catalogHandler, scrollToLoadAllProducts. intros H E.
  destruct (scroll_loop _ _ _ _ _ _ _) as [[n scrolled]|] eqn:Es;
    [|discriminate].
  inversion E; subst.
  eapply preserved_scroll_loop; [|exact Es].
  now apply preserved_on_responses.
Qed.

End Preserved.

End StoreFacts.

Section NormalizerFacts.
Import Js ApiScraper.

Lemma cent_price_format (c : Z) :
  (0 < c)%Z -> cent_price (Some c) = Some (currency_format c).
Proof.
  intros Hc. unfold cent_price, currency_format.
  destruct (Z.eqb_spec c 0) as [H0 | _]; [lia|].
  rewrite toFixed2_digits by lia.
  replace (c mod 100 / 10)%Z with (c / 10 mod 10)%Z
    by (Z.div_mod_to_equations; lia).
  replace (c mod 100 mod 10)%Z with (c mod 10)%Z
    by (Z.div_mod_to_equations; lia).
  reflexivity.
Qed.

Lemma parseApiProduct_Some (p : ApiProduct.t) (baseUrl now : string)
  (r : LegoProduct.t) :
  parseApiProduct p baseUrl now = Some r ->
  truthy (setNumber_of p) = true
  /\ LegoProduct.setNumber r = setNumber_of p
  /\ LegoProduct.price r = price_of (ApiProduct.price p)
  /\ LegoProduct.originalPrice r = originalPrice_of (ApiProduct.listPrice p).
Proof.
  unfold parseApiProduct.
  destruct (truthy (setNumber_of p)); simpl; [|discriminate].
  intros E. inversion E; subst. simpl. auto.
Qed.

Lemma parseApiProduct_defined (p : ApiProduct.t) (baseUrl now : string) :
  truthy (setNumber_of p) = true ->
  exists r, parseApiProduct p baseUrl now = Some r.
Proof.
  intros H. unfold parseApiProduct. rewrite H. simpl. eauto.
Qed.

Lemma truthy_nonempty (s : string) : truthy s = true <-> s <> "".
Proof.
  unfold truthy. rewrite negb_true_iff. apply String.eqb_neq.
Qed.



Lemma api_loop_grows (maxProducts : nat) (baseUrl now : string)
  (entries : list ApiProduct.t) :
  forall products,
    (List.length products
     <= List.length (api_loop maxProducts baseUrl now entries products))%nat.
Proof.
  induction entries as [|e es IH]; simpl; intros products; [lia|].
  assert (Hstep : (List.length products
                   <= List.length
                        (match parseApiProduct e baseUrl now with
                         | Some product => (products ++ [product])%list
                         | None => products
                         end))%nat).
  { destruct (parseApiProduct e baseUrl now); [|lia].
    rewrite length_app. simpl. lia. }
  destruct ((0 <? maxProducts)%nat && _); [exact Hstep|].
  etransitivity; [exact Hstep | apply IH].
Qed.

(** With a positive limit the loop stops as soon as the limit is met. *)
Lemma api_loop_bounded (maxProducts : nat) (baseUrl now : string)
  (entries : list ApiProduct.t) :
  forall products,
    (List.length products < maxProducts)%nat ->
    (List.length (api_loop maxProducts baseUrl now entries products)
     <= maxProducts)%nat.
Proof.
  induction entries as [|e es IH]; simpl; intros products Hlt; [lia|].
  set (products' := match parseApiProduct e baseUrl now with
                    | Some product => (products ++ [product])%list
                    | None => products
                    end).
  assert (Hstep : (List.length products' <= S (List.length products))%nat).
  { subst products'. destruct (parseApiProduct e baseUrl now); [|lia].
    rewrite length_app. simpl. lia. }
  destruct (Nat.ltb_spec 0 maxProducts) as [Hpos | Hzero]; [|lia].
  destruct (Nat.leb_spec maxProducts (List.length products')) as [Hge | Hlt'];
    simpl; [lia | apply IH; exact Hlt'].
Qed.

Lemma extract_cards_length (cards : list DomCard.t) (now : string) :
  (List.length (extract_cards cards now) <= List.length cards)%nat.
Proof.
  induction cards as [|c cs IH]; simpl; [lia|].
  destruct (extract_card c now); simpl; lia.
Qed.

Lemma visited_cards_length (maxProducts : nat) (elements : list DomCard.t) :
  (0 < maxProducts)%nat ->
  List.length (visited_cards maxProducts elements)
  = Nat.min maxProducts (List.length elements).
Proof.
  intros Hpos. unfold visited_cards, dom_limit.
  destruct (Nat.ltb_spec 0 maxProducts); [|lia].
  rewrite length_firstn. lia.
Qed.

Lemma extractProductsFromDom_bounded (page : Page.t) (maxProducts : nat)
  (now : string) :
  (0 < maxProducts)%nat ->
  (List.length (extractProductsFromDom page maxProducts now)
   <= maxProducts)%nat.
Proof.
  intros Hpos. unfold extractProductsFromDom.
  destruct (find_productElements _ _) as [els|]; [|simpl; lia].
  etransitivity; [apply extract_cards_length|].
  rewrite visited_cards_length by exact Hpos. lia.
Qed.

End NormalizerFacts.

(** ** The claims about the API-capture variant *)
Section ApiClaims.
Import Js ApiScraper Scenario.

Example toFixed2_24999 : toFixed2_hundredths 24999 = "249.99".
Proof. reflexivity. Qed.

Example toFixed2_5 : toFixed2_hundredths 5 = "0.05".
Proof. reflexivity. Qed.

Example currency_format_24999 : currency_format 24999 = "$249.99".
Proof. reflexivity. Qed.

Example slugMatch_vintage_car :
  slugMatch "/en-us/product/lego-icons-10300-vintage-car-77123"
  = Some "77123".
Proof. reflexivity. Qed.

Example parse_vintage_car :
  parseApiProduct vintage_car baseUrl now = Some vintage_car_record.
Proof. reflexivity. Qed.

(** With ten cards at every reading the first reading is a change from 0
    and the next five are unchanged: the loop is left after six
    iterations. *)
Example scroll_ten_cards :
  scrollToLoadAllProducts 7 ten_cards_page 0 new_Map = Some (6%nat, new_Map).
Proof. reflexivity. Qed.

(** C1, as the spec states it, fails: the record [parseApiProduct] builds
    for the scenario input has no [isOnSale] and no [discountPercentage]
    property, so it is not the sale record the scenario describes. *)
Lemma C1_scenario_record_lacks_sale_fields :
  ~ exists r,
      parseApiProduct vintage_car baseUrl now = Some r
      /\ sale_record (toObject r) "$329.99" "$249.99" 24.
Proof.
  intros [r [E [_ [_ [Hsale _]]]]].
  vm_compute in E. inversion E; subst r. vm_compute in Hsale. discriminate.
Qed.

(** C1, amended: for the scenario input the API normalizer returns a record
    with identifier "10300", list price "$329.99" and current price
    "$249.99", and the record has neither an [isOnSale] nor a
    [discountPercentage] property. *)
Theorem C1_scenario_prices :
  forall baseUrl now : string,
  exists r,
    parseApiProduct vintage_car baseUrl now = Some r
    /\ LegoProduct.setNumber r = "10300"
    /\ get (toObject r) "originalPrice" = Some (JString "$329.99")
    /\ get (toObject r) "price" = Some (JString "$249.99")
    /\ get (toObject r) "isOnSale" = None
    /\ get (toObject r) "discountPercentage" = None.
Proof.
  intros baseUrl now. eexists. split; [reflexivity|].
  repeat split; reflexivity.
Qed.

(** No record of the API path carries a sale flag or a discount. *)
Lemma toObject_no_sale_fields (r : LegoProduct.t) :
  get (toObject r) "isOnSale" = None
  /\ get (toObject r) "discountPercentage" = None.
Proof. split; reflexivity. Qed.

(** C2, as the spec states it, fails: the product captured while the first
    page was visited is still in the store when the next page is processed,
    a page on which nothing is captured and nothing is rendered, and that
    visit emits it. *)
Lemma C2_capture_leaks_into_next_visit :
  exists m1 e1 m2 e2,
    catalogHandler 8 new_Map first_page 0 baseUrl now = Some (m1, e1)
    /\ catalogHandler 8 m1 silent_page 0 baseUrl now = Some (m2, e2)
    /\ lookup m2 "10300" = Some vintage_car
    /\ e2 = [PushData [vintage_car_record]].
Proof.
  eexists _, _, _, _.
  split; [vm_compute; reflexivity|].
  split; [vm_compute; reflexivity|].
  split; reflexivity.
Qed.

(** C2, amended: the Capture Store is one module-level map that no visit
    resets; every entry present when a catalog visit starts is still
    present, with the same value, when that visit emits its products. *)
Theorem C2_visit_keeps_earlier_captures :
  forall (fuel : nat) (m : Store) (page : Page.t) (maxProducts : nat)
         (baseUrl now : string) (m' : Store) (effects : list Effect)
         (key : string) (v : ApiProduct.t),
    catalogHandler fuel m page maxProducts baseUrl now = Some (m', effects) ->
    lookup m key = Some v ->
    lookup m' key = Some v.
Proof.
  intros fuel m page maxProducts baseUrl now m' effects key v E H.
  apply (preserved_catalogHandler (fun s => lookup s key = Some v))
    with (fuel := fuel) (m := m) (page := page) (maxProducts := maxProducts)
         (baseUrl := baseUrl) (now := now) (effects := effects);
    [|exact H | exact E].
  intros s product Hs. now apply capture_keeps.
Qed.

(** C2 at a store that already holds the vintage car, on a visit that
    captures nothing. *)
Lemma C2_visit_keeps_earlier_captures_witness :
  catalogHandler 8 (capture new_Map vintage_car) silent_page 0 baseUrl now
  = Some (capture new_Map vintage_car, [PushData [vintage_car_record]])
  /\ lookup (capture new_Map vintage_car) "10300" = Some vintage_car.
Proof.
  split; [reflexivity|].
  apply (C2_visit_keeps_earlier_captures 8 (capture new_Map vintage_car)
           silent_page 0 baseUrl now (capture new_Map vintage_car)
           [PushData [vintage_car_record]] "10300" vintage_car);
    reflexivity.
Defined.

(** C3: the Capture Store is first-seen-wins.  In every store the
    interceptor can build no key occurs twice, and capturing a record whose
    identifier is already a key changes nothing: the store, and so the value
    under that key, stay as they were. *)
Theorem C3_first_seen_wins :
  forall m : Store,
    Reachable m ->
    NoDup (keys m)
    /\ forall product : ApiProduct.t,
         has m (setNumber_of product) = true ->
         capture m product = m
         /\ lookup (capture m product) (setNumber_of product)
            = lookup m (setNumber_of product)
         /\ NoDup (keys (capture m product)).
Proof.
  intros m Hm. split; [now apply Reachable_NoDup|].
  intros product Hhas.
  assert (E : capture m product = m).
  { unfold capture. rewrite Hhas, andb_false_r. reflexivity. }
  rewrite E. repeat split. now apply Reachable_NoDup.
Qed.

(** C3 at the store that holds the vintage car, when the same product code
    is captured again under another name. *)
Lemma C3_first_seen_wins_witness :
  NoDup (keys (capture new_Map vintage_car))
  /\ capture (capture new_Map vintage_car) vintage_car_again
     = capture new_Map vintage_car
  /\ lookup (capture (capture new_Map vintage_car) vintage_car_again) "10300"
     = Some vintage_car.
Proof.
  destruct (C3_first_seen_wins (capture new_Map vintage_car)
              (Reachable_capture _ _ Reachable_new)) as [Hnd Hcap].
  destruct (Hcap vintage_car_again eq_refl) as [Hsame [Hval _]].
  split; [exact Hnd|]. split; [exact Hsame|]. exact Hval.
Defined.

(** Every positive cent amount that stands alone in [price] is printed in
    the spec's currency format. *)
Lemma positive_cents_formatted (p : ApiProduct.t) (c : Z)
  (baseUrl now : string) :
  truthy (setNumber_of p) = true ->
  ApiProduct.price p = Some (cents_only c) ->
  cents_exact c ->
  exists r,
    parseApiProduct p baseUrl now = Some r
    /\ LegoProduct.price r = Some (currency_format c).
Proof.
  intros Hid Hprice [Hpos _].
  destruct (parseApiProduct_defined p baseUrl now Hid) as [r Hr].
  exists r. split; [exact Hr|].
  apply parseApiProduct_Some in Hr as [_ [_ [-> _]]].
  rewrite Hprice. unfold price_of. simpl.
  now apply cent_price_format.
Qed.

(** C6 at the cent amount 0: the claim asks for the price "$0.00", the
    normalizer returns a record without a price, because the cent amount
    is tested for truthiness before it is formatted. *)
Theorem C6_zero_cents_has_no_price :
  currency_format 0 = "$0.00"
  /\ exists r,
       parseApiProduct free_item baseUrl now = Some r
       /\ LegoProduct.setNumber r = "10300"
       /\ LegoProduct.price r = None.
Proof.
  split; [reflexivity|]. eexists. split; [reflexivity|].
  split; reflexivity.
Qed.

(** C9: with a positive [maxProducts] a catalog visit pushes at most
    [maxProducts] records; the loop over the captured entries ends with at
    most [maxProducts] records, and the DOM fallback visits exactly
    [min maxProducts count] of the [count] cards it found. *)
Theorem C9_at_most_maxProducts :
  forall (fuel : nat) (m0 : Store) (page : Page.t) (maxProducts : nat)
         (baseUrl now : string) (m : Store) (effects : list Effect),
    (0 < maxProducts)%nat ->
    catalogHandler fuel m0 page maxProducts baseUrl now = Some (m, effects) ->
    (List.length (pushed effects) <= maxProducts)%nat
    /\ (List.length (api_products m maxProducts baseUrl now)
        <= maxProducts)%nat
    /\ forall elements : list DomCard.t,
         List.length (visited_cards maxProducts elements)
         = Nat.min maxProducts (List.length elements).
Proof.
  intros fuel m0 page maxProducts baseUrl now m effects Hpos E.
  assert (Hapi : (List.length (api_products m maxProducts baseUrl now)
                  <= maxProducts)%nat).
  { unfold api_products. destruct (0 <? size m)%nat; [|simpl; lia].
    apply api_loop_bounded. simpl. exact Hpos. }
  split; [|split; [exact Hapi|]].
  - unfold catalogHandler in E.
    destruct (scrollToLoadAllProducts _ _ _ _) as [[n scrolled]|];
      [|discriminate].
    inversion E; subst. unfold emit_catalog.
    pose proof (extractProductsFromDom_bounded page maxProducts now Hpos)
      as Hdom.
    destruct (api_products m maxProducts baseUrl now) as [|r rs] eqn:Hp.
    + simpl (List.length [] =? 0)%nat. cbv iota.
      destruct (extractProductsFromDom page maxProducts now) as [|d ds];
        simpl in *; [lia|]. rewrite length_app. simpl. lia.
    + simpl in *. rewrite length_app. simpl. lia.
  - intros elements. now apply visited_cards_length.
Qed.

(** C9 on the first visit of the scenario, with a limit of one product. *)
Lemma C9_at_most_maxProducts_witness :
  (0 < 1)%nat
  /\ catalogHandler 8 new_Map first_page 1 baseUrl now
     = Some ([("10300", vintage_car)], [PushData [vintage_car_record]])
  /\ (List.length (pushed [PushData [vintage_car_record]]) <= 1)%nat.
Proof.
  split; [lia|]. split; [reflexivity|].
  apply (C9_at_most_maxProducts 8 new_Map first_page 1 baseUrl now
           [("10300", vintage_car)] [PushData [vintage_car_record]]);
    [lia | reflexivity].
Defined.



(** In the API-capture variant a visit that finds no product at all runs
    the DOM fallback, saves one screenshot and one markup blob, and pushes
    nothing. *)
Lemma api_catalog_zero_products (m : Store) (page : Page.t)
  (maxProducts : nat) (baseUrl now : string) :
  pushed (emit_catalog m page maxProducts baseUrl now) = [] ->
  emit_catalog m page maxProducts baseUrl now
  = [DomExtraction; SetValue "debug-screenshot" "image/png";
     SetValue "debug-html" "text/html"].
Proof.
  unfold emit_catalog.
  destruct (api_products m maxProducts baseUrl now) as [|r rs].
  - simpl (List.length [] =? 0)%nat. cbv iota.
    destruct (extractProductsFromDom page maxProducts now) as [|d ds];
      [reflexivity | discriminate].
  - discriminate.
Qed.

(** The same variant's controller has no iteration ceiling. *)
Lemma api_scroll_loop_growing (fuel : nat) :
  forall i : nat, scroll_loop fuel growing_page 0 i new_Map i 0 = None.
Proof.
  induction fuel as [|fuel IH]; intros i; [reflexivity|].
  cbn [scroll_loop]. change (0 <? maxSameCountIterations)%nat with true.
  cbv iota. change (0 <? 0)%nat with false. cbn [andb].
  cbn [growing_page Page.domProductCount Page.scrollResponses].
  change (on_responses new_Map []) with new_Map.
  change (size new_Map) with 0%nat. rewrite Nat.max_0_r.
  destruct (Nat.eqb_spec (S i) i) as [Heq | _]; [lia|].
  apply IH.
Qed.

(** Nor does it stop on a page whose count alternates between 1 and 2. *)
Lemma api_scroll_loop_flickering (fuel : nat) :
  forall i prev : nat,
    prev <> Page.domProductCount flickering_page i ->
    scroll_loop fuel flickering_page 0 i new_Map prev 0 = None.
Proof.
  induction fuel as [|fuel IH]; intros i prev Hprev; [reflexivity|].
  cbn [scroll_loop]. change (0 <? maxSameCountIterations)%nat with true.
  cbv iota. change (0 <? 0)%nat with false. cbn [andb].
  change (Page.scrollResponses flickering_page i) with (@nil Response.t).
  change (on_responses new_Map []) with new_Map.
  change (size new_Map) with 0%nat. rewrite Nat.max_0_r.
  destruct (Nat.eqb_spec (Page.domProductCount flickering_page i) prev)
    as [Heq | _]; [congruence|].
  apply IH. cbn [flickering_page Page.domProductCount].
  rewrite Nat.even_succ, <- Nat.negb_even.
  destruct (Nat.even i); discriminate.
Qed.

Lemma api_controller_flickering_never_stops (fuel : nat) :
  scrollToLoadAllProducts fuel flickering_page 0 new_Map = None.
Proof.
  unfold scrollToLoadAllProducts. apply api_scroll_loop_flickering.
  discriminate.
Qed.

(** C4 on the controller of the API-capture variant, with no product limit
    and a feed that shows one more card at every reading: no number of
    iterations ends the loop. *)
Theorem C4_api_controller_never_stops :
  forall fuel : nat,
    scrollToLoadAllProducts fuel growing_page 0 new_Map = None.
Proof.
  intros fuel. unfold scrollToLoadAllProducts. apply api_scroll_loop_growing.
Qed.

End ApiClaims.

(** ** The claims about the detail-page variant *)
Section DetailClaims.
Import Js LegoScraper DetailScenario.

Lemma scroll_loop_eq (fuel : nat) (page : CatalogPage.t) (maxProducts : nat)
  (st : ScrollState.t) :
  scroll_loop fuel page maxProducts st =
  if negb (ScrollState.sameCountIterations st <? maxSameCountIterations)%nat
  then Some (Stalled, st)
  else if negb (ScrollState.totalScrolls st <? maxTotalScrolls)%nat
  then Some (CeilingHit, st)
  else
    match fuel with
    | O => None
    | S fuel' =>
        let i := ScrollState.totalScrolls st in
        let currentProductCount := CatalogPage.domProductCount page i in
        if (0 <? maxProducts)%nat && (maxProducts <=? currentProductCount)%nat
        then
          Some (TargetReached,
                ScrollState.mk (ScrollState.previousProductCount st)
                  (ScrollState.sameCountIterations st) (S i))
        else
          scroll_loop fuel' page maxProducts
            (ScrollState.mk currentProductCount
               (if existsb (CatalogPage.buttonVisible page i) loadMoreSelectors
                then 0%nat
                else if (currentProductCount
                         =? ScrollState.previousProductCount st)%nat
                     then S (ScrollState.sameCountIterations st)
                     else 0%nat)
               (S i))
    end.
Proof. destruct fuel; reflexivity. Qed.

(** The controller of the detail-page variant stops within its ceiling
    whatever the page shows: the scrolls still allowed are fuel enough. *)
Lemma detail_scroll_loop_stops (page : CatalogPage.t) (maxProducts : nat) :
  forall (fuel : nat) (st : ScrollState.t),
    (maxTotalScrolls - ScrollState.totalScrolls st <= fuel)%nat ->
    exists reason st',
      scroll_loop fuel page maxProducts st = Some (reason, st')
      /\ (ScrollState.totalScrolls st'
          <= Nat.max (ScrollState.totalScrolls st) maxTotalScrolls)%nat.
Proof.
  induction fuel as [|fuel IH]; intros st Hfuel; rewrite scroll_loop_eq;
    (destruct (_ <? maxSameCountIterations)%nat; cbn [negb];
     [|eexists _, _; split; [reflexivity | lia]]);
    (destruct (Nat.ltb_spec (ScrollState.totalScrolls st) maxTotalScrolls)
       as [Hlt | Hge]; cbn [negb];
     [|eexists _, _; split; [reflexivity | lia]]).
  - exfalso. lia.
  - cbv zeta. destruct ((0 <? maxProducts)%nat && _).
    + eexists _, _. split; [reflexivity|].
      cbn [ScrollState.totalScrolls]. lia.
    + match goal with
      | |- context [scroll_loop fuel page maxProducts ?s] =>
          destruct (IH s) as [reason [st' [E Hle]]];
          [cbn [ScrollState.totalScrolls]; lia|]
      end.
      exists reason, st'. split; [exact E|].
      cbn [ScrollState.totalScrolls] in Hle. lia.
Qed.

(** The exit reason names the condition that ended the loop. *)
Lemma detail_exit_reason_sound (page : CatalogPage.t) (maxProducts : nat) :
  forall (fuel : nat) (st : ScrollState.t) (reason : ExitReason)
         (st' : ScrollState.t),
    scroll_loop fuel page maxProducts st = Some (reason, st') ->
    match reason with
    | TargetReached =>
        (0 < maxProducts)%nat
        /\ exists i, ScrollState.totalScrolls st' = S i
                     /\ (maxProducts <= CatalogPage.domProductCount page i)%nat
    | Stalled =>
        (maxSameCountIterations <= ScrollState.sameCountIterations st')%nat
    | CeilingHit =>
        (maxTotalScrolls <= ScrollState.totalScrolls st')%nat
    end.
Proof.
  induction fuel as [|fuel IH]; intros st reason st' E;
    rewrite scroll_loop_eq in E;
    (destruct (Nat.ltb_spec (ScrollState.sameCountIterations st)
                 maxSameCountIterations) as [Hs | Hs]; cbn [negb] in E;
     [|inversion E; subst; exact Hs]);
    (destruct (Nat.ltb_spec (ScrollState.totalScrolls st) maxTotalScrolls)
       as [Ht | Ht]; cbn [negb] in E;
     [|inversion E; subst; exact Ht]).
  - discriminate E.
  - cbv zeta in E.
    destruct (Nat.ltb_spec 0 maxProducts) as [Hpos | Hzero];
      cbn [andb] in E; [|now apply IH in E].
    destruct (Nat.leb_spec maxProducts
                (CatalogPage.domProductCount page
                   (ScrollState.totalScrolls st))) as [Hge | Hlt];
      [|now apply IH in E].
    inversion E; subst. split; [exact Hpos|].
    exists (ScrollState.totalScrolls st). split; [reflexivity | exact Hge].
Qed.

Lemma detail_controller_terminates (page : CatalogPage.t) (maxProducts : nat) :
  exists reason st,
    scrollToLoadAllProducts maxTotalScrolls page maxProducts
    = Some (reason, st)
    /\ (ScrollState.totalScrolls st <= maxTotalScrolls)%nat.
Proof.
  destruct (detail_scroll_loop_stops page maxProducts maxTotalScrolls
              (ScrollState.mk 0 0 0)) as [reason [st [E Hle]]];
    [lia|].
  exists reason, st. split; [exact E|].
  cbn [ScrollState.totalScrolls] in Hle. lia.
Qed.

(** C8 on the CATALOG handler of the detail-page variant, when no product
    item ever appears: one screenshot is saved and no markup blob, where
    the claim asks for one of each. *)
Theorem C8_detail_catalog_saves_no_markup :
  forall (fuel maxProducts : nat),
    catalogHandler fuel timed_out_page maxProducts
    = Some [SetValue "debug-catalog-screenshot" "image/png"]
    /\ count_saved "image/png"
         [SetValue "debug-catalog-screenshot" "image/png"] = 1%nat
    /\ count_saved "text/html"
         [SetValue "debug-catalog-screenshot" "image/png"] = 0%nat.
Proof. intros fuel maxProducts. repeat split. Qed.

(** The same handler, when the product items it finds link to no product
    page: nothing is enqueued and nothing is saved. *)
Lemma detail_catalog_no_links_no_diagnostics :
  catalogHandler maxTotalScrolls theme_links_page 0 = Some [AddRequests []].
Proof. vm_compute. reflexivity. Qed.

Lemma match_amount_truthy (s p : string) :
  match_amount s = Some p -> truthy p = true.
Proof.
  induction s as [|c t IH]; simpl; [discriminate|].
  destruct (c =? "$")%char; [|exact IH].
  destruct (fst (span is_amount_char t)); [exact IH|].
  intros E. inversion E. reflexivity.
Qed.

Lemma match_all_amounts_truthy (s : string) :
  forall (skip : nat) (p : string),
    In p (match_all_amounts_from skip s) -> truthy p = true.
Proof.
  induction s as [|c t IH]; simpl; intros skip p Hin; [destruct Hin|].
  destruct skip as [|k]; [|now apply IH in Hin].
  destruct (c =? "$")%char; [|now apply IH in Hin].
  destruct (fst (span is_amount_char t)) as [|x run]; [now apply IH in Hin|].
  destruct Hin as [<- | Hin]; [reflexivity | now apply IH in Hin].
Qed.

(** The flag the first [if] chain sets, and the prices it comes with. *)
Lemma identify_prices_flag (o s : option string) (allPrices : list string) :
  (forall p, o = Some p -> truthy p = true) ->
  (forall p, s = Some p -> truthy p = true) ->
  (forall p, In p allPrices -> truthy p = true) ->
  let '(retailPrice, salePrice, flag) := identify_prices o s allPrices in
  flag = (is_some o && is_some s)
         || match allPrices with
            | p1 :: p2 :: _ =>
                PrimFloat.ltb (price_value p1) (price_value p2)
                || PrimFloat.ltb (price_value p2) (price_value p1)
            | _ => false
            end
  /\ (flag = true ->
      truthy (str_or retailPrice "") && truthy (str_or salePrice "") = true).
Proof.
  intros Ho Hs Hall. unfold identify_prices.
  assert (Hpair : forall p q, truthy p = true -> truthy q = true ->
            truthy (str_or (Some p) "") && truthy (str_or (Some q) "") = true).
  { intros p q Hp Hq. cbn [str_or]. now rewrite Hp, Hq, Hp, Hq. }
  destruct o as [op|], s as [sp|]; cbn [is_some andb orb];
    [split; [reflexivity | intros _; apply Hpair; auto]| | |];
    (destruct allPrices as [|p1 [|p2 rest]]; cbn [List.length Nat.leb Nat.eqb
       andb orb nth nth_error];
     [split; [reflexivity | discriminate]
     |try destruct (truthy p1); cbn [andb];
      split; (reflexivity || discriminate)
     |rewrite (Hall p1), (Hall p2) by (simpl; auto); cbn [andb];
      destruct (PrimFloat.ltb (price_value p1) (price_value p2));
      [|destruct (PrimFloat.ltb (price_value p2) (price_value p1))];
      cbn [orb];
      (split; [reflexivity|]);
      (discriminate || (intros _; apply Hpair; apply Hall; simpl; auto))]).
Qed.

(** With a dedicated sale price and a dedicated original price the record
    is on sale, and the rounded discount is recorded when the sale price
    is strictly below a positive original price. *)
Lemma dedicated_prices_pricing (page : ProductPage.t) (original sale : string) :
  match_amount (ProductPage.originalPriceText page) = Some original ->
  match_amount (ProductPage.salePriceText page) = Some sale ->
  extract_pricing page
  = Pricing.mk (Some original) (Some sale) true
      (if strictly_lower original sale
       then Some (discount_of original sale) else None).
Proof.
  intros Ho Hs. unfold extract_pricing, identify_prices.
  rewrite Ho, Hs. cbn [is_some andb str_or].
  rewrite (match_amount_truthy _ _ Ho), (match_amount_truthy _ _ Hs).
  cbn [andb].
  rewrite (match_amount_truthy _ _ Ho), (match_amount_truthy _ _ Hs).
  reflexivity.
Qed.

(** C5, as the spec states it, fails: with "$10.00" read both as the sale
    price and as the original price the product is flagged on sale, though
    no discount is recorded and the current price is not lower than the
    reference price. *)
Lemma C5_equal_prices_flagged_on_sale :
  ~ sale_iff_discount_or_lower (extract_pricing equal_prices_page).
Proof.
  assert (E : extract_pricing equal_prices_page
              = Pricing.mk (Some "$10.00") (Some "$10.00") true None)
    by (vm_compute; reflexivity).
  rewrite E. intros [H _]. cbn in H.
  destruct (H eq_refl) as [Hd | [current [reference [Hc [Hr Hlt]]]]].
  - now apply Hd.
  - inversion Hc; subst current. inversion Hr; subst reference.
    vm_compute in Hlt. discriminate.
Qed.

Lemma sale_flag_iff (page : ProductPage.t) :
  Pricing.isOnSale (extract_pricing page) = true <->
  (both_dedicated page = true
   \/ main_prices_differ page = true
   \/ positive_discount_marker page = true).
Proof.
  unfold extract_pricing.
  pose proof (identify_prices_flag
                (match_amount (ProductPage.originalPriceText page))
                (match_amount (ProductPage.salePriceText page))
                (match_all_amounts (ProductPage.mainPriceText page))
                (match_amount_truthy _)
                (match_amount_truthy _)
                (match_all_amounts_truthy _ 0)) as Hflag.
  destruct (identify_prices _ _ _) as [[retailPrice salePrice] flag].
  destruct Hflag as [Hflag Hprices].
  fold (both_dedicated page) in Hflag.
  fold (main_prices_differ page) in Hflag.
  unfold positive_discount_marker.
  destruct flag.
  - cbn [andb]. rewrite (Hprices eq_refl). cbn [Pricing.isOnSale].
    symmetry in Hflag. apply orb_true_iff in Hflag.
    split; [tauto | reflexivity].
  - symmetry in Hflag. apply orb_false_iff in Hflag as [Hb Hd].
    rewrite Hb, Hd. cbn [andb].
    destruct (discountMatch_of page) as [ds|]; cbn [Pricing.isOnSale].
    + split; [tauto | intros [H | [H | H]]; congruence].
    + split; [discriminate | intros [H | [H | H]]; discriminate].
Qed.

(** C5, amended: [isOnSale] is true exactly when a dedicated sale price and
    a dedicated original price were both read (whatever their values), or
    the main price display shows two prices of different value, or a
    discount marker with a percentage above zero was read. *)
Theorem C5_sale_flag :
  forall page : ProductPage.t,
    Pricing.isOnSale (extract_pricing page) = true <->
    (both_dedicated page = true
     \/ main_prices_differ page = true
     \/ positive_discount_marker page = true).
Proof. exact sale_flag_iff. Qed.

(** Two equal prices in the main display leave the flag to the discount
    marker alone. *)
Lemma equal_main_prices_not_on_sale (page : ProductPage.t) :
  both_dedicated page = false ->
  main_prices_differ page = false ->
  positive_discount_marker page = false ->
  Pricing.isOnSale (extract_pricing page) = false.
Proof.
  intros Hb Hd Hm.
  destruct (Pricing.isOnSale (extract_pricing page)) eqn:E; [|reflexivity].
  apply sale_flag_iff in E. rewrite Hb, Hd, Hm in E.
  destruct E as [E | [E | E]]; discriminate.
Qed.

(** A marker of 0 percent is recorded as a discount of 0 and leaves the
    flag off. *)
Lemma zero_discount_recorded_not_on_sale :
  extract_pricing zero_discount_page
  = Pricing.mk (Some "$249.99") None false (Some zero).
Proof. vm_compute. reflexivity. Qed.

(** On the page of the spec's scenario the PRODUCT handler does derive the
    sale flag and the discount of 24 percent. *)
Lemma vintage_car_page_pricing :
  extract_pricing vintage_car_page
  = Pricing.mk (Some "$329.99") (Some "$249.99") true
      (Some (number_of_decimal 24 0)).
Proof. vm_compute. reflexivity. Qed.

End DetailClaims.

(** ** Further properties of the API-capture variant *)
Section ApiNormalizer.
Import Js ApiScraper Scenario ExtraScenario.

Lemma mem_str_In (x : string) (l : list string) :
  mem_str x l = true <-> In x l.
Proof.
  induction l as [|y l IH]; simpl.
  - split; [discriminate | tauto].
  - rewrite orb_true_iff, IH, String.eqb_eq. split; intros [H | H]; auto.
Qed.

Lemma dedup_acc_spec (l : list string) :
  forall seen : list string,
    NoDup (dedup_acc seen l)
    /\ forall x, In x (dedup_acc seen l) <-> In x l /\ ~ In x seen.
Proof.
  induction l as [|y l IH]; intros seen; simpl.
  - split; [constructor | tauto].
  - destruct (mem_str y seen) eqn:Hy.
    + apply mem_str_In in Hy. destruct (IH seen) as [Hnd Hin].
      split; [exact Hnd|]. intros x. rewrite Hin.
      split; [tauto|]. intros [[-> | H] Hs]; tauto.
    + assert (Hy' : ~ In y seen).
      { intros H. apply mem_str_In in H. congruence. }
      destruct (IH (y :: seen)) as [Hnd Hin]. split.
      * constructor; [|exact Hnd]. rewrite Hin. simpl. tauto.
      * intros x. simpl. rewrite Hin. simpl.
        destruct (string_dec y x) as [-> | Hne]; tauto.
Qed.

Lemma dedup_NoDup (l : list string) : NoDup (dedup l).
Proof. apply dedup_acc_spec. Qed.

Lemma dedup_In (l : list string) (x : string) : In x (dedup l) <-> In x l.
Proof.
  unfold dedup. destruct (dedup_acc_spec l []) as [_ H]. rewrite H.
  simpl. tauto.
Qed.

Lemma badge_texts_In (l : list Badge.t) (t : string) :
  In t (badge_texts l) <->
  t <> "" /\ exists b, In b l /\ Badge.text b = Some t.
Proof.
  induction l as [|b l IH]; simpl.
  - split; [tauto | intros [_ [b [[] _]]]].
  - assert (Hb : forall t', str_or (Badge.text b) "" = t' -> t' <> "" ->
                            Badge.text b = Some t').
    { intros t' E Hne. unfold str_or in E.
      destruct (Badge.text b) as [s|]; [|congruence].
      destruct (truthy s); congruence. }
    destruct (truthy (str_or (Badge.text b) "")) eqn:Ht.
    + apply truthy_nonempty in Ht. simpl. rewrite IH. split.
      * intros [<- | [Hne [b' [Hin Hb']]]]; [|eauto 6].
        split; [exact Ht|]. exists b. split; [now left | now apply Hb].
      * intros [Hne [b' [[<- | Hin] Hb']]]; [|eauto 6].
        left. unfold str_or. rewrite Hb'.
        apply truthy_nonempty in Hne. now rewrite Hne.
    + rewrite IH. split; [intros [Hne [b' [Hin Hb']]]; eauto 6|].
      intros [Hne [b' [[<- | Hin] Hb']]]; [|eauto 6].
      exfalso. unfold str_or in Ht. rewrite Hb' in Ht.
      apply truthy_nonempty in Hne. rewrite Hne in Ht. congruence.
Qed.

(** X1: the tags of a record of the API path are pairwise distinct, and
    they are exactly the featured flags of the attributes the record is
    read from ([variant.attributes], or else [attributes] of the product)
    together with the non-empty texts of the badges and of the flags. *)
Theorem X1_api_tags :
  forall (p : ApiProduct.t) (baseUrl now : string) (r : LegoProduct.t),
    parseApiProduct p baseUrl now = Some r ->
    NoDup (LegoProduct.tags r)
    /\ forall t : string,
         In t (LegoProduct.tags r) <->
         (In t (Text.or_nil (Attributes.featuredFlags (attrs_of p)))
          \/ (t <> "" /\ exists b, In b (Text.or_nil (ApiProduct.badges p))
                                   /\ Badge.text b = Some t)
          \/ (t <> "" /\ exists b, In b (Text.or_nil (ApiProduct.flags p))
                                   /\ Badge.text b = Some t)).
Proof.
  intros p baseUrl now r E. unfold parseApiProduct in E.
  destruct (truthy (setNumber_of p)); simpl in E; [|discriminate].
  inversion E; subst r; clear E. cbn [LegoProduct.tags].
  split; [apply dedup_NoDup|].
  intros t. rewrite dedup_In. unfold tags_of. rewrite !in_app_iff.
  assert (Hb : forall o : option (list Badge.t),
             In t (match o with Some l => badge_texts l | None => [] end) <->
             t <> "" /\ exists b, In b (Text.or_nil o) /\ Badge.text b = Some t).
  { intros [l|]; simpl; [apply badge_texts_In|].
    split; [tauto | intros [_ [b [[] _]]]]. }
  rewrite !Hb.
  destruct (Attributes.featuredFlags (attrs_of p)); simpl; tauto.
Qed.

(** X1 at a product whose badges repeat a featured flag. *)
Lemma X1_api_tags_witness :
  parseApiProduct badged baseUrl now <> None
  /\ exists r, parseApiProduct badged baseUrl now = Some r
               /\ LegoProduct.tags r = ["New"; "Exclusive"; "Hard to find"]
               /\ NoDup (LegoProduct.tags r).
Proof.
  split; [discriminate|]. eexists. split; [reflexivity|].
  split; [reflexivity|].
  exact (proj1 (X1_api_tags badged baseUrl now _ eq_refl)).
Defined.

(** X2: the availability [parseApiProduct] assigns is "Available",
    "Out of Stock" or "Coming Soon".  When the product carries an
    [availability] object, a launch date or the delivery channel
    "coming_soon" gives "Coming Soon" even when the product cannot be added
    to the bag, and the variant's attributes play no part. *)
Theorem X2_api_availability :
  forall p : ApiProduct.t,
    In (availability_of p) ["Available"; "Out of Stock"; "Coming Soon"]
    /\ forall a : Availability.t,
         ApiProduct.availability p = Some a ->
         ((Availability.deliveryChannel a = Some "coming_soon"
           \/ exists d, Availability.launchDate a = Some d /\ d <> "") ->
          availability_of p = "Coming Soon")
         /\ forall p' : ApiProduct.t,
              ApiProduct.availability p' = Some a ->
              availability_of p' = availability_of p.
Proof.
  intros p. split.
  - unfold availability_of.
    destruct (ApiProduct.availability p) as [a|].
    + destruct (is_coming_soon _ || _); [simpl; auto|].
      destruct (is_false _); simpl; auto.
    + destruct (chain _ _) as [v|]; [|simpl; auto].
      destruct (is_coming_soon _); [simpl; auto|].
      destruct (is_false _); simpl; auto.
  - intros a Ha. unfold availability_of. rewrite Ha. split.
    + intros [Hc | [d [Hd Hne]]].
      * rewrite Hc. reflexivity.
      * rewrite Hd. cbn [str_or]. apply truthy_nonempty in Hne.
        rewrite Hne, Hne, orb_true_r. reflexivity.
    + intros p' Ha'. now rewrite Ha'.
Qed.

(** X2 at a product that cannot be added to the bag, has a launch date,
    and whose variant can be added. *)
Lemma X2_api_availability_witness :
  ApiProduct.availability launching
  = Some (Availability.mk (Some false) None (Some "2024-08-01"))
  /\ availability_of launching = "Coming Soon".
Proof.
  split; [reflexivity|].
  apply (proj1 (proj2 (X2_api_availability launching) _ eq_refl)).
  right. exists "2024-08-01". split; [reflexivity | discriminate].
Defined.

End ApiNormalizer.

(** ** Further properties of the Capture Store and the catalog handler *)
Section ApiStore.
Import Js ApiScraper Scenario ExtraScenario.

Lemma has_capture_keeps (m : Store) (product : ApiProduct.t) (key : string) :
  has m key = true -> has (capture m product) key = true.
Proof.
  intros H. apply has_lookup in H as [v Hv]. apply has_lookup.
  exists v. now apply capture_keeps.
Qed.

Lemma has_capture_own (m : Store) (product : ApiProduct.t) :
  truthy (setNumber_of product) = true ->
  has (capture m product) (setNumber_of product) = true.
Proof.
  intros Ht. destruct (has m (setNumber_of product)) eqn:Hh.
  - now apply has_capture_keeps.
  - unfold capture. rewrite Ht, Hh. simpl. rewrite set_absent by exact Hh.
    apply has_In. unfold keys. rewrite map_app, in_app_iff. simpl. auto.
Qed.

Lemma has_captures (products : list ApiProduct.t) :
  forall (m : Store) (p : ApiProduct.t),
    (has m (setNumber_of p) = true
     \/ (In p products /\ truthy (setNumber_of p) = true)) ->
    has (fold_left capture products m) (setNumber_of p) = true.
Proof.
  induction products as [|q qs IH]; simpl; intros m p H.
  - destruct H as [H | [[] _]]. exact H.
  - apply IH. destruct H as [H | [[-> | Hin] Ht]].
    + left. now apply has_capture_keeps.
    + left. now apply has_capture_own.
    + right. auto.
Qed.

(** X3: after a response that passes the filter (a product-related URL, a
    JSON content type, a body that parses), every product of the response
    with a non-empty identifier is in the Capture Store under that
    identifier; if the identifier was already a key, its value is the one
    that was there before. *)
Theorem X3_accepted_response_is_captured :
  forall (m : Store) (response : Response.t) (products : list ApiProduct.t)
         (p : ApiProduct.t),
    looks_product_related (Response.url response) = true ->
    includes (str_or (Response.contentType response) "") "application/json"
    = true ->
    Response.products response = Some products ->
    In p products ->
    truthy (setNumber_of p) = true ->
    has (on_response m response) (setNumber_of p) = true
    /\ forall v, lookup m (setNumber_of p) = Some v ->
                 lookup (on_response m response) (setNumber_of p) = Some v.
Proof.
  intros m response products p Hurl Hct Hps Hin Ht.
  unfold on_response. rewrite Hurl, Hct, Hps. split.
  - apply has_captures. right. auto.
  - intros v Hv.
    apply (preserved_captures (fun s => lookup s (setNumber_of p) = Some v));
      [|exact Hv].
    intros s q Hs. now apply capture_keeps.
Qed.

(** X3 at a response that carries the vintage car twice, the second time
    under another name. *)
Lemma X3_accepted_response_is_captured_witness :
  has (on_response new_Map (json_response [vintage_car; vintage_car_again]))
    "10300" = true
  /\ lookup (on_response new_Map
               (json_response [vintage_car; vintage_car_again])) "10300"
     = Some vintage_car.
Proof.
  split; [|reflexivity].
  apply (X3_accepted_response_is_captured new_Map
           (json_response [vintage_car; vintage_car_again])
           [vintage_car; vintage_car_again] vintage_car_again);
    try reflexivity.
  right. left. reflexivity.
Defined.

(** The store a visit leaves is the store it found with new entries
    appended. *)
Lemma capture_appends (m0 m : Store) (product : ApiProduct.t) :
  (exists suffix, m = (m0 ++ suffix)%list) ->
  exists suffix, capture m product = (m0 ++ suffix)%list.
Proof.
  intros [suffix ->].
  destruct (capture_cases (m0 ++ suffix)%list product) as [-> | [-> _]].
  - now exists suffix.
  - exists (suffix ++ [(setNumber_of product, product)])%list.
    now rewrite app_assoc.
Qed.

(** X4: a catalog visit only appends to the Capture Store: the store it
    leaves is the store it found, entry for entry and in the same order,
    followed by the entries captured during the visit. *)
Theorem X4_visit_appends :
  forall (fuel : nat) (m : Store) (page : Page.t) (maxProducts : nat)
         (baseUrl now : string) (m' : Store) (effects : list Effect),
    catalogHandler fuel m page maxProducts baseUrl now = Some (m', effects) ->
    exists captured : Store, m' = (m ++ captured)%list.
Proof.
  intros fuel m page maxProducts baseUrl now m' effects E.
  apply (preserved_catalogHandler
           (fun s => exists suffix, s = (m ++ suffix)%list))
    with (fuel := fuel) (m := m) (page := page) (maxProducts := maxProducts)
         (baseUrl := baseUrl) (now := now) (effects := effects);
    [|exists []; now rewrite app_nil_r | exact E].
  intros s product Hs. now apply capture_appends.
Qed.

(** X4 on the first visit of the scenario, started from a store that holds
    another product. *)
Lemma X4_visit_appends_witness :
  exists captured : Store,
    [("21345", second_product); ("10300", vintage_car)]
    = ([("21345", second_product)] ++ captured)%list.
Proof.
  eapply (X4_visit_appends 8 [("21345", second_product)] first_page 0
            baseUrl now).
  reflexivity.
Defined.

(** X6: the end of a catalog visit either pushes one non-empty batch and
    saves nothing, or pushes nothing and saves exactly one screenshot and
    one markup blob; it never pushes an empty batch, and never does
    both. *)
Theorem X6_push_or_diagnose :
  forall (m : Store) (page : Page.t) (maxProducts : nat)
         (baseUrl now : string),
    let effects := emit_catalog m page maxProducts baseUrl now in
    (pushed effects <> []
     /\ count_saved "image/png" effects = 0%nat
     /\ count_saved "text/html" effects = 0%nat
     /\ forall batch, In (PushData batch) effects ->
                      batch = pushed effects)
    \/ (pushed effects = []
        /\ count_saved "image/png" effects = 1%nat
        /\ count_saved "text/html" effects = 1%nat
        /\ forall batch, ~ In (PushData batch) effects).
Proof.
  intros m page maxProducts baseUrl now. unfold emit_catalog.
  destruct (api_products m maxProducts baseUrl now) as [|r rs].
  - simpl (List.length [] =? 0)%nat. cbv iota.
    destruct (extractProductsFromDom page maxProducts now) as [|d ds].
    + right. cbn. repeat split.
      intros batch [H | [H | [H | []]]]; discriminate.
    + left. cbn. rewrite app_nil_r. repeat split; [discriminate|].
      intros batch [H | [H | []]]; [discriminate | now inversion H].
  - left. cbn. rewrite app_nil_r. repeat split; [discriminate|].
    intros batch [H | []]. now inversion H.
Qed.

End ApiStore.

(** ** The scroll controller of the API-capture variant *)
Section ApiScroll.
Import Js ApiScraper Scenario ExtraScenario.

Variable page : Page.t.
Variable maxProducts : nat.
Variable settled : nat.
Variable domCount : nat.
Hypothesis dom_settled :
  forall i, (settled <= i)%nat -> Page.domProductCount page i = domCount.
Hypothesis no_more_responses :
  forall i, (settled <= i)%nat -> Page.scrollResponses page i = [].

(** Once the count has been seen unchanged, five more unchanged readings
    end the loop. *)
Lemma settled_stall_counts (m : Store) :
  forall (fuel i same : nat),
    (settled <= i)%nat ->
    (5 - same < fuel)%nat ->
    exists n,
      scroll_loop fuel page maxProducts i m (Nat.max domCount (size m)) same
      = Some (n, m)
      /\ (n <= i + (5 - same))%nat.
Proof.
  induction fuel as [|fuel IH]; intros i same Hi Hfuel; [lia|].
  cbn [scroll_loop]. unfold maxSameCountIterations.
  destruct (Nat.ltb_spec same 5) as [Hlt | Hge];
    [|exists i; split; [reflexivity | lia]].
  rewrite (dom_settled i Hi), (no_more_responses i Hi).
  destruct ((0 <? maxProducts)%nat && _);
    [exists i; split; [reflexivity | lia]|].
  change (on_responses m []) with m. rewrite Nat.eqb_refl.
  destruct (IH (S i) (S same)) as [n [E Hn]]; [lia | lia|].
  exists n. split; [exact E | lia].
Qed.

Lemma settled_loop_stops (m : Store) :
  forall (fuel i prev same : nat),
    (settled <= i)%nat ->
    (6 < fuel)%nat ->
    exists n,
      scroll_loop fuel page maxProducts i m prev same = Some (n, m)
      /\ (n <= i + 6)%nat.
Proof.
  intros [|fuel] i prev same Hi Hfuel; [lia|].
  cbn [scroll_loop]. unfold maxSameCountIterations.
  destruct (Nat.ltb_spec same 5) as [Hlt | Hge];
    [|exists i; split; [reflexivity | lia]].
  rewrite (dom_settled i Hi), (no_more_responses i Hi).
  destruct ((0 <? maxProducts)%nat && _);
    [exists i; split; [reflexivity | lia]|].
  change (on_responses m []) with m.
  destruct (Nat.eqb_spec (Nat.max domCount (size m)) prev) as [<- | _].
  - destruct (settled_stall_counts m fuel (S i) (S same)) as [n [E Hn]];
      [lia | lia|].
    exists n. split; [exact E | lia].
  - destruct (settled_stall_counts m fuel (S i) 0) as [n [E Hn]];
      [lia | lia|].
    exists n. split; [exact E | lia].
Qed.

Lemma scroll_loop_reaches_settled :
  forall (todo fuel i : nat) (m : Store) (prev same : nat),
    (settled - i <= todo)%nat ->
    (todo + 6 < fuel)%nat ->
    exists n m',
      scroll_loop fuel page maxProducts i m prev same = Some (n, m')
      /\ (n <= Nat.max i settled + 6)%nat.
Proof.
  induction todo as [|todo IH]; intros fuel i m prev same Htodo Hfuel.
  - destruct (settled_loop_stops m fuel i prev same) as [n [E Hn]];
      [lia | lia|].
    exists n, m. split; [exact E | lia].
  - destruct (Nat.le_gt_cases settled i) as [Hi | Hi].
    + destruct (settled_loop_stops m fuel i prev same) as [n [E Hn]];
        [lia | lia|].
      exists n, m. split; [exact E | lia].
    + destruct fuel as [|fuel]; [lia|]. cbn [scroll_loop].
      destruct (same <? maxSameCountIterations)%nat;
        [|exists i, m; split; [reflexivity | lia]].
      destruct ((0 <? maxProducts)%nat && _);
        [exists i, m; split; [reflexivity | lia]|].
      match goal with
      | |- context [scroll_loop fuel page maxProducts (S i) ?s ?p ?c] =>
          destruct (IH fuel (S i) s p c) as [n [m' [E Hn]]]; [lia | lia|]
      end.
      exists n, m'. split; [exact E | lia].
Qed.

End ApiScroll.

Section ApiScrollClaims.
Import Js ApiScraper Scenario ExtraScenario.

(** X7: the controller of the API-capture variant stops on every page
    whose count settles: if from the reading [settled] on the DOM count no
    longer changes and no further response arrives, the loop is left after
    at most [settled + 6] iterations. *)
Theorem X7_api_controller_stops_when_settled :
  forall (page : Page.t) (maxProducts settled domCount : nat) (m : Store),
    (forall i, (settled <= i)%nat ->
               Page.domProductCount page i = domCount) ->
    (forall i, (settled <= i)%nat -> Page.scrollResponses page i = []) ->
    exists n m',
      scrollToLoadAllProducts (settled + 7) page maxProducts m = Some (n, m')
      /\ (n <= settled + 6)%nat.
Proof.
  intros page maxProducts settled domCount m Hdom Hresp.
  unfold scrollToLoadAllProducts.
  destruct (scroll_loop_reaches_settled page maxProducts settled domCount
              Hdom Hresp settled (settled + 7) 0 m 0 0) as [n [m' [E Hn]]];
    [lia | lia|].
  exists n, m'. split; [exact E | lia].
Qed.

(** X7 on a page whose count is 4, 8, 12, 12, ... *)
Lemma X7_api_controller_stops_when_settled_witness :
  exists n m',
    scrollToLoadAllProducts 9 settling_page 0 new_Map = Some (n, m')
    /\ (n <= 8)%nat.
Proof.
  apply (X7_api_controller_stops_when_settled settling_page 0 2 12 new_Map).
  - intros i Hi. cbn [settling_page Page.domProductCount]. lia.
  - intros i Hi. reflexivity.
Defined.

End ApiScrollClaims.

(** ** Patterns on links and texts *)
Section Patterns.
Import Js Text.

Lemma span_fst_all (f : ascii -> bool) (s : string) :
  all_chars f (fst (span f s)) = true.
Proof.
  induction s as [|c t IH]; simpl; [reflexivity|].
  destruct (f c) eqn:Hc; [|reflexivity].
  destruct (span f t) as [a b]. simpl in *. now rewrite Hc.
Qed.

Lemma span_app (f : ascii -> bool) (s : string) :
  s = fst (span f s) ++ snd (span f s).
Proof.
  induction s as [|c t IH]; simpl; [reflexivity|].
  destruct (f c); [|reflexivity].
  destruct (span f t) as [a b]. simpl in *. now rewrite <- IH.
Qed.

(** A run of [f]-characters followed by a text that does not start with
    one is split at their border. *)
Lemma span_run (f : ascii -> bool) (run rest : string) :
  all_chars f run = true ->
  at_end_or (fun c => negb (f c)) rest = true ->
  span f (run ++ rest) = (run, rest).
Proof.
  intros Hrun Hrest. induction run as [|c t IH]; simpl in *.
  - destruct rest as [|c r]; [reflexivity|]. simpl in *.
    apply negb_true_iff in Hrest. now rewrite Hrest.
  - apply andb_true_iff in Hrun as [Hc Ht]. now rewrite Hc, (IH Ht).
Qed.

Lemma match_number_after_shape (sep : ascii) (lo hi : nat)
  (term : ascii -> bool) (s ds : string) :
  match_number_after sep lo hi term s = Some ds ->
  all_chars is_digit ds = true
  /\ (lo <= String.length ds <= hi)%nat.
Proof.
  induction s as [|c t IH]; simpl; [discriminate|].
  destruct (c =? sep)%char; [|exact IH].
  pose proof (span_fst_all is_digit t) as Hall.
  destruct (span is_digit t) as [run rest]. simpl in Hall.
  destruct (Nat.leb_spec lo (String.length run)); simpl; [|exact IH].
  destruct (Nat.leb_spec (String.length run) hi); simpl; [|exact IH].
  destruct (at_end_or term rest); [|exact IH].
  intros E. inversion E; subst. auto.
Qed.

(** Before the number: no match can start inside a prefix that holds no
    terminator, when the separator comes right after it. *)
Lemma match_number_after_prefix (sep : ascii) (lo hi : nat)
  (term : ascii -> bool) (p tail : string) :
  all_chars (fun c => negb (term c)) p = true ->
  term sep = false ->
  is_digit sep = false ->
  match_number_after sep lo hi term (p ++ String sep tail)
  = match_number_after sep lo hi term (String sep tail).
Proof.
  intros Hp Hsep Hdig. induction p as [|c t IH]; [reflexivity|].
  simpl in Hp. apply andb_true_iff in Hp as [Hc Ht].
  change ((String c t) ++ String sep tail)
    with (String c (t ++ String sep tail)).
  cbn [match_number_after]. rewrite (IH Ht).
  destruct (c =? sep)%char; [|reflexivity].
  assert (Hrest : forall u : string,
             all_chars (fun c => negb (term c)) u = true ->
             at_end_or term (snd (span is_digit (u ++ String sep tail)))
             = false).
  { induction u as [|x u IHu]; intros Hu.
    - simpl. rewrite Hdig. simpl. exact Hsep.
    - simpl in Hu. apply andb_true_iff in Hu as [Hx Hu].
      change ((String x u) ++ String sep tail)
        with (String x (u ++ String sep tail)).
      cbn [span]. destruct (is_digit x).
      + specialize (IHu Hu).
        destruct (span is_digit (u ++ String sep tail)). exact IHu.
      + simpl. now apply negb_true_iff in Hx. }
  specialize (Hrest t Ht).
  destruct (span is_digit (t ++ String sep tail)) as [run rest].
  simpl in Hrest. rewrite Hrest, !andb_false_r. reflexivity.
Qed.

Lemma match_number_after_here (sep : ascii) (lo hi : nat)
  (term : ascii -> bool) (ds tail : string) :
  all_chars is_digit ds = true ->
  (lo <= String.length ds <= hi)%nat ->
  at_end_or term tail = true ->
  at_end_or (fun c => negb (is_digit c)) tail = true ->
  match_number_after sep lo hi term (String sep (ds ++ tail)) = Some ds.
Proof.
  intros Hds [Hlo Hhi] Hterm Hnd. cbn [match_number_after].
  rewrite Ascii.eqb_refl, (span_run is_digit ds tail Hds Hnd).
  destruct (Nat.leb_spec lo (String.length ds)); [|lia].
  destruct (Nat.leb_spec (String.length ds) hi); [|lia].
  simpl. now rewrite Hterm.
Qed.

Lemma includes_app_r (a b sub : string) :
  includes b sub = true -> includes (a ++ b) sub = true.
Proof.
  intros H. induction a as [|c a IH]; [exact H|].
  change ((String c a) ++ b) with (String c (a ++ b)). cbn [includes].
  rewrite IH. apply orb_true_r.
Qed.

Lemma match_amount_shape (s p : string) :
  match_amount s = Some p ->
  exists run, p = String "$" run /\ run <> ""
              /\ all_chars is_amount_char run = true.
Proof.
  induction s as [|c t IH]; simpl; [discriminate|].
  destruct (c =? "$")%char; [|exact IH].
  pose proof (span_fst_all is_amount_char t) as Hall.
  destruct (fst (span is_amount_char t)) as [|x run] eqn:E; [exact IH|].
  intros H. inversion H; subst. exists (String x run).
  split; [reflexivity|]. split; [discriminate | exact Hall].
Qed.

End Patterns.

(** ** The DOM fallback *)
Section DomFallback.
Import Js Text ApiScraper Scenario ExtraScenario.

Lemma extract_cards_from (cards : list DomCard.t) (now : string)
  (r : LegoProduct.t) :
  In r (extract_cards cards now) ->
  exists card, In card cards /\ extract_card card now = Some r.
Proof.
  induction cards as [|c cs IH]; simpl; [tauto|].
  destruct (extract_card c now) as [q|] eqn:E.
  - intros [<- | H]; [eauto|]. destruct (IH H) as [card [Hin Hc]]. eauto.
  - intros H. destruct (IH H) as [card [Hin Hc]]. eauto.
Qed.

(** X8: every record of the DOM fallback has a product URL that starts
    with "http" and contains "/product/", a set number that is empty or
    made of four to six digits, and a price that is absent or a dollar
    sign followed by at least one digit, comma or point. *)
Theorem X8_dom_record_shape :
  forall (page : Page.t) (maxProducts : nat) (now : string)
         (r : LegoProduct.t),
    In r (extractProductsFromDom page maxProducts now) ->
    startsWith (LegoProduct.productUrl r) "http" = true
    /\ includes (LegoProduct.productUrl r) "/product/" = true
    /\ (LegoProduct.setNumber r = ""
        \/ (all_chars is_digit (LegoProduct.setNumber r) = true
            /\ (4 <= String.length (LegoProduct.setNumber r) <= 6)%nat))
    /\ (LegoProduct.price r = None
        \/ exists run, LegoProduct.price r = Some (String "$" run)
                       /\ run <> ""
                       /\ all_chars is_amount_char run = true).
Proof.
  intros page maxProducts now r Hin. unfold extractProductsFromDom in Hin.
  destruct (find_productElements _ _) as [elements|]; [|destruct Hin].
  apply extract_cards_from in Hin as [card [_ E]].
  unfold extract_card in E.
  set (link := str_or (DomCard.href card) "") in *.
  destruct (includes link "/product/") eqn:Hlink; simpl in E;
    [|discriminate].
  destruct (truthy _ || truthy _); [|discriminate].
  inversion E; subst r; clear E. cbn [LegoProduct.productUrl
    LegoProduct.setNumber LegoProduct.price].
  split; [|split; [|split]].
  - destruct (startsWith link "http") eqn:Hs; [exact Hs | reflexivity].
  - destruct (startsWith link "http");
      [exact Hlink
      |exact (includes_app_r "https://www.lego.com" link "/product/" Hlink)].
  - unfold slugMatch, pathMatch.
    destruct (match_number_after "-" 4 6 is_question link) as [n|] eqn:Hn.
    + right. now apply match_number_after_shape in Hn.
    + destruct (match_number_after "/" 5 6 is_question_or_slash link)
        as [n|] eqn:Hp; [|now left].
      right. apply match_number_after_shape in Hp as [Hd [Hlo Hhi]].
      split; [exact Hd | lia].
  - destruct (match_amount (str_or (DomCard.priceText card) ""))
      as [p|] eqn:Hp; [|now left].
    right. destruct (match_amount_shape _ _ Hp) as [run [-> [Hne Hall]]].
    exists run. cbn [opt_or truthy String.eqb negb]. auto.
Qed.

(** X8 on a page with one product card and one banner. *)
Lemma X8_dom_record_shape_witness :
  exists r,
    extractProductsFromDom card_page 0 now = [r]
    /\ LegoProduct.setNumber r = "10300"
    /\ LegoProduct.name r = "Vintage Car"
    /\ includes (LegoProduct.productUrl r) "/product/" = true.
Proof.
  eexists. split; [reflexivity|]. split; [reflexivity|].
  split; [reflexivity|].
  apply (X8_dom_record_shape card_page 0 now). left. reflexivity.
Defined.

(** X9: a link that holds no question mark before its last part and ends
    in a hyphen and four to six digits, with or without a query string
    after them, gives these digits as the set number. *)
Theorem X9_set_number_from_slug :
  forall p ds tail : string,
    all_chars not_question p = true ->
    all_chars is_digit ds = true ->
    (4 <= String.length ds <= 6)%nat ->
    at_end_or is_question tail = true ->
    slugMatch (p ++ "-" ++ ds ++ tail) = Some ds.
Proof.
  intros p ds tail Hp Hds Hlen Htail. unfold slugMatch.
  change ("-" ++ ds ++ tail) with (String "-" (ds ++ tail)).
  rewrite match_number_after_prefix; [| exact Hp | reflexivity | reflexivity].
  apply match_number_after_here; [exact Hds | exact Hlen | exact Htail|].
  destruct tail as [|c t]; [reflexivity|]. simpl in *.
  unfold is_question in Htail. apply Ascii.eqb_eq in Htail. now subst c.
Qed.

(** X9 at the link of the spec's scenario, with a query string. *)
Lemma X9_set_number_from_slug_witness :
  slugMatch
    ("/en-us/product/lego-icons-10300-vintage-car" ++ "-" ++ "77123"
     ++ "?icmp=home")
  = Some "77123".
Proof.
  apply X9_set_number_from_slug; [reflexivity | reflexivity | | reflexivity].
  simpl. lia.
Defined.

End DomFallback.

(** ** The price chain of the API normalizer *)
Section ApiPrice.
Import Js Text ApiScraper Scenario ExtraScenario.

Lemma opt_or_filled (a b : option string) (s : string) :
  a = Some s -> s <> "" -> opt_or a b = Some s.
Proof.
  intros -> Hs. unfold opt_or. apply truthy_nonempty in Hs. now rewrite Hs.
Qed.

Lemma opt_or_unfilled (a b : option string) :
  ~ filled a -> opt_or a b = b.
Proof.
  intros Ha. unfold opt_or. destruct a as [s|]; [|reflexivity].
  destruct (truthy s) eqn:Ht; [|reflexivity].
  exfalso. apply Ha. exists s. split; [reflexivity|].
  now apply truthy_nonempty.
Qed.

(** X10: the price of an API record is the first of: a non-empty
    [formattedAmount], a non-empty [formattedValue], the cent amount in the
    two-decimal currency format when it is positive; without any of them,
    or with a cent amount of 0, the record has no price. *)
Theorem X10_api_price_chain :
  forall (p : ApiProduct.t) (baseUrl now : string) (r : LegoProduct.t)
         (pd : PriceData.t),
    parseApiProduct p baseUrl now = Some r ->
    ApiProduct.price p = Some pd ->
    (forall s, PriceData.formattedAmount pd = Some s -> s <> "" ->
               LegoProduct.price r = Some s)
    /\ (~ filled (PriceData.formattedAmount pd) ->
        (forall s, PriceData.formattedValue pd = Some s -> s <> "" ->
                   LegoProduct.price r = Some s)
        /\ (~ filled (PriceData.formattedValue pd) ->
            (forall c, PriceData.centAmount pd = Some c -> cents_exact c ->
                       LegoProduct.price r = Some (currency_format c))
            /\ (PriceData.centAmount pd = None
                \/ PriceData.centAmount pd = Some 0%Z ->
                LegoProduct.price r = None))).
Proof.
  intros p baseUrl now r pd E Hpd.
  apply parseApiProduct_Some in E as [_ [_ [-> _]]].
  rewrite Hpd. unfold price_of. cbn [chain].
  split; [intros s Hs Hne; now apply opt_or_filled|].
  intros Ha. rewrite (opt_or_unfilled _ _ Ha).
  split; [intros s Hs Hne; now apply opt_or_filled|].
  intros Hv. rewrite (opt_or_unfilled _ _ Hv). split.
  - intros c Hc [Hpos _]. rewrite Hc. now apply cent_price_format.
  - intros [-> | ->]; reflexivity.
Qed.

(** X10 at the vintage car, whose price is given in cents only. *)
Lemma X10_api_price_chain_witness :
  LegoProduct.price vintage_car_record = Some (currency_format 24999)
  /\ currency_format 24999 = "$249.99".
Proof.
  split; [|reflexivity].
  destruct (X10_api_price_chain vintage_car baseUrl now vintage_car_record
              (cents_only 24999) eq_refl eq_refl) as [_ H].
  assert (Hnone : ~ filled None).
  { intros [s [E _]]. discriminate E. }
  destruct (H Hnone) as [_ H']. destruct (H' Hnone) as [Hc _].
  apply (Hc 24999%Z eq_refl). unfold cents_exact. split; [lia|].
  reflexivity.
Defined.

End ApiPrice.

(** ** The API path on entries as they arrive *)
Section ArrivingEntries.
Import Js ApiScraper JsonSearch Untyped Scenario ExtraScenario UntypedScenario.

(** On an entry that follows the interface the two embeddings of
    [parseApiProduct] agree. *)
Lemma parseApiProduct_of_typed (p : ApiProduct.t) (baseUrl now : string) :
  Untyped.parseApiProduct (Entry.of_typed p) baseUrl now
  = option_map Product.of_record (ApiScraper.parseApiProduct p baseUrl now).
Proof.
  destruct p as [id productCode name slug baseImgUrl primaryImage image
                   overrideUrl price listPrice variant attributes
                   availability themes badges flags].
  destruct productCode as [[|c1 s1]|], id as [[|c2 s2]|],
    slug as [[|c3 s3]|], overrideUrl as [[|c4 s4]|]; reflexivity.
Qed.

Lemma has_absent_set (m : Store) (key : Json) (v : Entry.t) :
  has m key = false -> set m key v = (m ++ [(key, v)])%list.
Proof.
  induction m as [|[k v'] m IH]; [reflexivity|]. cbn [has set].
  intros H. apply orb_false_iff in H as [Hk Hm].
  rewrite Hk. cbn [app]. now rewrite IH.
Qed.

Lemma arriving_capture_cases (m : Store) (product : Entry.t) :
  capture m product = m
  \/ exists key, identifier_of product = Some key
                 /\ truthy_value key = true
                 /\ capture m product = (m ++ [(key, product)])%list.
Proof.
  unfold capture. destruct (identifier_of product) as [key|]; [|now left].
  destruct (truthy_value key) eqn:Ht; [|now left].
  destruct (has m key) eqn:Hh; [now left|]. right.
  exists key. cbn [andb negb]. now rewrite (has_absent_set m key product Hh).
Qed.

Lemma arriving_keyed (m : Store) : Reachable m -> keyed m.
Proof.
  induction 1 as [|m product _ IH]; [constructor|].
  destruct (arriving_capture_cases m product) as [-> | (key & Hid & Ht & ->)];
    [exact IH|].
  apply Forall_app. split; [exact IH|]. now repeat constructor.
Qed.

(** A stored entry whose link is a string yields a record. *)
Lemma text_link_parsed (key : Json) (e : Entry.t) (baseUrl now : string) :
  identifier_of e = Some key -> truthy_value key = true ->
  has_text_link e = true ->
  exists r, Untyped.parseApiProduct e baseUrl now = Some r
            /\ Product.setNumber r = key.
Proof.
  unfold has_text_link, Untyped.parseApiProduct. intros Hid Ht Hlink.
  rewrite Hid. cbn [is_truthy]. rewrite Ht. cbn [negb].
  destruct (slug_of e) as [[| | |slug| |]|]; try discriminate.
  eexists. split; reflexivity.
Qed.

Lemma parsed_setNumber (key : Json) (e : Entry.t) (baseUrl now : string)
  (r : Product.t) :
  identifier_of e = Some key ->
  Untyped.parseApiProduct e baseUrl now = Some r ->
  Product.setNumber r = key.
Proof.
  unfold Untyped.parseApiProduct. intros ->.
  destruct (negb (is_truthy (Some key))); [discriminate|].
  destruct (slug_of e) as [[| | |slug| |]|]; try discriminate.
  intros E. now inversion E.
Qed.

Lemma firstn_exact {A} (l l' : list A) :
  firstn (List.length l) (l ++ l') = l.
Proof.
  rewrite firstn_app, Nat.sub_diag, firstn_all. cbn [firstn].
  apply app_nil_r.
Qed.

(** The loop with its [break] collects the records of the entries that
    yield one, and stops at the limit. *)
Lemma api_loop_parsed (maxProducts : nat) (baseUrl now : string)
  (entries : list Entry.t) :
  forall products : list Product.t,
    (maxProducts = 0 \/ List.length products < maxProducts)%nat ->
    Untyped.api_loop maxProducts baseUrl now entries products
    = up_to maxProducts (products ++ parsed baseUrl now entries)%list.
Proof.
  unfold up_to.
  induction entries as [|e es IH]; intros products Hlen.
  - cbn [Untyped.api_loop parsed]. rewrite app_nil_r.
    destruct (Nat.ltb_spec 0 maxProducts); [|reflexivity].
    rewrite firstn_all2; [reflexivity | lia].
  - cbn [Untyped.api_loop parsed].
    set (products' := match Untyped.parseApiProduct e baseUrl now with
                      | Some product => (products ++ [product])%list
                      | None => products
                      end).
    assert (Happ : (products ++ match Untyped.parseApiProduct e baseUrl now
                                with
                                | Some r => r :: parsed baseUrl now es
                                | None => parsed baseUrl now es
                                end
                    = products' ++ parsed baseUrl now es)%list).
    { subst products'. destruct (Untyped.parseApiProduct e baseUrl now);
        [|reflexivity]. now rewrite <- app_assoc. }
    assert (Hstep : (List.length products' <= S (List.length products))%nat).
    { subst products'. destruct (Untyped.parseApiProduct e baseUrl now);
        [|lia]. rewrite length_app. simpl. lia. }
    rewrite Happ.
    destruct (Nat.ltb_spec 0 maxProducts) as [Hpos | Hzero]; cbn [andb].
    + destruct Hlen as [Hlen | Hlen]; [lia|].
      destruct (Nat.leb_spec maxProducts (List.length products'))
        as [Hge | Hlt].
      * assert (Heq : maxProducts = List.length products') by lia.
        rewrite Heq. now rewrite firstn_exact.
      * rewrite IH by (right; exact Hlt).
        destruct (Nat.ltb_spec 0 maxProducts); [reflexivity | lia].
    + rewrite IH by (left; lia).
      destruct (Nat.ltb_spec 0 maxProducts); [lia | reflexivity].
Qed.

Lemma api_products_parsed (m : Store) (maxProducts : nat)
  (baseUrl now : string) :
  api_products m maxProducts baseUrl now
  = up_to maxProducts (parsed baseUrl now (values m)).
Proof.
  unfold api_products. destruct m as [|kv m].
  - change (@nil Product.t = up_to maxProducts []). unfold up_to.
    destruct (0 <? maxProducts)%nat; [now rewrite firstn_nil | reflexivity].
  - change (0 <? size (kv :: m))%nat with true. cbv iota.
    rewrite api_loop_parsed; [reflexivity|].
    cbn [List.length]. lia.
Qed.

Lemma parsed_nil (baseUrl now : string) (entries : list Entry.t) :
  parsed baseUrl now entries = []
  <-> forall entry, In entry entries ->
                    Untyped.parseApiProduct entry baseUrl now = None.
Proof.
  induction entries as [|e es IH]; cbn [parsed].
  - split; [intros _ entry [] | reflexivity].
  - destruct (Untyped.parseApiProduct e baseUrl now) as [r|] eqn:E.
    + split; [discriminate|]. intros H.
      specialize (H e (or_introl eq_refl)). congruence.
    + rewrite IH. split.
      * intros H entry [<- | Hin]; [exact E | now apply H].
      * intros H entry Hin. apply H. now right.
Qed.

Lemma parsed_In (baseUrl now : string) (entries : list Entry.t)
  (r : Product.t) :
  In r (parsed baseUrl now entries) ->
  exists entry, In entry entries
                /\ Untyped.parseApiProduct entry baseUrl now = Some r.
Proof.
  induction entries as [|e es IH]; cbn [parsed]; [intros []|].
  destruct (Untyped.parseApiProduct e baseUrl now) as [r'|] eqn:E.
  - intros [<- | Hin].
    + exists e. split; [now left | exact E].
    + destruct (IH Hin) as (entry & Hin' & Hr). exists entry.
      split; [now right | exact Hr].
  - intros Hin. destruct (IH Hin) as (entry & Hin' & Hr). exists entry.
    split; [now right | exact Hr].
Qed.

Lemma up_to_nil {A} (maxProducts : nat) (l : list A) :
  up_to maxProducts l = [] <-> l = [].
Proof.
  unfold up_to. destruct (Nat.ltb_spec 0 maxProducts) as [Hpos|];
    [|reflexivity].
  destruct l as [|x l]; [now rewrite firstn_nil|].
  destruct maxProducts; [lia|]. cbn [firstn]. split; discriminate.
Qed.

Lemma up_to_In {A} (maxProducts : nat) (l : list A) (x : A) :
  In x (up_to maxProducts l) -> In x l.
Proof.
  unfold up_to. destruct (0 <? maxProducts)%nat; [|exact (fun H => H)].
  intros H. rewrite <- (firstn_skipn maxProducts l).
  apply in_or_app. now left.
Qed.

(** The DOM extractor runs exactly when the API pass ends without a
    record. *)
Lemma fallback_iff_no_products (m : Store) (page : Page.t)
  (maxProducts : nat) (baseUrl now : string) :
  let effects := emit_catalog m page maxProducts baseUrl now in
  (In DomExtraction effects
   <-> api_products m maxProducts baseUrl now = [])
  /\ (api_products m maxProducts baseUrl now <> [] ->
      effects = [PushData (api_products m maxProducts baseUrl now)]).
Proof.
  cbv zeta. unfold emit_catalog.
  destruct (api_products m maxProducts baseUrl now) as [|r rs].
  - cbn [List.length Nat.eqb]. split; [|congruence].
    split; [reflexivity|]. intros _. now left.
  - cbn [List.length Nat.eqb app]. split; [|reflexivity].
    split; [|discriminate]. intros [H | []]. discriminate H.
Qed.

(** C7: the DOM extractor runs exactly when [parseApiProduct] returns a
    record for no stored entry, which is so when the store is empty; when
    it does not run, the handler pushes the records of the stored entries
    and nothing else.  For a store the listener built whose entries all
    have a string as their link ([slug || overrideUrl || setNumber]), the
    other properties being typed as the [ApiProduct] interface declares
    them, the DOM extractor runs exactly when the store is empty. *)
Theorem C7_dom_fallback_iff_no_record :
  forall (m : Store) (page : Page.t) (maxProducts : nat)
         (baseUrl now : string),
    let effects := emit_catalog m page maxProducts baseUrl now in
    (In DomExtraction effects
     <-> forall entry, In entry (values m) ->
                       Untyped.parseApiProduct entry baseUrl now = None)
    /\ (m = new_Map -> In DomExtraction effects)
    /\ (~ In DomExtraction effects ->
        effects = [PushData (api_products m maxProducts baseUrl now)]
        /\ Forall (fun r => exists entry,
                       In entry (values m)
                       /\ Untyped.parseApiProduct entry baseUrl now = Some r)
             (api_products m maxProducts baseUrl now))
    /\ (Reachable m ->
        Forall (fun entry => has_text_link entry = true) (values m) ->
        (In DomExtraction effects <-> m = new_Map)).
Proof.
  intros m page maxProducts baseUrl now effects.
  destruct (fallback_iff_no_products m page maxProducts baseUrl now)
    as [Hiff Hpush]. fold effects in Hiff, Hpush.
  assert (Hnone : In DomExtraction effects
                  <-> forall entry, In entry (values m) ->
                        Untyped.parseApiProduct entry baseUrl now = None).
  { rewrite Hiff, api_products_parsed, up_to_nil. apply parsed_nil. }
  split; [exact Hnone|]. split; [|split].
  - intros ->. apply Hnone. intros entry [].
  - intros Hno.
    assert (Hne : api_products m maxProducts baseUrl now <> []).
    { intros E. apply Hno, Hiff, E. }
    split; [now apply Hpush|].
    apply Forall_forall. intros r Hin.
    rewrite api_products_parsed in Hin.
    apply up_to_In in Hin. now apply parsed_In.
  - intros Hm Hlinks. rewrite Hnone. split.
    + intros Hall. destruct m as [|[k e] m]; [reflexivity|].
      pose proof (arriving_keyed _ Hm) as Hk.
      inversion Hk as [|kv rest [Hid Ht] _]; subst.
      inversion Hlinks as [|e' rest' Hlink _]; subst.
      cbn [fst snd] in Hid, Ht.
      destruct (text_link_parsed k e baseUrl now Hid Ht Hlink)
        as (r & Hr & _).
      rewrite (Hall e (or_introl eq_refl)) in Hr. discriminate Hr.
    + intros -> entry [].
Qed.

(** C7 on a store that holds one entry with a numeric product code and a
    slug: the entry yields a record and the DOM extractor does not run. *)
Lemma C7_dom_fallback_iff_no_record_witness :
  capture new_Map numeric_code_with_slug
  = [(Number 10300%float, numeric_code_with_slug)]
  /\ ~ In DomExtraction
         (emit_catalog (capture new_Map numeric_code_with_slug) card_page 0
            baseUrl now).
Proof.
  split; [reflexivity|]. intros Hin.
  pose proof (proj1 (proj2 (proj2 (proj2
                (C7_dom_fallback_iff_no_record
                   (capture new_Map numeric_code_with_slug) card_page 0
                   baseUrl now)))
                (Reachable_capture _ _ Reachable_new)
                (Forall_cons numeric_code_with_slug
                   (eq_refl : has_text_link numeric_code_with_slug = true)
                   (Forall_nil _))) Hin) as Hempty.
  discriminate Hempty.
Defined.

(** [processApiResponse] takes the object of the body
    [[{productCode: 10300, name: 'Vintage Car'}]] for a product: its
    [productCode] is truthy. *)
Example numeric_code_is_found :
  processApiResponse
    (Array [Object [("productCode", Number 10300%float);
                    ("name", Str "Vintage Car")]])
  = [Object [("productCode", Number 10300%float);
             ("name", Str "Vintage Car")]].
Proof. reflexivity. Qed.

(** C7 on the response body [[{productCode: 10300, name: 'Vintage Car'}]]:
    the listener stores the entry under the number 10300,
    [parseApiProduct] throws at [slug.startsWith] and returns [null], and
    the handler runs the DOM extractor and pushes what it finds, although
    the store is not empty. *)
Theorem C7_numeric_code_falls_back :
  let m := on_response new_Map (json_response [numeric_code]) in
  m = [(Number 10300%float, numeric_code)]
  /\ Untyped.parseApiProduct numeric_code baseUrl now = None
  /\ emit_catalog m card_page 0 baseUrl now
     = [DomExtraction;
        PushData (map Product.of_record
                    (extractProductsFromDom card_page 0 now))]
  /\ extractProductsFromDom card_page 0 now <> [].
Proof.
  cbv zeta. split; [reflexivity|]. split; [reflexivity|].
  split; [reflexivity | discriminate].
Qed.

(** X5: the records of the API pass are the records [parseApiProduct]
    returns for the stored entries, in capture order, the entries for
    which it returns [null] left out, and with a limit the first
    [maxProducts] of them; their set numbers are the keys of these
    entries. *)
Theorem X5_api_products_in_capture_order :
  forall (m : Store) (maxProducts : nat) (baseUrl now : string),
    Reachable m ->
    api_products m maxProducts baseUrl now
    = up_to maxProducts (parsed baseUrl now (values m))
    /\ map Product.setNumber (api_products m maxProducts baseUrl now)
       = up_to maxProducts
           (map fst (filter (fun kv => yields_record baseUrl now (snd kv))
                       m)).
Proof.
  intros m maxProducts baseUrl now Hm.
  split; [apply api_products_parsed|].
  rewrite api_products_parsed.
  assert (Hmap : map Product.setNumber (parsed baseUrl now (values m))
                 = map fst (filter (fun kv => yields_record baseUrl now
                                                (snd kv)) m)).
  { pose proof (arriving_keyed m Hm) as Hk. clear Hm.
    induction Hk as [|[k e] m [Hid _] _ IH]; [reflexivity|].
    cbn [values map snd parsed filter]. unfold yields_record at 1.
    cbn [fst snd] in Hid.
    destruct (Untyped.parseApiProduct e baseUrl now) as [r|] eqn:E.
    - cbn [map fst]. rewrite (parsed_setNumber k e baseUrl now r Hid E).
      f_equal. exact IH.
    - exact IH. }
  rewrite <- Hmap. unfold up_to.
  destruct (0 <? maxProducts)%nat; [apply eq_sym, firstn_map | reflexivity].
Qed.

(** X5 at a store with three entries, the first with a numeric product
    code and no slug, and a limit of one. *)
Lemma X5_api_products_in_capture_order_witness :
  map Product.setNumber
    (api_products
       (capture (capture (capture new_Map numeric_code)
                   (Entry.of_typed vintage_car))
          (Entry.of_typed second_product)) 1 baseUrl now)
  = [Str "10300"].
Proof.
  apply (proj2 (X5_api_products_in_capture_order
                  (capture (capture (capture new_Map numeric_code)
                              (Entry.of_typed vintage_car))
                     (Entry.of_typed second_product)) 1 baseUrl now
                  (Reachable_capture _ _
                     (Reachable_capture _ _
                        (Reachable_capture _ _ Reachable_new))))).
Defined.

End ArrivingEntries.

(** ** The product search *)
Section ProductSearch.
Import Js JsonSearch DetailExtraScenario.

Lemma findProducts_eq (obj : Json) (depth : nat) :
  findProducts obj depth =
  if (10 <? depth)%nat || negb (truthy_value obj) then []
  else
    match obj with
    | Array items => flat_map (fun item => findProducts item (S depth)) items
    | Object record =>
        if looks_like_product record then [obj]
        else flat_map (fun kv => findProducts (snd kv) (S depth)) record
    | _ => []
    end.
Proof. destruct obj; reflexivity. Qed.


Lemma findProducts_nest (p : Json) (k : nat) :
  forall depth : nat,
    findProducts (nest k p) depth =
    if (depth + k <=? 10)%nat then findProducts p (depth + k) else [].
Proof.
  induction k as [|k IH]; intros depth; cbn [nest].
  - rewrite Nat.add_0_r. rewrite (findProducts_eq p depth).
    destruct (Nat.leb_spec depth 10); [reflexivity|].
    destruct (Nat.ltb_spec 10 depth); [reflexivity | lia].
  - rewrite findProducts_eq. cbn [truthy_value negb flat_map].
    rewrite app_nil_r, IH, orb_false_r.
    replace (S depth + k)%nat with (depth + S k)%nat by lia.
    destruct (Nat.ltb_spec 10 depth) as [Hd | Hd]; [|reflexivity].
    destruct (Nat.leb_spec (depth + S k) 10); [lia | reflexivity].
Qed.



(** X12: the search goes ten levels deep and no further: a product under
    [k] nested arrays is found when [k] is at most 10 and missed when it is
    more. *)
Theorem X12_search_depth :
  forall (record : list (string * Json)) (k : nat),
    looks_like_product record = true ->
    processApiResponse (nest k (Object record))
    = if (k <=? 10)%nat then [Object record] else [].
Proof.
  intros record k Hl. unfold processApiResponse.
  rewrite findProducts_nest. cbn [Nat.add].
  destruct (Nat.leb_spec k 10) as [Hk | Hk]; [|reflexivity].
  rewrite findProducts_eq.
  destruct (Nat.ltb_spec 10 k); [lia|].
  cbn [orb truthy_value negb]. now rewrite Hl.
Qed.

(** X12 at the depths 10 and 11. *)
Lemma X12_search_depth_witness :
  processApiResponse (nest 10 product_record) = [product_record]
  /\ processApiResponse (nest 11 product_record) = [].
Proof.
  split.
  - apply (X12_search_depth _ 10). reflexivity.
  - apply (X12_search_depth _ 11). reflexivity.
Defined.

(** X13: a list of records that all look like products is returned as it
    is, in its order. *)
Theorem X13_search_keeps_order :
  forall records : list (list (string * Json)),
    Forall (fun record => looks_like_product record = true) records ->
    processApiResponse (Array (map Object records)) = map Object records.
Proof.
  intros records Hall. unfold processApiResponse.
  rewrite findProducts_eq. cbn [Nat.ltb Nat.leb orb truthy_value negb].
  induction Hall as [|record rest Hl _ IH]; [reflexivity|].
  cbn [map flat_map]. rewrite IH, findProducts_eq.
  cbn [Nat.ltb Nat.leb orb truthy_value negb]. now rewrite Hl.
Qed.

(** X13 at a list of two records. *)
Lemma X13_search_keeps_order_witness :
  processApiResponse
    (Array [Object [("productCode", Str "10300")];
            Object [("productCode", Str "21345")]])
  = [Object [("productCode", Str "10300")];
     Object [("productCode", Str "21345")]].
Proof.
  apply (X13_search_keeps_order
           [[("productCode", Str "10300")]; [("productCode", Str "21345")]]).
  repeat constructor.
Defined.

End ProductSearch.

(** ** The controller and the CATALOG handler of the detail-page variant *)
Section DetailController.
Import Js Text LegoScraper DetailScenario DetailExtraScenario.

Lemma scrollToLoadAllProducts_eq (fuel : nat) (page : CatalogPage.t)
  (maxProducts : nat) :
  scrollToLoadAllProducts fuel page maxProducts
  = scroll_loop fuel page maxProducts (ScrollState.mk 0 0 0).
Proof. reflexivity. Qed.

(** X14: the controller of the detail-page variant always returns within
    500 scrolls, and when it returns one of its three exit conditions
    holds: the last reading met the product limit, or ten readings in a row
    brought nothing new, or the ceiling of 500 scrolls is reached. *)
Theorem X14_detail_controller_exits :
  forall (page : CatalogPage.t) (maxProducts : nat),
  exists reason st,
    scrollToLoadAllProducts maxTotalScrolls page maxProducts
    = Some (reason, st)
    /\ (ScrollState.totalScrolls st <= maxTotalScrolls)%nat
    /\ match reason with
       | TargetReached =>
           (0 < maxProducts)%nat
           /\ exists i,
                ScrollState.totalScrolls st = S i
                /\ (maxProducts <= CatalogPage.domProductCount page i)%nat
       | Stalled =>
           (maxSameCountIterations <= ScrollState.sameCountIterations st)%nat
       | CeilingHit =>
           (maxTotalScrolls <= ScrollState.totalScrolls st)%nat
       end.
Proof.
  intros page maxProducts.
  destruct (detail_controller_terminates page maxProducts)
    as [reason [st [E Hle]]].
  exists reason, st. split; [exact E|]. split; [exact Hle|].
  rewrite scrollToLoadAllProducts_eq in E.
  exact (detail_exit_reason_sound page maxProducts maxTotalScrolls
           (ScrollState.mk 0 0 0) reason st E).
Qed.

Lemma button_loop (page : CatalogPage.t) (maxProducts : nat) :
  (forall i, existsb (CatalogPage.buttonVisible page i) loadMoreSelectors
             = true) ->
  (forall i, maxProducts = 0%nat
             \/ (CatalogPage.domProductCount page i < maxProducts)%nat) ->
  forall (fuel prev total : nat),
    (total + fuel = maxTotalScrolls)%nat ->
    exists prev',
      scroll_loop fuel page maxProducts (ScrollState.mk prev 0 total)
      = Some (CeilingHit, ScrollState.mk prev' 0 maxTotalScrolls).
Proof.
  intros Hbutton Htarget.
  induction fuel as [|fuel IH]; intros prev total Hsum;
    rewrite scroll_loop_eq; cbn [ScrollState.sameCountIterations
      ScrollState.totalScrolls ScrollState.previousProductCount];
    change (0 <? maxSameCountIterations)%nat with true; cbn [negb].
  - replace total with maxTotalScrolls by lia.
    rewrite Nat.ltb_irrefl. cbn [negb]. now exists prev.
  - destruct (Nat.ltb_spec total maxTotalScrolls) as [_ | Hge]; [|lia].
    cbn [negb]. cbv zeta.
    assert (Hno : ((0 <? maxProducts)%nat
                   && (maxProducts
                       <=? CatalogPage.domProductCount page total)%nat)
                  = false).
    { destruct (Htarget total) as [-> | Hlt]; [reflexivity|].
      destruct (Nat.leb_spec maxProducts
                  (CatalogPage.domProductCount page total)); [lia|].
      apply andb_false_r. }
    rewrite Hno, Hbutton. apply IH. lia.
Qed.

(** X15: clicking a "load more" button counts as progress: on a page that
    shows such a button at every iteration and never meets the product
    limit, the controller does not stall and runs to its ceiling of 500
    scrolls. *)
Theorem X15_button_runs_to_ceiling :
  forall (page : CatalogPage.t) (maxProducts : nat),
    (forall i, existsb (CatalogPage.buttonVisible page i) loadMoreSelectors
               = true) ->
    (forall i, maxProducts = 0%nat
               \/ (CatalogPage.domProductCount page i < maxProducts)%nat) ->
    exists prev,
      scrollToLoadAllProducts maxTotalScrolls page maxProducts
      = Some (CeilingHit, ScrollState.mk prev 0 maxTotalScrolls).
Proof.
  intros page maxProducts Hbutton Htarget.
  rewrite scrollToLoadAllProducts_eq.
  exact (button_loop page maxProducts Hbutton Htarget maxTotalScrolls 0 0
           eq_refl).
Qed.

(** X15 on a page whose button stays visible. *)
Lemma X15_button_runs_to_ceiling_witness :
  exists prev,
    scrollToLoadAllProducts maxTotalScrolls button_page 0
    = Some (CeilingHit, ScrollState.mk prev 0 maxTotalScrolls).
Proof.
  apply (X15_button_runs_to_ceiling button_page 0).
  - intros i. reflexivity.
  - intros i. now left.
Defined.

Lemma stall_loop (page : CatalogPage.t) (maxProducts count : nat) :
  (forall i sel, CatalogPage.buttonVisible page i sel = false) ->
  (forall i, CatalogPage.domProductCount page i = count) ->
  (maxProducts = 0 \/ count < maxProducts)%nat ->
  forall (fuel same total : nat),
    (same <= 10)%nat ->
    (10 - same <= fuel)%nat ->
    (total + (10 - same) < maxTotalScrolls)%nat ->
    scroll_loop fuel page maxProducts (ScrollState.mk count same total)
    = Some (Stalled, ScrollState.mk count 10 (total + (10 - same))).
Proof.
  intros Hbutton Hcount Htarget.
  assert (Hno : ((0 <? maxProducts)%nat && (maxProducts <=? count)%nat)
                = false).
  { destruct Htarget as [-> | Hlt]; [reflexivity|].
    destruct (Nat.leb_spec maxProducts count); [lia | apply andb_false_r]. }
  assert (Hnone : forall i,
             existsb (CatalogPage.buttonVisible page i) loadMoreSelectors
             = false).
  { intros i. unfold loadMoreSelectors. cbn [existsb].
    now rewrite !Hbutton. }
  induction fuel as [|fuel IH]; intros same total Hsame Hfuel Htotal;
    rewrite scroll_loop_eq; cbn [ScrollState.sameCountIterations
      ScrollState.totalScrolls ScrollState.previousProductCount];
    unfold maxSameCountIterations in *.
  - replace same with 10%nat by lia. cbn [Nat.ltb Nat.leb negb].
    now rewrite Nat.sub_diag, Nat.add_0_r.
  - destruct (Nat.ltb_spec same 10) as [Hlt | Hge]; cbn [negb].
    + destruct (Nat.ltb_spec total maxTotalScrolls) as [_ | Hge]; [|lia].
      cbn [negb]. cbv zeta.
      rewrite Hcount, Hno, Hnone, Nat.eqb_refl.
      rewrite IH by lia. do 3 f_equal. lia.
    + replace same with 10%nat by lia.
      now rewrite Nat.sub_diag, Nat.add_0_r.
Qed.

(** X16: on a page without a "load more" button whose count never changes
    and stays below the product limit, the controller stalls: it gives up
    after ten scrolls when the page is empty and after eleven otherwise,
    the first reading of a non-empty page being a change from zero. *)
Theorem X16_constant_page_stalls :
  forall (page : CatalogPage.t) (maxProducts count : nat),
    (forall i sel, CatalogPage.buttonVisible page i sel = false) ->
    (forall i, CatalogPage.domProductCount page i = count) ->
    (maxProducts = 0 \/ count < maxProducts)%nat ->
    scrollToLoadAllProducts maxTotalScrolls page maxProducts
    = Some (Stalled,
            ScrollState.mk count 10 (if (count =? 0)%nat then 10 else 11)).
Proof.
  intros page maxProducts count Hbutton Hcount Htarget.
  rewrite scrollToLoadAllProducts_eq.
  destruct (Nat.eqb_spec count 0) as [-> | Hne].
  - rewrite (stall_loop page maxProducts 0 Hbutton Hcount Htarget
               maxTotalScrolls 0 0); [reflexivity | lia | | ];
      unfold maxTotalScrolls; lia.
  - unfold maxTotalScrolls at 1. rewrite scroll_loop_eq.
    cbn [ScrollState.sameCountIterations ScrollState.totalScrolls
         ScrollState.previousProductCount].
    change (negb (0 <? maxSameCountIterations)%nat) with false.
    change (negb (0 <? maxTotalScrolls)%nat) with false.
    cbv iota zeta. rewrite Hcount.
    assert (Hno : ((0 <? maxProducts)%nat && (maxProducts <=? count)%nat)
                  = false).
    { destruct Htarget as [-> | Hlt]; [reflexivity|].
      destruct (Nat.leb_spec maxProducts count); [lia | apply andb_false_r]. }
    rewrite Hno.
    assert (Hnone : existsb (CatalogPage.buttonVisible page 0)
                      loadMoreSelectors = false).
    { unfold loadMoreSelectors. cbn [existsb]. now rewrite !Hbutton. }
    rewrite Hnone.
    destruct (Nat.eqb_spec count 0) as [H0 | _]; [contradiction|].
    rewrite (stall_loop page maxProducts count Hbutton Hcount Htarget
               499 0 1); [reflexivity | lia | lia |].
    unfold maxTotalScrolls. lia.
Qed.

(** X16 on a page that shows twelve items and no button. *)
Lemma X16_constant_page_stalls_witness :
  scrollToLoadAllProducts maxTotalScrolls twelve_items_page 0
  = Some (Stalled, ScrollState.mk 12 10 11).
Proof.
  apply (X16_constant_page_stalls twelve_items_page 0 12).
  - intros i sel. reflexivity.
  - intros i. reflexivity.
  - now left.
Defined.

Lemma collect_urls_shape (links : list (option string)) :
  (List.length (collect_urls links) <= List.length links)%nat
  /\ Forall (fun u => startsWith u "http" = true
                      /\ includes u "/product/" = true)
       (collect_urls links).
Proof.
  induction links as [|link rest [IHlen IHall]]; simpl;
    [split; [lia | constructor]|].
  destruct (truthy (str_or link "")); simpl; [|split; [lia | exact IHall]].
  destruct (includes (str_or link "") "/product/") eqn:Hinc;
    [|split; [lia | exact IHall]].
  split; [simpl; lia|]. constructor; [|exact IHall].
  destruct (startsWith (str_or link "") "http") eqn:Hs; [auto|].
  split; [reflexivity|].
  exact (includes_app_r "https://www.lego.com" _ "/product/" Hinc).
Qed.

(** X17: the CATALOG handler of the detail-page variant always comes to an
    end.  It either saves one screenshot (no product item appeared) or
    enqueues one batch of URLs; each enqueued URL starts with "http" and
    contains "/product/", and with a positive product limit the batch holds
    at most that many URLs. *)
Theorem X17_detail_catalog_enqueues :
  forall (page : CatalogPage.t) (maxProducts : nat),
    (CatalogPage.productItemAppears page = false
     /\ catalogHandler maxTotalScrolls page maxProducts
        = Some [SetValue "debug-catalog-screenshot" "image/png"])
    \/ (CatalogPage.productItemAppears page = true
        /\ exists urls,
             catalogHandler maxTotalScrolls page maxProducts
             = Some [AddRequests urls]
             /\ Forall (fun u => startsWith u "http" = true
                                 /\ includes u "/product/" = true) urls
             /\ (List.length urls
                 <= List.length (CatalogPage.itemLinks page))%nat
             /\ ((0 < maxProducts)%nat ->
                 (List.length urls <= maxProducts)%nat)).
Proof.
  intros page maxProducts. unfold catalogHandler.
  destruct (CatalogPage.productItemAppears page); [right | now left].
  split; [reflexivity|].
  destruct (detail_controller_terminates page maxProducts)
    as [reason [st [E _]]].
  rewrite E. eexists. split; [reflexivity|].
  set (links := CatalogPage.itemLinks page).
  set (limit := if (0 <? maxProducts)%nat
                then Nat.min maxProducts (List.length links)
                else List.length links).
  destruct (collect_urls_shape (firstn limit links)) as [Hlen Hall].
  rewrite length_firstn in Hlen.
  split; [exact Hall|]. split; [lia|].
  intros Hpos. subst limit.
  destruct (Nat.ltb_spec 0 maxProducts); lia.
Qed.

End DetailController.

(** ** The PRODUCT handler *)
Section ProductRecord.
Import Js Text LegoScraper ProductHandler DetailExtraScenario.

Lemma prefix_app (p s : string) :
  prefix p s = true <-> exists q, s = p ++ q.
Proof.
  revert s. induction p as [|a p IH]; intros s.
  - split; [intros _; now exists s | intros _; now destruct s].
  - destruct s as [|b s]; simpl.
    + split; [discriminate | intros [q E]; discriminate E].
    + destruct (ascii_dec a b) as [<- | Hne].
      * rewrite IH. split; intros [q E]; exists q; congruence.
      * split; [discriminate | intros [q E]; congruence].
Qed.

Lemma prefix_includes (s sub : string) :
  prefix sub s = true -> includes s sub = true.
Proof.
  intros H. destruct s; [exact H | cbn [includes]; now rewrite H].
Qed.

Lemma includes_iff (s sub : string) :
  includes s sub = true <-> exists p q, s = p ++ sub ++ q.
Proof.
  split.
  - induction s as [|c t IH]; cbn [includes].
    + intros H. apply prefix_app in H as [q E]. now exists "", q.
    + intros H. apply orb_true_iff in H as [H | H].
      * apply prefix_app in H as [q E]. now exists "", q.
      * destruct (IH H) as [p [q E]]. exists (String c p), q.
        simpl. now rewrite E.
  - intros [p [q E]]. subst s. induction p as [|c p IH].
    + apply prefix_includes. apply prefix_app. now exists q.
    + change (String c p ++ sub ++ q) with (String c (p ++ sub ++ q)).
      cbn [includes]. rewrite IH. apply orb_true_r.
Qed.

(** A text that contains a phrase contains every end of that phrase. *)
Lemma includes_phrase_end (s a b : string) :
  includes s (a ++ b) = true -> includes s b = true.
Proof.
  intros H. apply includes_iff in H as [p [q E]]. apply includes_iff.
  exists (p ++ a), q. rewrite E, !string_app_assoc. reflexivity.
Qed.

Lemma productHandler_fields (page : DetailPage.t) (now : string)
  (r : DetailProduct.t) :
  productHandler page now = Some r ->
  DetailPage.nameAppears page = true
  /\ DetailProduct.setNumber r = setNumber_of_url (DetailPage.url page)
  /\ DetailProduct.name r = trim (DetailPage.nameText page)
  /\ DetailProduct.theme r = trim (theme_of (DetailPage.breadcrumbs page))
  /\ DetailProduct.pieces r = count_of (DetailPage.piecesText page)
  /\ DetailProduct.minifigures r = count_of (DetailPage.minifigsText page)
  /\ DetailProduct.reviewCount r = count_of (DetailPage.reviewText page)
  /\ DetailProduct.isOnSale r
     = Pricing.isOnSale (extract_pricing (DetailPage.prices page))
  /\ DetailProduct.availability r = availability_of page
  /\ DetailProduct.tags r
     = tags_of page
         (Pricing.isOnSale (extract_pricing (DetailPage.prices page)))
  /\ DetailProduct.productUrl r = DetailPage.url page.
Proof.
  unfold productHandler.
  destruct (DetailPage.nameAppears page); simpl; [|discriminate].
  intros E. inversion E; subst r. simpl. repeat split.
Qed.

(** X18: when the sale flag comes from the main price display, the lower
    of its first two prices is the sale price and the higher one the retail
    price, whichever comes first in the text; the discount is recorded
    when the retail price is above zero. *)
Theorem X18_lower_price_is_sale :
  forall page : ProductPage.t,
    both_dedicated page = false ->
    main_prices_differ page = true ->
    exists retail sale,
      extract_pricing page
      = Pricing.mk (Some retail) (Some sale) true
          (if PrimFloat.ltb zero (price_value retail)
           then Some (discount_of retail sale) else None)
      /\ PrimFloat.ltb (price_value sale) (price_value retail) = true
      /\ In retail (firstn 2 (match_all_amounts
                                (ProductPage.mainPriceText page)))
      /\ In sale (firstn 2 (match_all_amounts
                              (ProductPage.mainPriceText page))).
Proof.
  intros page Hboth Hdiff.
  unfold extract_pricing, identify_prices.
  unfold both_dedicated in Hboth. rewrite Hboth.
  unfold main_prices_differ in Hdiff.
  pose proof (match_all_amounts_truthy (ProductPage.mainPriceText page) 0)
    as Hall. fold (match_all_amounts (ProductPage.mainPriceText page)) in Hall.
  destruct (match_all_amounts (ProductPage.mainPriceText page))
    as [|p1 [|p2 rest]]; try discriminate.
  pose proof (Hall p1 (or_introl eq_refl)) as H1.
  pose proof (Hall p2 (or_intror (or_introl eq_refl))) as H2.
  cbn [List.length Nat.leb nth nth_error andb firstn].
  rewrite H1, H2. cbn [andb].
  destruct (PrimFloat.ltb (price_value p1) (price_value p2)) eqn:H12.
  - exists p2, p1. cbn [str_or andb]. rewrite H1, H2. cbn [andb].
    rewrite H1, H2. unfold strictly_lower. rewrite H12, !andb_true_r.
    split; [reflexivity|]. split; [reflexivity|]. simpl. auto.
  - cbn [orb] in Hdiff. rewrite Hdiff.
    exists p1, p2. cbn [str_or andb]. rewrite H1, H2. cbn [andb].
    rewrite H1, H2. unfold strictly_lower. rewrite Hdiff, !andb_true_r.
    split; [reflexivity|]. split; [reflexivity|]. simpl. auto.
Qed.

(** X18 on a page that shows the original price first. *)
Lemma X18_lower_price_is_sale_witness :
  exists retail sale,
    extract_pricing main_display_page
    = Pricing.mk (Some retail) (Some sale) true
        (if PrimFloat.ltb zero (price_value retail)
         then Some (discount_of retail sale) else None)
    /\ PrimFloat.ltb (price_value sale) (price_value retail) = true
    /\ In retail (firstn 2 (match_all_amounts
                              (ProductPage.mainPriceText main_display_page)))
    /\ In sale (firstn 2 (match_all_amounts
                            (ProductPage.mainPriceText main_display_page))).
Proof.
  apply (X18_lower_price_is_sale main_display_page); reflexivity.
Defined.

(** X19: the availability of a product record is "Available", "Out of
    Stock", "Coming Soon" or "Backorder".  It is never "Temporarily Out of
    Stock": a page text that holds "temporarily out of stock" holds "out of
    stock", which is tested first. *)
Theorem X19_detail_availability :
  forall (page : DetailPage.t) (now : string) (r : DetailProduct.t),
    productHandler page now = Some r ->
    In (DetailProduct.availability r)
      ["Available"; "Out of Stock"; "Coming Soon"; "Backorder"]
    /\ DetailProduct.availability r <> "Temporarily Out of Stock".
Proof.
  intros page now r E.
  apply productHandler_fields in E.
  destruct E as [_ [_ [_ [_ [_ [_ [_ [_ [-> _]]]]]]]]].
  assert (Hin : In (availability_of page)
                  ["Available"; "Out of Stock"; "Coming Soon"; "Backorder"]).
  { unfold availability_of.
    set (lower := toLowerCase (DetailPage.pageContent page)).
    assert (Hscan : In (scan_page lower "Available")
                      ["Available"; "Out of Stock"; "Coming Soon";
                       "Backorder"]).
    { unfold scan_page.
      destruct (includes lower "sold out"); [simpl; auto|].
      destruct (includes lower "out of stock") eqn:Hoos; [simpl; auto|].
      cbn [orb].
      destruct (includes lower "coming soon"); [simpl; auto|].
      destruct (includes lower "temporarily out of stock") eqn:Htemp.
      - apply (includes_phrase_end lower "temporarily " "out of stock")
          in Htemp. congruence.
      - destruct (includes lower "backorder"); simpl; auto. }
    assert (Hlabel : forall a,
               In a ["Available"; "Out of Stock"; "Coming Soon"; "Backorder"] ->
               In (read_label (DetailPage.availabilityText page) a)
                 ["Available"; "Out of Stock"; "Coming Soon"; "Backorder"]).
    { intros a Ha. unfold read_label.
      destruct (truthy _); [|exact Ha].
      destruct (_ || _); [simpl; auto|].
      destruct (includes _ "coming soon"); [simpl; auto|].
      destruct (_ || _); [simpl; auto|].
      destruct (includes _ "available"); [simpl; auto | exact Ha]. }
    apply Hlabel.
    destruct (negb _ || _); [exact Hscan | simpl; auto]. }
  split; [exact Hin|].
  intros Heq. rewrite Heq in Hin. simpl in Hin.
  repeat (destruct Hin as [Hin | Hin]; [discriminate Hin|]). exact Hin.
Qed.

(** X19 on a page whose text says "Temporarily out of stock" and whose
    add-to-bag button is disabled. *)
Lemma X19_detail_availability_witness :
  exists r,
    productHandler detail_page "2024-05-01T12:00:00.000Z" = Some r
    /\ DetailProduct.availability r = "Out of Stock"
    /\ DetailProduct.availability r <> "Temporarily Out of Stock".
Proof.
  eexists. split; [reflexivity|]. split; [reflexivity|].
  exact (proj2 (X19_detail_availability detail_page
                  "2024-05-01T12:00:00.000Z" _ eq_refl)).
Defined.

Lemma add_badges_from (badges : list string) :
  forall (tags : list string) (t : string),
    In t (add_badges badges tags) ->
    In t tags
    \/ exists b, In b badges /\ t = trim b /\ t <> ""
                 /\ (utf16_length t < 30)%nat /\ is_valid_tag t = true.
Proof.
  induction badges as [|b bs IH]; intros tags t Hin; [now left|].
  cbn [add_badges] in Hin.
  destruct (truthy (trim b) && (utf16_length (trim b) <? 30)%nat
            && is_valid_tag (trim b) && negb (mem_str (trim b) tags))
    eqn:Hc.
  - apply IH in Hin as [Hin | [b' [Hb' H]]].
    + apply in_app_iff in Hin as [Hin | [<- | []]]; [now left|].
      right. exists b. split; [now left|].
      apply andb_true_iff in Hc as [Hc _].
      apply andb_true_iff in Hc as [Hc Hv].
      apply andb_true_iff in Hc as [Ht Hl].
      apply truthy_nonempty in Ht. apply Nat.ltb_lt in Hl. auto.
    + right. exists b'. split; [now right | exact H].
  - apply IH in Hin as [Hin | [b' [Hb' H]]]; [now left|].
    right. exists b'. split; [now right | exact H].
Qed.

Lemma add_badges_length (badges : list string) :
  forall tags : list string,
    (List.length (add_badges badges tags)
     <= List.length tags + List.length badges)%nat.
Proof.
  induction badges as [|b bs IH]; intros tags; cbn [add_badges List.length];
    [lia|].
  destruct (_ && _).
  - etransitivity; [apply IH|]. rewrite length_app. simpl. lia.
  - etransitivity; [apply IH|]. lia.
Qed.

Lemma push_if_from (cond : bool) (tag : string) (tags : list string)
  (t : string) :
  In t (push_if cond tag tags) -> In t tags \/ t = tag.
Proof.
  unfold push_if. destruct cond; [|now left].
  rewrite in_app_iff. simpl. intros [H | [H | []]]; auto.
Qed.

Lemma push_if_length (cond : bool) (tag : string) (tags : list string) :
  (List.length (push_if cond tag tags) <= S (List.length tags))%nat.
Proof.
  unfold push_if. destruct cond; [|lia]. rewrite length_app. simpl. lia.
Qed.

Lemma push_if_bound (cond : bool) (tag : string) (tags : list string)
  (n : nat) :
  (List.length tags <= n)%nat ->
  (List.length (push_if cond tag tags) <= S n)%nat.
Proof. intros H. pose proof (push_if_length cond tag tags). lia. Qed.

Lemma firstn_from {A} (n : nat) (l : list A) (x : A) :
  In x (firstn n l) -> In x l.
Proof.
  revert l. induction n as [|n IH]; intros [|y l]; simpl; try tauto.
  intros [H | H]; auto.
Qed.

Lemma dedup_length (l : list string) :
  (List.length (dedup l) <= List.length l)%nat.
Proof.
  apply NoDup_incl_length; [apply dedup_NoDup|].
  intros x. apply dedup_In.
Qed.

(** X20: the tags of a product record are pairwise distinct and at most
    26; each is one of the six tags the handler adds on its own, or the
    trimmed text of a badge or flag that is not empty, shorter than 30
    characters and matches the allow-list; and a record that is on sale
    has a tag that reads "sale" when put in lower case. *)
Theorem X20_detail_tags :
  forall (page : DetailPage.t) (now : string) (r : DetailProduct.t),
    productHandler page now = Some r ->
    NoDup (DetailProduct.tags r)
    /\ (List.length (DetailProduct.tags r) <= 26)%nat
    /\ (forall t, In t (DetailProduct.tags r) ->
                  In t fixed_tags
                  \/ exists b,
                       In b (DetailPage.badgeTexts page
                             ++ DetailPage.flagTexts page)%list
                       /\ t = trim b /\ t <> ""
                       /\ (utf16_length t < 30)%nat
                       /\ is_valid_tag t = true)
    /\ (DetailProduct.isOnSale r = true ->
        exists t, In t (DetailProduct.tags r) /\ toLowerCase t = "sale").
Proof.
  intros page now r E. apply productHandler_fields in E.
  destruct E as [_ [_ [_ [_ [_ [_ [_ [-> [_ [-> _]]]]]]]]]].
  set (isOnSale := Pricing.isOnSale (extract_pricing (DetailPage.prices page))).
  unfold tags_of. split; [apply dedup_NoDup|]. split; [|split].
  - etransitivity; [apply dedup_length|]. unfold collect_tags.
    do 6 apply push_if_bound.
    etransitivity; [apply add_badges_length|].
    pose proof (add_badges_length
                  (firstn 10 (DetailPage.badgeTexts page)) []) as H0.
    rewrite !length_firstn in *. cbn [List.length Nat.add] in H0. lia.
  - intros t Hin. apply (proj1 (dedup_In _ _)) in Hin.
    unfold collect_tags in Hin.
    repeat (apply push_if_from in Hin as [Hin | ->];
            [|left; unfold fixed_tags; simpl; tauto]).
    right.
    apply add_badges_from in Hin as [Hin | [b [Hb H]]].
    + apply add_badges_from in Hin as [[] | [b [Hb H]]].
      exists b. split; [|exact H].
      apply in_app_iff. left. now apply firstn_from in Hb.
    + exists b. split; [|exact H].
      apply in_app_iff. right. now apply firstn_from in Hb.
  - intros Hsale. unfold collect_tags.
    match goal with
    | |- context [push_if (isOnSale && negb (existsb ?f ?l)) "Sale" ?l] =>
        set (tags6 := l); destruct (existsb f tags6) eqn:Hex
    end.
    + apply existsb_exists in Hex as [t [Hin Ht]].
      apply String.eqb_eq in Ht. exists t. split; [|exact Ht].
      apply (proj2 (dedup_In _ _)). rewrite andb_false_r. exact Hin.
    + exists "Sale". split; [|reflexivity].
      apply (proj2 (dedup_In _ _)). rewrite Hsale. cbn [negb andb push_if].
      apply in_app_iff. right. now left.
Qed.

(** X20 on a page with the badge "Exclusive" three times, once in lower
    case, and a flag outside the allow-list. *)
Lemma X20_detail_tags_witness :
  exists r,
    productHandler detail_page "2024-05-01T12:00:00.000Z" = Some r
    /\ DetailProduct.tags r = ["Exclusive"; "exclusive"; "Sale"]
    /\ NoDup (DetailProduct.tags r).
Proof.
  eexists. split; [reflexivity|]. split; [reflexivity|].
  exact (proj1 (X20_detail_tags detail_page "2024-05-01T12:00:00.000Z" _
                  eq_refl)).
Defined.

Lemma first_digits_no_digit (s : string) :
  match first_digits s with
  | Some _ => no_digit s = false
  | None => no_digit s = true
  end.
Proof.
  unfold no_digit. induction s as [|c t IH]; cbn [first_digits all_chars];
    [reflexivity|].
  destruct (is_digit c); [reflexivity|]. exact IH.
Qed.

Lemma span_snd_head (f : ascii -> bool) (s : string) :
  at_end_or (fun c => negb (f c)) (snd (span f s)) = true.
Proof.
  induction s as [|c t IH]; [reflexivity|]. cbn [span].
  destruct (f c) eqn:Hc.
  - destruct (span f t) as [a b]. exact IH.
  - cbn [snd at_end_or]. now rewrite Hc.
Qed.

(** The match of [/(\d+)/]: what comes before it holds no digit, the run
    is not empty and goes on as long as digits follow. *)
Lemma first_digits_shape (s ds : string) :
  first_digits s = Some ds ->
  exists pre rest : string,
    s = pre ++ ds ++ rest
    /\ no_digit pre = true
    /\ ds <> ""
    /\ all_chars is_digit ds = true
    /\ at_end_or (fun c => negb (is_digit c)) rest = true.
Proof.
  unfold no_digit. induction s as [|c t IH]; [discriminate|].
  change (first_digits (String c t))
    with (if is_digit c then Some (fst (span is_digit (String c t)))
          else first_digits t).
  destruct (is_digit c) eqn:Hc.
  - intros E.
    assert (Hds : ds = fst (span is_digit (String c t))) by congruence.
    subst ds. clear E.
    exists "", (snd (span is_digit (String c t))).
    split; [exact (span_app is_digit (String c t))|].
    split; [reflexivity|].
    split; [|split; [apply span_fst_all | apply span_snd_head]].
    cbn [span]. rewrite Hc. now destruct (span is_digit t).
  - intros E. destruct (IH E) as (pre & rest & -> & Hpre & Hne & Hds & Hrest).
    exists (String c pre), rest. split; [reflexivity|].
    split; [cbn [all_chars]; now rewrite Hc|]. now repeat split.
Qed.

Lemma count_of_read (text : string) : count_read text (count_of text).
Proof.
  unfold count_of, count_read.
  pose proof (first_digits_no_digit text) as H.
  pose proof (first_digits_shape text) as Hs.
  destruct (first_digits text) as [ds|]; cbn [option_map]; [|exact H].
  destruct (Hs ds eq_refl) as (pre & rest & E & Hpre & Hne & Hds & Hrest).
  exists pre, ds, rest. now repeat split.
Qed.

(** A run of digits above 2^53 is read as the double nearest to it. *)
Example count_of_rounds :
  count_of "9007199254740993 Pieces" = Some 9007199254740992%float.
Proof. vm_compute. reflexivity. Qed.

(** X21: the piece count, the minifigure count and the review count of a
    product record are each absent exactly when the text they are read
    from holds no digit; otherwise each is [parseInt], a double, of the
    first run of digits of its text, the run taken as long as it goes. *)
Theorem X21_detail_counts :
  forall (page : DetailPage.t) (now : string) (r : DetailProduct.t),
    productHandler page now = Some r ->
    count_read (DetailPage.piecesText page) (DetailProduct.pieces r)
    /\ count_read (DetailPage.minifigsText page)
         (DetailProduct.minifigures r)
    /\ count_read (DetailPage.reviewText page)
         (DetailProduct.reviewCount r).
Proof.
  intros page now r E. apply productHandler_fields in E.
  destruct E as [_ [_ [_ [_ [-> [-> [-> _]]]]]]].
  repeat split; apply count_of_read.
Qed.

(** X21 on a page with 1458 pieces, no minifigure text and 212 reviews. *)
Lemma X21_detail_counts_witness :
  exists r,
    productHandler detail_page "2024-05-01T12:00:00.000Z" = Some r
    /\ DetailProduct.pieces r = Some 1458%float
    /\ DetailProduct.minifigures r = None
    /\ count_read "" (DetailProduct.minifigures r).
Proof.
  eexists. split; [reflexivity|]. split; [vm_compute; reflexivity|].
  split; [reflexivity|].
  exact (proj1 (proj2 (X21_detail_counts detail_page
                         "2024-05-01T12:00:00.000Z" _ eq_refl))).
Defined.

(** *** [trim] *)

Lemma drop_space_app (a r b : string) :
  drop_space a = Some r -> drop_space (a ++ b) = Some (r ++ b).
Proof.
  destruct a as [|c1 [|c2 [|c3 t3]]]; cbn [drop_space append].
  - discriminate.
  - destruct (is_space c1); [|discriminate].
    intros E. inversion E. reflexivity.
  - destruct (is_space c1); [intros E; inversion E; reflexivity|].
    destruct (is_space2 c1 c2); [|discriminate].
    intros E. inversion E. reflexivity.
  - destruct (is_space c1); [intros E; inversion E; reflexivity|].
    destruct (is_space2 c1 c2); [intros E; inversion E; reflexivity|].
    destruct (is_space3 c1 c2 c3); [|discriminate].
    intros E. inversion E. reflexivity.
Qed.

Lemma drop_space_shorter (s r : string) :
  drop_space s = Some r -> (String.length r < String.length s)%nat.
Proof.
  destruct s as [|c1 [|c2 [|c3 t3]]]; cbn [drop_space String.length].
  - discriminate.
  - destruct (is_space c1); [|discriminate].
    intros E. inversion E. cbn. lia.
  - destruct (is_space c1); [intros E; inversion E; cbn; lia|].
    destruct (is_space2 c1 c2); [|discriminate].
    intros E. inversion E. cbn. lia.
  - destruct (is_space c1); [intros E; inversion E; cbn; lia|].
    destruct (is_space2 c1 c2); [intros E; inversion E; cbn; lia|].
    destruct (is_space3 c1 c2 c3); [|discriminate].
    intros E. inversion E. lia.
Qed.

Lemma ltrim_eq (s : string) :
  ltrim s = match drop_space s with
            | Some r => ltrim r
            | None => s
            end.
Proof.
  destruct s as [|c1 [|c2 [|c3 t3]]]; cbn [ltrim drop_space].
  - reflexivity.
  - now destruct (is_space c1).
  - destruct (is_space c1); [reflexivity|]. now destruct (is_space2 c1 c2).
  - destruct (is_space c1); [reflexivity|].
    destruct (is_space2 c1 c2); [reflexivity|].
    now destruct (is_space3 c1 c2 c3).
Qed.

Lemma white_only_eq (s : string) :
  white_only s = match s with
                 | EmptyString => true
                 | _ => match drop_space s with
                        | Some r => white_only r
                        | None => false
                        end
                 end.
Proof.
  destruct s as [|c1 [|c2 [|c3 t3]]]; cbn [white_only drop_space].
  - reflexivity.
  - now destruct (is_space c1).
  - destruct (is_space c1); [reflexivity|]. now destruct (is_space2 c1 c2).
  - destruct (is_space c1); [reflexivity|].
    destruct (is_space2 c1 c2); [reflexivity|].
    now destruct (is_space3 c1 c2 c3).
Qed.

(** What [ltrim] leaves does not start with white space. *)
Lemma ltrim_head (s : string) : drop_space (ltrim s) = None.
Proof.
  remember (String.length s) as n eqn:Hn. revert s Hn.
  induction n as [n IH] using lt_wf_ind. intros s Hn.
  rewrite ltrim_eq. destruct (drop_space s) as [r|] eqn:E; [|exact E].
  apply (IH (String.length r)); [|reflexivity].
  subst n. now apply drop_space_shorter.
Qed.

Lemma ltrim_clean (s : string) : drop_space s = None -> ltrim s = s.
Proof. intros H. now rewrite ltrim_eq, H. Qed.

Lemma white_only_app (a b : string) :
  white_only a = true -> white_only (a ++ b) = white_only b.
Proof.
  remember (String.length a) as n eqn:Hn. revert a Hn.
  induction n as [n IH] using lt_wf_ind. intros a Hn Ha.
  destruct a as [|c t]; [reflexivity|].
  rewrite white_only_eq in Ha.
  destruct (drop_space (String c t)) as [r|] eqn:E; [|discriminate].
  rewrite white_only_eq.
  change (String c t ++ b) with (String c (t ++ b)).
  change (String c (t ++ b)) with (String c t ++ b).
  rewrite (drop_space_app _ _ b E).
  change (String c t ++ b) with (String c (t ++ b)). cbv iota.
  apply (IH (String.length r)); [|reflexivity | exact Ha].
  subst n. now apply drop_space_shorter.
Qed.

(** [rtrim] cuts an end made of white space. *)
Lemma rtrim_split (s : string) :
  exists w : string, s = rtrim s ++ w /\ white_only w = true.
Proof.
  induction s as [|c t IH]; [now exists ""|]. cbn [rtrim].
  destruct (white_only (String c t)) eqn:Hw.
  - now exists (String c t).
  - destruct IH as (w & E & Hwo). exists w. split; [|exact Hwo].
    cbn [append]. now rewrite <- E.
Qed.

Lemma rtrim_idempotent (s : string) : rtrim (rtrim s) = rtrim s.
Proof.
  induction s as [|c t IH]; [reflexivity|]. cbn [rtrim].
  destruct (white_only (String c t)) eqn:Hw; [reflexivity|].
  cbn [rtrim]. rewrite IH.
  destruct (white_only (String c (rtrim t))) eqn:Hw'; [|reflexivity].
  destruct (rtrim_split t) as (w & E & Hwo).
  rewrite E in Hw. change (String c (rtrim t ++ w))
    with (String c (rtrim t) ++ w) in Hw.
  rewrite (white_only_app _ w Hw') in Hw. congruence.
Qed.

Lemma rtrim_head (s : string) :
  drop_space s = None -> drop_space (rtrim s) = None.
Proof.
  intros H. destruct (rtrim_split s) as (w & E & _).
  destruct (drop_space (rtrim s)) as [r|] eqn:Hr; [|reflexivity].
  rewrite E, (drop_space_app _ _ w Hr) in H. discriminate.
Qed.

Lemma trim_idempotent (s : string) : trim (trim s) = trim s.
Proof.
  unfold trim.
  rewrite (ltrim_clean (rtrim (ltrim s))) by apply rtrim_head, ltrim_head.
  apply rtrim_idempotent.
Qed.

(** What [trim] returns neither starts nor ends with white space. *)
Lemma trim_ends (s : string) :
  drop_space (trim s) = None
  /\ forall p w : string, trim s = p ++ w -> white_only w = true -> w = "".
Proof.
  split; [apply rtrim_head, ltrim_head|].
  unfold trim. generalize (ltrim s) as u. clear s.
  induction u as [|c t IH]; intros p w E Hw.
  - cbn [rtrim] in E. destruct p; [|discriminate]. now destruct w.
  - cbn [rtrim] in E. destruct (white_only (String c t)) eqn:Hct.
    + destruct p; [|discriminate]. now destruct w.
    + destruct p as [|c' p'].
      * cbn [append] in E. subst w.
        destruct (rtrim_split t) as (w' & E' & Hw').
        rewrite E' in Hct.
        change (String c (rtrim t ++ w')) with (String c (rtrim t) ++ w')
          in Hct.
        rewrite (white_only_app _ w' Hw) in Hct. congruence.
      * cbn [append] in E. inversion E as [[Hc Ht]].
        now apply (IH p' w).
Qed.

(** X22: the name and the theme of a product record neither start nor
    end with white space (the white space of [String.prototype.trim], the
    no-break space and the other Unicode spaces included), the age range
    is absent rather than empty and has no white space at its ends
    either, and the product URL is the URL of the request. *)
Theorem X22_detail_texts :
  forall (page : DetailPage.t) (now : string) (r : DetailProduct.t),
    productHandler page now = Some r ->
    no_outer_space (DetailProduct.name r)
    /\ no_outer_space (DetailProduct.theme r)
    /\ DetailProduct.ageRange r <> Some ""
    /\ (forall a, DetailProduct.ageRange r = Some a -> no_outer_space a)
    /\ DetailProduct.productUrl r = DetailPage.url page.
Proof.
  intros page now r E. unfold productHandler in E.
  destruct (DetailPage.nameAppears page); simpl in E; [|discriminate].
  inversion E; subst r; clear E. cbn.
  split; [apply trim_ends|]. split; [apply trim_ends|].
  destruct (truthy (trim (DetailPage.ageText page))) eqn:Ht.
  - apply truthy_nonempty in Ht. split; [congruence|].
    split; [|reflexivity]. intros a Ha. inversion Ha.
    apply trim_ends.
  - split; [discriminate|]. split; [discriminate | reflexivity].
Qed.

(** X22 on a product page whose name has a no-break space on either side
    and whose age text is one no-break space. *)
Lemma X22_detail_texts_witness :
  exists r,
    productHandler nbsp_page "2024-05-01T12:00:00.000Z" = Some r
    /\ DetailProduct.name r = "Vintage Car"
    /\ DetailProduct.ageRange r = None
    /\ no_outer_space (DetailProduct.name r).
Proof.
  eexists. split; [reflexivity|]. split; [reflexivity|].
  split; [reflexivity|].
  exact (proj1 (X22_detail_texts nbsp_page "2024-05-01T12:00:00.000Z" _
                  eq_refl)).
Defined.

(** X23: the set number of a product record is empty or made of four to
    six digits; when the request URL ends in a hyphen and four to six
    digits, with or without a query string after them and no question mark
    before, the set number is these digits. *)
Theorem X23_detail_set_number :
  forall (page : DetailPage.t) (now : string) (r : DetailProduct.t),
    productHandler page now = Some r ->
    (DetailProduct.setNumber r = ""
     \/ (all_chars is_digit (DetailProduct.setNumber r) = true
         /\ (4 <= String.length (DetailProduct.setNumber r) <= 6)%nat))
    /\ forall p ds tail : string,
         DetailPage.url page = p ++ "-" ++ ds ++ tail ->
         all_chars not_question p = true ->
         all_chars is_digit ds = true ->
         (4 <= String.length ds <= 6)%nat ->
         at_end_or (fun c => (c =? "?")%char) tail = true ->
         DetailProduct.setNumber r = ds.
Proof.
  intros page now r E. apply productHandler_fields in E.
  destruct E as [_ [-> _]]. unfold setNumber_of_url. split.
  - destruct (match_number_after _ _ _ _ _) as [n|] eqn:Hn; [|now left].
    right. now apply match_number_after_shape in Hn.
  - intros p ds tail -> Hp Hds Hlen Htail.
    change ("-" ++ ds ++ tail) with (String "-" (ds ++ tail)).
    rewrite match_number_after_prefix;
      [| exact Hp | reflexivity | reflexivity].
    rewrite match_number_after_here;
      [reflexivity | exact Hds | exact Hlen | exact Htail |].
    destruct tail as [|c t]; [reflexivity|]. simpl in *.
    apply Ascii.eqb_eq in Htail. now subst c.
Qed.

(** X23 at the URL of the vintage car. *)
Lemma X23_detail_set_number_witness :
  exists r,
    productHandler detail_page "2024-05-01T12:00:00.000Z" = Some r
    /\ DetailProduct.setNumber r = "10300".
Proof.
  eexists. split; [reflexivity|].
  apply (proj2 (X23_detail_set_number detail_page
                  "2024-05-01T12:00:00.000Z" _ eq_refl)
           "https://www.lego.com/en-us/product/vintage-car" "10300" "");
    try reflexivity.
  simpl. lia.
Defined.

(** The first byte of a white-space code point. *)
Lemma drop_space_lead (c : ascii) (t r : string) :
  drop_space (String c t) = Some r ->
  is_space c = true
  \/ In (nat_of_ascii c) [194; 225; 226; 227; 239]%nat.
Proof.
  cbn [drop_space]. destruct (is_space c); [now left|]. intros H. right.
  destruct t as [|c2 [|c3 t3]]; [discriminate| |].
  - unfold is_space2 in H.
    destruct (nat_of_ascii c =? 194)%nat eqn:E; [|discriminate].
    apply Nat.eqb_eq in E. rewrite E. now left.
  - unfold is_space2, is_space3 in H.
    destruct (nat_of_ascii c =? 194)%nat eqn:E1;
      [apply Nat.eqb_eq in E1; rewrite E1; now left|].
    destruct (nat_of_ascii c =? 225)%nat eqn:E2;
      [apply Nat.eqb_eq in E2; rewrite E2; right; now left|].
    destruct (nat_of_ascii c =? 226)%nat eqn:E3;
      [apply Nat.eqb_eq in E3; rewrite E3; do 2 right; now left|].
    destruct (nat_of_ascii c =? 227)%nat eqn:E4;
      [apply Nat.eqb_eq in E4; rewrite E4; do 3 right; now left|].
    destruct (nat_of_ascii c =? 239)%nat eqn:E5;
      [apply Nat.eqb_eq in E5; rewrite E5; do 4 right; now left|].
    discriminate.
Qed.

Lemma space_not_rating (c : ascii) :
  is_space c = true
  \/ In (nat_of_ascii c) [194; 225; 226; 227; 239]%nat ->
  is_rating_char c = false.
Proof.
  destruct c as [[] [] [] [] [] [] [] []]; vm_compute; try reflexivity;
    intros [H | H]; try discriminate H;
    repeat (destruct H as [H | H]; [discriminate H|]); destruct H.
Qed.

Lemma out_of_five_start (tail : string) :
  out_of_five tail = true ->
  at_end_or (fun c => negb (is_rating_char c)) tail = true.
Proof.
  destruct tail as [|c t]; [discriminate|]. intros H. cbn [at_end_or].
  apply negb_true_iff.
  destruct (drop_space (String c t)) as [r|] eqn:Hs;
    [exact (space_not_rating c (drop_space_lead c t r Hs))|].
  unfold out_of_five in H. rewrite (ltrim_clean _ Hs) in H.
  destruct (prefix "out of" (String c t)) eqn:Ho.
  - apply prefix_app in Ho as [q E]. now inversion E.
  - destruct (prefix "/" (String c t)) eqn:Hp; [|discriminate].
    apply prefix_app in Hp as [q E]. now inversion E.
Qed.

Lemma match_rating_label_skip (pre s : string) :
  all_chars (fun c => negb (is_rating_char c)) pre = true ->
  match_rating_label (pre ++ s) = match_rating_label s.
Proof.
  intros H. induction pre as [|c t IH]; [reflexivity|].
  simpl in H. apply andb_true_iff in H as [Hc Ht].
  apply negb_true_iff in Hc.
  change (String c t ++ s) with (String c (t ++ s)).
  cbn [match_rating_label]. rewrite Hc. now apply IH.
Qed.

(** X24: when the rating label reads, after a part without digits and
    points, a number followed by "out of 5" or "/ 5", the rating of the
    record is that number, whatever the rating text says. *)
Theorem X24_detail_rating_from_label :
  forall (page : DetailPage.t) (now : string) (r : DetailProduct.t)
         (pre run tail : string),
    productHandler page now = Some r ->
    DetailPage.ratingLabel page = pre ++ run ++ tail ->
    all_chars (fun c => negb (is_rating_char c)) pre = true ->
    all_chars is_rating_char run = true ->
    run <> "" ->
    out_of_five tail = true ->
    DetailProduct.rating r = Some (parseFloat run).
Proof.
  intros page now r pre run tail E Hlabel Hpre Hrun Hne Htail.
  unfold productHandler in E.
  destruct (DetailPage.nameAppears page); simpl in E; [|discriminate].
  inversion E; subst r; clear E. cbn [DetailProduct.rating].
  unfold rating_of. rewrite Hlabel, (match_rating_label_skip _ _ Hpre).
  destruct run as [|c run']; [contradiction|].
  change (String c run' ++ tail) with (String c (run' ++ tail)).
  cbn [match_rating_label].
  pose proof Hrun as Hc. cbn [all_chars] in Hc.
  apply andb_true_iff in Hc as [Hc _]. rewrite Hc.
  change (String c (run' ++ tail)) with (String c run' ++ tail).
  rewrite (span_run is_rating_char (String c run') tail Hrun
             (out_of_five_start tail Htail)).
  now rewrite Htail.
Qed.

(** X24 on the label "4.5 out of 5 stars". *)
Lemma X24_detail_rating_from_label_witness :
  exists r,
    productHandler detail_page "2024-05-01T12:00:00.000Z" = Some r
    /\ DetailProduct.rating r = Some (parseFloat "4.5").
Proof.
  eexists. split; [reflexivity|].
  apply (X24_detail_rating_from_label detail_page
           "2024-05-01T12:00:00.000Z" _ "" "4.5" " out of 5 stars");
    try reflexivity.
  discriminate.
Defined.

End ProductRecord.
